(** * The parallel task-execution engine of the WebUI backend

    A shallow embedding of [app/claude_flow/parallel_processor.py]
    (class [ParallelProcessor]) together with the parts of
    [app/models/schemas.py] and [app/agents/base_agent.py] it relies on.

    The engine is asyncio code: coroutines run one at a time and hand over
    control only at an [await] that really suspends.  The embedding is a
    transition system whose state is the processor object plus the
    suspended coroutines (worker loops, callers of
    [execute_agents_parallel], the delayed session clean-ups), and whose
    events resume one coroutine until its next suspension.

    Where a coroutine can be suspended: a worker in [task_queue.get()], in
    [semaphore.acquire()] when no permit is free, in
    [agent_instance.execute(...)] and in the progress callback; a caller in
    [task_queue.put(...)] when the queue is full and in [asyncio.sleep] of
    its wait loop.  [put] on a queue with room, [acquire] with a free
    permit and [get] on a non-empty queue go through without suspending.

    Conventions of the embedding:
    - task objects and session contexts are mutable Python objects that
      several coroutines alias; they live in two stores and are named by
      their index;
    - the module logs through a logger of the standard library that it
      calls with keyword arguments; what such a call does, and where it
      changes the control flow, is the subject of the section on logging;
    - wall-clock values are left out: the fields [start_time] and
      [end_time] of tasks, results and session contexts, [last_activity]
      and the execution times of the worker statistics; the test
      [time.time() - start_wait > timeout] is an input of the event that
      runs it;
    - the registry consulted by [get_agent] is a component of the
      processor; the placeholder [get_agent] of the module (which always
      answers [None]) is the empty registry. *)

From stdpp Require Import gmap strings list fin_maps.
From Stdlib Require Import ZArith QArith Lia Ascii.

Open Scope string_scope.
Open Scope list_scope.
Open Scope nat_scope.

(** ** [app/models/schemas.py] *)

Inductive StatusEnum := PENDING | RUNNING | COMPLETED | FAILED | CANCELLED.

Inductive PriorityEnum := LOW | NORMAL | HIGH | CRITICAL.

#[global] Instance StatusEnum_eq_dec : EqDecision StatusEnum.
Proof. solve_decision. Defined.

#[global] Instance PriorityEnum_eq_dec : EqDecision PriorityEnum.
Proof. solve_decision. Defined.

(** [PriorityEnum(int, Enum)]: the integer behind each member. *)
Definition priority_value (p : PriorityEnum) : Z :=
  match p with
  | LOW => 1
  | NORMAL => 5
  | HIGH => 8
  | CRITICAL => 10
  end.

(** [Dict[str, Any]] payloads are opaque to the engine. *)
Definition Data := list (string * string).

Abbreviation TaskRef := nat.
Abbreviation CtxRef := nat.

(** [SubAgentTaskModel] without its two time stamps: [start_time] and
    [end_time] are written by [_execute_task] next to the status (the
    stamps of the agent result after the agent has run, the clock in the
    except block) and read by nothing in the engine but the report of
    [get_agent_tasks]. *)
Record SubAgentTaskModel := mkTask {
  task_id : string;
  agent_name : string;
  task_type : string;
  priority : PriorityEnum;
  status : StatusEnum;
  input_data : Data;
  output_data : option Data;
  error_message : option string
}.

Definition set_status (v : StatusEnum) (t : SubAgentTaskModel) : SubAgentTaskModel :=
  mkTask (task_id t) (agent_name t) (task_type t) (priority t) v
         (input_data t) (output_data t) (error_message t).

Definition set_output_data (v : option Data) (t : SubAgentTaskModel) : SubAgentTaskModel :=
  mkTask (task_id t) (agent_name t) (task_type t) (priority t) (status t)
         (input_data t) v (error_message t).

Definition set_error_message (v : option string) (t : SubAgentTaskModel) : SubAgentTaskModel :=
  mkTask (task_id t) (agent_name t) (task_type t) (priority t) (status t)
         (input_data t) (output_data t) v.

(** ** [app/agents/base_agent.py] *)

Inductive AgentStatus :=
  A_PENDING | A_RUNNING | A_COMPLETED | A_FAILED | A_CANCELLED.

#[global] Instance AgentStatus_eq_dec : EqDecision AgentStatus.
Proof. solve_decision. Defined.

(** [StatusEnum(result.status.value)]: both enums carry the same five
    strings. *)
Definition StatusEnum_of (a : AgentStatus) : StatusEnum :=
  match a with
  | A_PENDING => PENDING
  | A_RUNNING => RUNNING
  | A_COMPLETED => COMPLETED
  | A_FAILED => FAILED
  | A_CANCELLED => CANCELLED
  end.

Record AgentResult := mkResult {
  r_status : AgentStatus;
  r_output_data : option Data;
  r_error_message : option string
}.

(** What the subclass part of an agent ([_validate_input], [_execute_main],
    [_validate_output]) does on an input. *)
Inductive MainOutcome :=
| MainReturns (output : Data)
| MainValueError (msg : string)
| MainNotImplemented
| MainException (msg : string).

Definition AgentClass := Data -> MainOutcome.

(** [BaseAgent.execute]: every outcome of the subclass part is turned into
    an [AgentResult]; the method itself raises only when its asyncio task
    is cancelled, which nothing in the engine does. *)
Definition BaseAgent_execute (agent : AgentClass) (input : Data) : AgentResult :=
  match agent input with
  | MainReturns out => mkResult A_COMPLETED (Some out) None
  | MainValueError msg => mkResult A_FAILED None (Some ("入力データエラー: " +:+ msg))
  | MainNotImplemented => mkResult A_FAILED None (Some "エージェントが未実装です")
  | MainException msg => mkResult A_FAILED None (Some ("予期しないエラー: " +:+ msg))
  end.

(** ** [app/claude_flow/parallel_processor.py]: data *)

Record WorkerStats := mkStats {
  worker_id : nat;
  tasks_completed : nat;
  tasks_failed : nat;
  current_task : option string
}.

Definition set_current_task (v : option string) (st : WorkerStats) : WorkerStats :=
  mkStats (worker_id st) (tasks_completed st) (tasks_failed st) v.

Definition incr_tasks_completed (st : WorkerStats) : WorkerStats :=
  mkStats (worker_id st) (S (tasks_completed st)) (tasks_failed st) (current_task st).

Definition incr_tasks_failed (st : WorkerStats) : WorkerStats :=
  mkStats (worker_id st) (tasks_completed st) (S (tasks_failed st)) (current_task st).

(** A progress callback is called with the completed count and awaited;
    [None] is a normal return, [Some msg] an exception with that message. *)
Definition Callback := nat -> option string.

Record SessionContext := mkCtx {
  session_id : string;
  tasks : list TaskRef;
  completed_tasks : list TaskRef;
  failed_tasks : list TaskRef;
  is_cancelled : bool;
  progress_callback : option Callback
}.

Definition append_completed (t : TaskRef) (c : SessionContext) : SessionContext :=
  mkCtx (session_id c) (tasks c) (completed_tasks c ++ [t]) (failed_tasks c)
        (is_cancelled c) (progress_callback c).

Definition append_failed (t : TaskRef) (c : SessionContext) : SessionContext :=
  mkCtx (session_id c) (tasks c) (completed_tasks c) (failed_tasks c ++ [t])
        (is_cancelled c) (progress_callback c).

Definition set_cancelled (c : SessionContext) : SessionContext :=
  mkCtx (session_id c) (tasks c) (completed_tasks c) (failed_tasks c)
        true (progress_callback c).

Inductive Exn :=
| RuntimeError (msg : string)
| ZeroDivisionError
| TypeError.
    (* raised by [Logger._log] when it is handed keyword arguments *)

(** A method that returns a value or raises. *)
Inductive Result (A : Type) :=
| Return (a : A)
| Raise (e : Exn).

Arguments Return {A} a.
Arguments Raise {A} e.

(** Where a worker coroutine is suspended, or how it ended. *)
Inductive WorkerPc :=
| WGet
    (* in [task_queue.get()] *)
| WAcquire (sid : string) (t : TaskRef)
    (* in [semaphore.acquire()] on entry of [async with] *)
| WExecute (sid : string) (t : TaskRef) (ctx : CtxRef)
           (agent : AgentClass) (input : Data)
    (* in [agent_instance.execute(...)] *)
| WCallback (sid : string) (t : TaskRef) (outcome : option string)
    (* in [session_context.progress_callback(...)] *)
| WExited
    (* the loop was left by [break] or by the test of [is_running] *)
| WRaised (e : Exn).
    (* the loop, and with it the coroutine, was left by an exception *)

Inductive ExitKind := ByCompletion | ByTimeout | ByCancellation.

(** Where a call of [execute_agents_parallel] is suspended, or how it
    ended. *)
Inductive CallState :=
| CPut (ctx : CtxRef) (sid : string) (pending : list TaskRef) (total : nat)
    (* in [task_queue.put(...)]; the head of [pending] is the item being put *)
| CSleep (ctx : CtxRef) (sid : string) (total : nat)
    (* in [asyncio.sleep(0.1)] of the wait loop *)
| CReturned (how : ExitKind) (result : list TaskRef)
| CRaised (e : Exn).

Record Engine := mkEngine {
  max_workers : nat;
  queue_size : Z;
  registry : gmap string AgentClass;
  semaphore : nat;
  task_queue : list (option (string * TaskRef));
  active_sessions : gmap string CtxRef;
  workers : list (WorkerStats * WorkerPc);
  is_initialized : bool;
  is_running : bool;
  objects : list SubAgentTaskModel;
  contexts : list SessionContext;
  calls : list CallState;
  cleanup_timers : list string;
  shutdown_puts : nat
}.

Definition with_semaphore (v : nat) (s : Engine) : Engine :=
  mkEngine (max_workers s) (queue_size s) (registry s) v (task_queue s)
    (active_sessions s) (workers s) (is_initialized s) (is_running s)
    (objects s) (contexts s) (calls s) (cleanup_timers s) (shutdown_puts s).

Definition with_task_queue (v : list (option (string * TaskRef))) (s : Engine) : Engine :=
  mkEngine (max_workers s) (queue_size s) (registry s) (semaphore s) v
    (active_sessions s) (workers s) (is_initialized s) (is_running s)
    (objects s) (contexts s) (calls s) (cleanup_timers s) (shutdown_puts s).

Definition with_active_sessions (v : gmap string CtxRef) (s : Engine) : Engine :=
  mkEngine (max_workers s) (queue_size s) (registry s) (semaphore s) (task_queue s)
    v (workers s) (is_initialized s) (is_running s)
    (objects s) (contexts s) (calls s) (cleanup_timers s) (shutdown_puts s).

Definition with_workers (v : list (WorkerStats * WorkerPc)) (s : Engine) : Engine :=
  mkEngine (max_workers s) (queue_size s) (registry s) (semaphore s) (task_queue s)
    (active_sessions s) v (is_initialized s) (is_running s)
    (objects s) (contexts s) (calls s) (cleanup_timers s) (shutdown_puts s).

Definition with_flags (init run : bool) (s : Engine) : Engine :=
  mkEngine (max_workers s) (queue_size s) (registry s) (semaphore s) (task_queue s)
    (active_sessions s) (workers s) init run
    (objects s) (contexts s) (calls s) (cleanup_timers s) (shutdown_puts s).

Definition with_objects (v : list SubAgentTaskModel) (s : Engine) : Engine :=
  mkEngine (max_workers s) (queue_size s) (registry s) (semaphore s) (task_queue s)
    (active_sessions s) (workers s) (is_initialized s) (is_running s)
    v (contexts s) (calls s) (cleanup_timers s) (shutdown_puts s).

Definition with_contexts (v : list SessionContext) (s : Engine) : Engine :=
  mkEngine (max_workers s) (queue_size s) (registry s) (semaphore s) (task_queue s)
    (active_sessions s) (workers s) (is_initialized s) (is_running s)
    (objects s) v (calls s) (cleanup_timers s) (shutdown_puts s).

Definition with_calls (v : list CallState) (s : Engine) : Engine :=
  mkEngine (max_workers s) (queue_size s) (registry s) (semaphore s) (task_queue s)
    (active_sessions s) (workers s) (is_initialized s) (is_running s)
    (objects s) (contexts s) v (cleanup_timers s) (shutdown_puts s).

Definition with_cleanup_timers (v : list string) (s : Engine) : Engine :=
  mkEngine (max_workers s) (queue_size s) (registry s) (semaphore s) (task_queue s)
    (active_sessions s) (workers s) (is_initialized s) (is_running s)
    (objects s) (contexts s) (calls s) v (shutdown_puts s).

Definition with_shutdown_puts (v : nat) (s : Engine) : Engine :=
  mkEngine (max_workers s) (queue_size s) (registry s) (semaphore s) (task_queue s)
    (active_sessions s) (workers s) (is_initialized s) (is_running s)
    (objects s) (contexts s) (calls s) (cleanup_timers s) v.

(** Reading and writing the two object stores.  A reference that names no
    object reads as a blank one and writes nowhere; the engine only ever
    follows references it was given or made itself. *)
Definition blank_task : SubAgentTaskModel :=
  mkTask "" "" "" NORMAL PENDING [] None None.

Definition blank_ctx : SessionContext :=
  mkCtx "" [] [] [] false None.

Definition task_of (s : Engine) (t : TaskRef) : SubAgentTaskModel :=
  default blank_task (objects s !! t).

Definition ctx_of (s : Engine) (c : CtxRef) : SessionContext :=
  default blank_ctx (contexts s !! c).

Definition update_task (f : SubAgentTaskModel -> SubAgentTaskModel)
    (t : TaskRef) (s : Engine) : Engine :=
  with_objects (alter f t (objects s)) s.

Definition update_ctx (f : SessionContext -> SessionContext)
    (c : CtxRef) (s : Engine) : Engine :=
  with_contexts (alter f c (contexts s)) s.

(** ** Library behaviour the engine relies on *)

(** [sorted(xs, key=key, reverse=True)].  Python's sort is stable, and stays
    so under [reverse=True]: elements with equal keys keep their order. *)
Fixpoint insert_desc {A : Type} (key : A -> Z) (x : A) (l : list A) : list A :=
  match l with
  | [] => [x]
  | y :: l' =>
      if (key x <? key y)%Z then y :: insert_desc key x l' else x :: y :: l'
  end.

Fixpoint sorted_desc {A : Type} (key : A -> Z) (l : list A) : list A :=
  match l with
  | [] => []
  | x :: l' => insert_desc key x (sorted_desc key l')
  end.

(** [asyncio.Queue.full()]: a [maxsize] of zero or less means unbounded. *)
Definition queue_full (s : Engine) : bool :=
  (0 <? queue_size s)%Z && (queue_size s <=? Z.of_nat (length (task_queue s)))%Z.

Definition enqueue (item : option (string * TaskRef)) (s : Engine) : Engine :=
  with_task_queue (task_queue s ++ [item]) s.

(** ** [ParallelProcessor.__init__] and [initialize] *)

(** [get_settings().claude_flow] and the registry behind [get_agent]. *)
Record Settings := mkSettings {
  cfg_max_workers : nat;
  cfg_queue_size : Z;
  cfg_registry : gmap string AgentClass
}.

Definition ParallelProcessor_init (cfg : Settings) : Engine :=
  mkEngine (cfg_max_workers cfg) (cfg_queue_size cfg) (cfg_registry cfg)
    (cfg_max_workers cfg) [] ∅ [] false false [] [] [] [] 0.

(** [initialize]: fresh statistics for [worker_000 ..], one worker loop
    started on each, then both flags raised.  The loops first run after
    [initialize] is through, hence with [is_running] set; each is parked in
    its first [task_queue.get()]. *)
Definition initialize (s : Engine) : Engine :=
  let fresh := (fun i => (mkStats i 0 0 None, WGet)) <$> seq 0 (max_workers s) in
  with_flags true true (with_workers (workers s ++ fresh) s).

(** ** [_execute_task] and [_worker_loop] *)

(** [get_agent(agent_name)]: the agent class registered under the name, or
    [None]. *)
Definition get_agent (s : Engine) (agent_name : string) : option AgentClass :=
  registry s !! agent_name.

Definition session_not_found (sid : string) : string :=
  "セッション " +:+ sid +:+ " が見つかりません".

Definition agent_not_found (name : string) : string :=
  "エージェント '" +:+ name +:+ "' が見つかりません".

(** ** Logging

    [logger = logging.getLogger(__name__)] is a logger of the standard
    library, and the module calls it the way it would call structlog: with
    keyword arguments ([session_id=...], [error=...]).  [Logger.info],
    [warn] and [error] test [isEnabledFor] for their level and then pass
    the keyword arguments on to [Logger._log], which knows none of these
    names and raises [TypeError].  Nothing in the application sets a level
    for this logger or for one above it, so the level in force is that of
    the root logger, WARNING: a call of [info] returns once its arguments
    have been evaluated, a call of [warn] or [error] with keyword arguments
    raises.  Calls of [info] cannot change the control flow and are left
    out of the definitions below, save where one stands next to a call that
    can (the breaks of the wait loop) or where its arguments can fail to
    evaluate (the success rate after the wait loop). *)
Inductive LogLevel := INFO | WARNING | ERROR.

Definition isEnabledFor (level : LogLevel) : bool :=
  match level with
  | INFO => false
  | WARNING | ERROR => true
  end.

(** A logging call with keyword arguments: the exception it raises, if
    any. *)
Definition log_kwargs (level : LogLevel) : option Exn :=
  if isEnabledFor level then Some TypeError else None.

(** The [except Exception as e] block of [_execute_task]: the task is
    marked, the failure counted, the task appended to the failed list of
    its session if the id is still registered; the block ends in
    [logger.error(...)] with keyword arguments.  The last component is the
    exception the block is left with, if any. *)
Definition except_block (sid : string) (t : TaskRef) (msg : string)
    (st : WorkerStats) (s : Engine) : WorkerStats * Engine * option Exn :=
  let s1 := update_task (fun x => set_error_message (Some msg) (set_status FAILED x)) t s in
  let st1 := incr_tasks_failed st in
  match active_sessions s1 !! sid with
  | Some c => (st1, update_ctx (append_failed t) c s1, log_kwargs ERROR)
  | None => (st1, s1, log_kwargs ERROR)
  end.

(** The handler [except Exception as e] of the worker loop: it logs with
    [logger.error(..., error=str(e))] and then says [continue].  An
    exception of the logging call leaves the loop; the [finally] of the
    loop logs at [info] and the coroutine ends with that exception. *)
Definition worker_loop_except (s : Engine) : WorkerPc :=
  match log_kwargs ERROR with
  | Some e => WRaised e
  | None => if is_running s then WGet else WExited
  end.

(** Leaving [_execute_task] and going round the worker loop.  The last
    component of [r] is the exception [_execute_task] is left with, if
    any.  Either way the [finally] block clears [current_task] and the end
    of [async with] releases the semaphore.  Without an exception the
    test of [while self.is_running] before the next [get] follows; with
    one, the handler of the loop. *)
Definition leave_section (r : WorkerStats * Engine * option Exn)
    : WorkerStats * WorkerPc * Engine :=
  let '(st, s, raised) := r in
  (set_current_task None st,
   match raised with
   | None => if is_running s then WGet else WExited
   | Some _ => worker_loop_except s
   end,
   with_semaphore (S (semaphore s)) s).

(** The body of [async with self.semaphore], up to the first suspension. *)
Definition enter_section (sid : string) (t : TaskRef)
    (st : WorkerStats) (s : Engine) : WorkerStats * WorkerPc * Engine :=
  let task := task_of s t in
  let st0 := set_current_task (Some (agent_name task)) st in
  match active_sessions s !! sid with
  | None => leave_section (except_block sid t (session_not_found sid) st0 s)
  | Some c =>
      if is_cancelled (ctx_of s c)
      then leave_section (st0, update_task (set_status CANCELLED) t s, None)
      else match get_agent s (agent_name task) with
           | None =>
               leave_section (except_block sid t (agent_not_found (agent_name task)) st0 s)
           | Some agent => (st0, WExecute sid t c agent (input_data task), s)
           end
  end.

(** [asyncio.Semaphore.acquire]: taken at once when a permit is free. *)
Definition acquire (sid : string) (t : TaskRef)
    (st : WorkerStats) (s : Engine) : WorkerStats * WorkerPc * Engine :=
  match semaphore s with
  | O => (st, WAcquire sid t, s)
  | S n => enter_section sid t st (with_semaphore n s)
  end.

(** The code after [await agent_instance.execute(...)]. *)
Definition after_execute (sid : string) (t : TaskRef) (c : CtxRef)
    (r : AgentResult) (st : WorkerStats) (s : Engine)
    : WorkerStats * WorkerPc * Engine :=
  let s1 := update_task
              (fun x => set_error_message (r_error_message r)
                          (set_output_data (r_output_data r)
                             (set_status (StatusEnum_of (r_status r)) x))) t s in
  let '(st1, s2) :=
    if decide (r_status r = A_COMPLETED)
    then (incr_tasks_completed st, update_ctx (append_completed t) c s1)
    else (incr_tasks_failed st, update_ctx (append_failed t) c s1) in
  match progress_callback (ctx_of s2 c) with
  | Some cb =>
      (st1, WCallback sid t (cb (length (completed_tasks (ctx_of s2 c)))), s2)
  | None => leave_section (st1, s2, None)
  end.

(** One resumption of a worker coroutine, until it suspends again. *)
Definition resume_worker (st : WorkerStats) (pc : WorkerPc) (s : Engine)
    : WorkerStats * WorkerPc * Engine :=
  match pc with
  | WGet =>
      match task_queue s with
      | [] => (st, if is_running s then WGet else WExited, s)
      | None :: q => (st, WExited, with_task_queue q s)
      | Some (sid, t) :: q => acquire sid t st (with_task_queue q s)
      end
  | WAcquire sid t => acquire sid t st s
  | WExecute sid t c agent input =>
      after_execute sid t c (BaseAgent_execute agent input) st s
  | WCallback sid t None => leave_section (st, s, None)
  | WCallback sid t (Some msg) => leave_section (except_block sid t msg st s)
  | WExited => (st, WExited, s)
  | WRaised e => (st, WRaised e, s)
  end.

Definition step_worker (w : nat) (s : Engine) : Engine :=
  match workers s !! w with
  | None => s
  | Some (st, pc) =>
      let '(st', pc', s') := resume_worker st pc s in
      with_workers (<[w := (st', pc')]> (workers s')) s'
  end.

(** ** [execute_agents_parallel] *)

(** The enqueueing loop: [task.status = PENDING] then [put]; [put] suspends
    only on a full queue.  Returns the items not yet put. *)
Fixpoint put_all (sid : string) (pending : list TaskRef) (s : Engine)
    : Engine * list TaskRef :=
  match pending with
  | [] => (s, [])
  | t :: rest =>
      let s1 := update_task (set_status PENDING) t s in
      if queue_full s1 then (s1, t :: rest)
      else put_all sid rest (enqueue (Some (sid, t)) s1)
  end.

(** A suspended [put] that is woken up. *)
Definition resume_put (sid : string) (pending : list TaskRef) (s : Engine)
    : Engine * list TaskRef :=
  match pending with
  | [] => (s, [])
  | t :: rest =>
      if queue_full s then (s, t :: rest)
      else put_all sid rest (enqueue (Some (sid, t)) s)
  end.

(** One pass of the wait loop: which [break] is taken, if any. *)
Definition wait_check (c : SessionContext) (total : nat) (timed_out : bool)
    : option ExitKind :=
  let completed_count := length (completed_tasks c) + length (failed_tasks c) in
  if (total <=? completed_count)%nat then Some ByCompletion
  else if timed_out then Some ByTimeout
  else if is_cancelled c then Some ByCancellation
  else None.

(** The [break] that is taken: the one of the time-out is preceded by
    [logger.warn(...)] with keyword arguments, the one of the cancellation
    by a call of [info]. *)
Definition leave_wait_loop (how : ExitKind) : option Exn :=
  match how with
  | ByTimeout => log_kwargs WARNING
  | ByCancellation => log_kwargs INFO
  | ByCompletion => None
  end.

(** The statements between the wait loop and the end of the [try]: the
    arguments of the closing [logger.info(...)] are evaluated, the success
    rate [completed_tasks/total_tasks] among them, and the completed list
    followed by the failed list is returned. *)
Definition wait_summary (k : CtxRef) (total : nat) (s : Engine)
    : Result (list TaskRef) :=
  match total with
  | O => Raise ZeroDivisionError
  | S _ => Return (completed_tasks (ctx_of s k) ++ failed_tasks (ctx_of s k))
  end.

(** [except Exception as e] of [execute_agents_parallel]:
    [logger.error(..., session_id=..., error=str(e))], then [raise].  The
    result is the exception that reaches the caller. *)
Definition call_except (e : Exn) : Exn :=
  match log_kwargs ERROR with
  | Some e' => e'
  | None => e
  end.

(** The way out of the wait loop and of the call; the [finally] block
    starts the delayed clean-up of the session whatever happened. *)
Definition after_wait (how : ExitKind) (k : CtxRef) (sid : string) (total : nat)
    (s : Engine) : CallState * Engine :=
  let s1 := with_cleanup_timers (cleanup_timers s ++ [sid]) s in
  let body :=
    match leave_wait_loop how with
    | Some e => Raise e
    | None => wait_summary k total s
    end in
  match body with
  | Return result => (CReturned how result, s1)
  | Raise e => (CRaised (call_except e), s1)
  end.

Definition wait_loop (k : CtxRef) (sid : string) (total : nat)
    (timed_out : bool) (s : Engine) : CallState * Engine :=
  match wait_check (ctx_of s k) total timed_out with
  | Some how => after_wait how k sid total s
  | None => (CSleep k sid total, s)
  end.

Definition after_put (k : CtxRef) (sid : string) (total : nat) (timed_out : bool)
    (r : Engine * list TaskRef) : CallState * Engine :=
  match r with
  | (s, []) => wait_loop k sid total timed_out s
  | (s, pending) => (CPut k sid pending total, s)
  end.

Definition not_initialized : string := "並列処理エンジンが初期化されていません".

(** A call, run until it first suspends (or ends). *)
Definition execute_agents_parallel (batch : list TaskRef) (sid : string)
    (cb : option Callback) (timed_out : bool) (s : Engine) : CallState * Engine :=
  if is_initialized s then
    let k := length (contexts s) in
    let s1 := with_contexts (contexts s ++ [mkCtx sid batch [] [] false cb]) s in
    let s2 := with_active_sessions (<[sid := k]> (active_sessions s1)) s1 in
    let sorted_tasks :=
      sorted_desc (fun t => priority_value (priority (task_of s2 t))) batch in
    after_put k sid (length batch) timed_out (put_all sid sorted_tasks s2)
  else (CRaised (RuntimeError not_initialized), s).

Definition resume_call (c : nat) (timed_out : bool) (s : Engine) : Engine :=
  match calls s !! c with
  | Some (CPut k sid pending total) =>
      let '(st, s') := after_put k sid total timed_out (resume_put sid pending s) in
      with_calls (<[c := st]> (calls s')) s'
  | Some (CSleep k sid total) =>
      let '(st, s') := wait_loop k sid total timed_out s in
      with_calls (<[c := st]> (calls s')) s'
  | _ => s
  end.

(** ** [cancel_session], [_cleanup_session_later], [cleanup] *)

Definition cancel_session (sid : string) (s : Engine) : Engine :=
  match active_sessions s !! sid with
  | Some c => update_ctx set_cancelled c s
  | None => s
  end.

(** A clean-up timer that fires: [del self.active_sessions[session_id]] if
    the key is still there. *)
Definition cleanup_session (i : nat) (s : Engine) : Engine :=
  match cleanup_timers s !! i with
  | Some sid =>
      with_cleanup_timers (delete i (cleanup_timers s))
        (with_active_sessions (delete sid (active_sessions s)) s)
  | None => s
  end.

(** The loop of [cleanup] that puts one [None] per worker task. *)
Fixpoint put_signals (n : nat) (s : Engine) : Engine :=
  match n with
  | O => with_shutdown_puts 0 s
  | S n' =>
      if queue_full s then with_shutdown_puts n s
      else put_signals n' (enqueue None s)
  end.

(** [cleanup]: lower [is_running], cancel every active session, then send
    the termination signals. *)
Definition cleanup (s : Engine) : Engine :=
  let s1 := with_flags (is_initialized s) false s in
  let s2 := foldr (fun kv acc => cancel_session kv.1 acc) s1
                  (map_to_list (active_sessions s1)) in
  put_signals (shutdown_puts s2 + length (workers s2)) s2.

(** ** The transition system *)

Inductive Event :=
| NewTask (t : SubAgentTaskModel)
    (* a caller builds a task object *)
| Initialize
| Call (batch : list TaskRef) (sid : string) (cb : option Callback) (timed_out : bool)
    (* [execute_agents_parallel(batch, sid, cb)] is called *)
| ResumeCall (c : nat) (timed_out : bool)
| ResumeWorker (w : nat)
| CancelSession (sid : string)
| CleanupTimer (i : nat)
| Cleanup
| ResumeCleanup.

Definition step (s : Engine) (e : Event) : Engine :=
  match e with
  | NewTask t => with_objects (objects s ++ [t]) s
  | Initialize => initialize s
  | Call batch sid cb timed_out =>
      let '(st, s') := execute_agents_parallel batch sid cb timed_out s in
      with_calls (calls s' ++ [st]) s'
  | ResumeCall c timed_out => resume_call c timed_out s
  | ResumeWorker w => step_worker w s
  | CancelSession sid => cancel_session sid s
  | CleanupTimer i => cleanup_session i s
  | Cleanup => cleanup s
  | ResumeCleanup => put_signals (shutdown_puts s) s
  end.

Definition run (s : Engine) (evs : list Event) : Engine := foldl step s evs.

(** * Notions used by the properties *)

(** ** Bounded concurrency *)

(** A worker that is suspended inside the [async with self.semaphore] block
    holds one permit. *)
Definition holds_permit (pc : WorkerPc) : nat :=
  match pc with
  | WExecute _ _ _ _ _ | WCallback _ _ _ => 1
  | _ => 0
  end.

Definition in_section (s : Engine) : nat :=
  sum_list_with (fun w => holds_permit w.2) (workers s).

Definition invokes_agent (pc : WorkerPc) : nat :=
  match pc with
  | WExecute _ _ _ _ _ => 1
  | _ => 0
  end.

Definition running_agents (s : Engine) : nat :=
  sum_list_with (fun w => invokes_agent w.2) (workers s).

(** What an operation leaves alone as far as the semaphore is concerned. *)
Definition same_permits (s s' : Engine) : Prop :=
  semaphore s' = semaphore s /\ workers s' = workers s
  /\ max_workers s' = max_workers s.

(** The semaphore invariant: free permits plus permits held is the number
    the semaphore was created with. *)
Definition permits_balanced (s : Engine) : Prop :=
  semaphore s + in_section s = max_workers s.


(** ** Concrete engines used to exercise the statements *)

(** An agent whose main step hands its input back. *)
Definition echo_agent : AgentClass := fun input => MainReturns input.

(** The placeholder [get_agent] of [parallel_processor.py]: no agent is
    ever found. *)
Definition placeholder_registry : gmap string AgentClass := ∅.

(** A registry in the manner of [AGENT_REGISTRY] of [app/agents]. *)
Definition demo_registry : gmap string AgentClass :=
  <["UserCreationAgent" := echo_agent]> ∅.

Definition demo_task (id agent : string) (p : PriorityEnum) : SubAgentTaskModel :=
  mkTask id agent "user_creation" p PENDING [] None None.

(** A one-worker engine, initialised, with three task objects of priority
    LOW, CRITICAL and NORMAL. *)
Definition demo_engine (reg : gmap string AgentClass) : Engine :=
  run (ParallelProcessor_init (mkSettings 1 1000 reg))
    [Initialize;
     NewTask (demo_task "t-low" "UserCreationAgent" LOW);
     NewTask (demo_task "t-critical" "UserCreationAgent" CRITICAL);
     NewTask (demo_task "t-normal" "UserCreationAgent" NORMAL)].

Definition failing_callback : Callback := fun _ => Some "progress sink unavailable".

Definition quiet_callback : Callback := fun _ => None.

(** The demo engine after the three tasks were submitted as one batch. *)
Definition demo_submitted (reg : gmap string AgentClass) (cb : option Callback) : Engine :=
  step (demo_engine reg) (Call [0; 1; 2] "session-1" cb false).

(** ** Task status along a run *)

Definition terminal (v : StatusEnum) : Prop :=
  v = COMPLETED \/ v = FAILED \/ v = CANCELLED.

(** The status of task [t] after the first [n] events of a run. *)
Definition status_after (s : Engine) (evs : list Event) (t : TaskRef) (n : nat)
    : StatusEnum :=
  status (task_of (run s (take n evs)) t).

(** The reading of the state machine PENDING -> RUNNING -> terminal state:
    a task found COMPLETED or FAILED was RUNNING at some earlier point of
    the run. *)
Definition passes_through_RUNNING (s : Engine) (evs : list Event) (t : TaskRef) : Prop :=
  status (task_of (run s evs) t) = COMPLETED \/ status (task_of (run s evs) t) = FAILED ->
  exists n, status_after s evs t n = RUNNING.

(** An operation that changes the status of tasks only to values in [P]. *)
Definition only_sets (P : StatusEnum -> Prop) (s s' : Engine) : Prop :=
  forall t, status (task_of s' t) = status (task_of s t) \/ P (status (task_of s' t)).

(** ** Dispatch order *)

(** The tasks waiting in the queue, front first (termination signals
    skipped). *)
Definition queued_tasks (s : Engine) : list TaskRef :=
  omap (fun item : option (string * TaskRef) => snd <$> item) (task_queue s).

(** The tasks a suspended call has still to put. *)
Definition pending_of (st : CallState) : list TaskRef :=
  match st with
  | CPut _ _ pending _ => pending
  | _ => []
  end.

Definition pending_at (s : Engine) (c : nat) : list TaskRef :=
  from_option pending_of [] (calls s !! c).




(** The task a worker takes from the queue when event [e] happens in state
    [s], if any. *)
Definition dequeued (s : Engine) (e : Event) : list TaskRef :=
  match e with
  | ResumeWorker w =>
      match workers s !! w, task_queue s with
      | Some (_, WGet), Some (_, t) :: _ => [t]
      | _, _ => []
      end
  | _ => []
  end.

(** The tasks dispatched along a run, in the order the workers took them. *)
Fixpoint dispatch_order (s : Engine) (evs : list Event) : list TaskRef :=
  match evs with
  | [] => []
  | e :: evs' => dequeued s e ++ dispatch_order (step s e) evs'
  end.




(** ** Accounting of one batch *)

(** The number of tasks recorded in a session context. *)
Definition recorded (s : Engine) (k : CtxRef) : nat :=
  length (completed_tasks (ctx_of s k)) + length (failed_tasks (ctx_of s k)).

Definition entry_of (sid : string) (item : option (string * TaskRef)) : nat :=
  match item with
  | Some (sid', _) => if decide (sid' = sid) then 1 else 0
  | None => 0
  end.

(** Queue entries that belong to session [sid]. *)
Definition queue_count (sid : string) (q : list (option (string * TaskRef))) : nat :=
  sum_list_with (entry_of sid) q.

(** A worker that has taken a task of session [sid] from the queue and has
    not recorded it yet. *)
Definition owes (sid : string) (pc : WorkerPc) : nat :=
  match pc with
  | WAcquire sid' _ | WExecute sid' _ _ _ _ => if decide (sid' = sid) then 1 else 0
  | _ => 0
  end.

Definition owed (sid : string) (s : Engine) : nat :=
  sum_list_with (fun w => owes sid w.2) (workers s).

Definition never_raises (cb : option Callback) : Prop :=
  forall f n, cb = Some f -> f n = None.

Definition is_call_for (sid : string) (e : Event) : bool :=
  match e with
  | Call _ sid' _ _ => bool_decide (sid' = sid)
  | _ => false
  end.

Definition no_call_for (sid : string) (evs : list Event) : Prop :=
  forallb (fun e => negb (is_call_for sid e)) evs = true.

(** Session id [sid] has not been used: nothing in the engine refers to
    it, and every context reference in use names an existing context. *)
Definition pc_unused (sid : string) (n : nat) (pc : WorkerPc) : Prop :=
  match pc with
  | WAcquire sid' _ => sid' <> sid
  | WExecute sid' _ k' _ _ => sid' <> sid /\ k' < n
  | WCallback sid' _ _ => sid' <> sid
  | _ => True
  end.

Definition call_unused (sid : string) (st : CallState) : Prop :=
  match st with
  | CPut _ sid' _ _ => sid' <> sid
  | _ => True
  end.

Record unused (sid : string) (s : Engine) : Prop := mkUnused {
  unused_sessions :
    forall sid' k', active_sessions s !! sid' = Some k' -> k' < length (contexts s);
  unused_workers : Forall (fun w => pc_unused sid (length (contexts s)) w.2) (workers s);
  unused_queue : queue_count sid (task_queue s) = 0;
  unused_calls : Forall (call_unused sid) (calls s)
}.

(** The state of the engine while call [c] of session [sid], with context
    [k] and a batch of [total] tasks, is the only user of that session id. *)
Definition pc_tracked (sid : string) (k : CtxRef) (pc : WorkerPc) : Prop :=
  match pc with
  | WExecute sid' _ k' _ _ => sid' = sid <-> k' = k
  | WCallback sid' _ outcome => sid' = sid -> outcome = None
  | _ => True
  end.

Definition call_tracked (s : Engine) (sid : string) (k : CtxRef) (total : nat)
    (st : CallState) : Prop :=
  match st with
  | CPut k' sid' _ total' | CSleep k' sid' total' =>
      k' = k /\ sid' = sid /\ total' = total
  | CReturned ByCompletion result =>
      result = completed_tasks (ctx_of s k) ++ failed_tasks (ctx_of s k)
      /\ length result = total
  | _ => True
  end.

Record tracked (sid : string) (k : CtxRef) (c total : nat) (s : Engine) : Prop :=
  mkTracked {
  tracked_ctx : k < length (contexts s);
  tracked_key : forall sid', active_sessions s !! sid' = Some k -> sid' = sid;
  tracked_val : forall k', active_sessions s !! sid = Some k' -> k' = k;
  tracked_callback : never_raises (progress_callback (ctx_of s k));
  tracked_workers : Forall (fun w => pc_tracked sid k w.2) (workers s);
  tracked_budget :
    recorded s k + queue_count sid (task_queue s) + owed sid s
      + length (pending_at s c) <= total;
  tracked_others :
    forall c' st, c' <> c -> calls s !! c' = Some st -> call_unused sid st;
  tracked_call : exists st, calls s !! c = Some st /\ call_tracked s sid k total st
}.

(** An operation that leaves sessions, workers and calls as they are. *)
Definition same_sessions (s s' : Engine) : Prop :=
  contexts s' = contexts s /\ active_sessions s' = active_sessions s
  /\ workers s' = workers s /\ calls s' = calls s.

(** The outcome [r] of resuming a worker that was at [pc] in state [s], as
    far as context [k] of session [sid] is concerned: tasks are appended to
    its lists only against queue entries or workers of that session. *)
Definition worker_effect (sid : string) (k : CtxRef) (s : Engine) (pc : WorkerPc)
    (r : WorkerStats * WorkerPc * Engine) : Prop :=
  exists a b,
    completed_tasks (ctx_of r.2 k) = completed_tasks (ctx_of s k) ++ a
    /\ failed_tasks (ctx_of r.2 k) = failed_tasks (ctx_of s k) ++ b
    /\ length a + length b + queue_count sid (task_queue r.2) + owes sid r.1.2
       <= queue_count sid (task_queue s) + owes sid pc
    /\ progress_callback (ctx_of r.2 k) = progress_callback (ctx_of s k)
    /\ pc_tracked sid k r.1.2.

Definition finished (st : CallState) : Prop :=
  match st with
  | CReturned _ _ | CRaised _ => True
  | _ => False
  end.


(** ** Cancelling a batch *)

(** Task [t] has still to be looked at by a worker: it is in the queue, or
    in the hands of a worker that waits for a permit. *)
Definition waits (s : Engine) (t : TaskRef) : Prop :=
  t ∈ queued_tasks s
  \/ exists w st sid', workers s !! w = Some (st, WAcquire sid' t).

(** Nothing is going on in the engine: the queue is empty, every worker is
    parked in [get] (or has left), no call is still enqueueing. *)
Record idle (s : Engine) : Prop := mkIdle {
  idle_queue : task_queue s = [];
  idle_workers : Forall (fun w => w.2 = WGet \/ w.2 = WExited) (workers s);
  idle_calls : forall c, pending_at s c = []
}.

(** Events of a run in which no other batch is submitted and no retention
    timer fires. *)
Definition quiet_event (e : Event) : bool :=
  match e with
  | Call _ _ _ _ | CleanupTimer _ => false
  | _ => true
  end.

Definition undisturbed (evs : list Event) : Prop :=
  forallb quiet_event evs = true.

(** The queue can take [n] more items without [put] suspending. *)
Definition has_room (s : Engine) (n : nat) : Prop :=
  (queue_size s <= 0)%Z \/ (Z.of_nat (length (task_queue s) + n) <= queue_size s)%Z.

Definition pc_cancelling (sid : string) (batch dispatched : list TaskRef)
    (cancelled : bool) (pc : WorkerPc) : Prop :=
  match pc with
  | WAcquire sid' t =>
      sid' = sid /\ t ∈ batch /\ (t ∈ dispatched \/ cancelled = true)
  | WExecute _ t _ _ _ | WCallback _ t _ => t ∈ dispatched
  | _ => True
  end.

Definition item_cancelling (sid : string) (batch : list TaskRef)
    (item : option (string * TaskRef)) : Prop :=
  match item with
  | Some (sid', t) => sid' = sid /\ t ∈ batch
  | None => True
  end.

Definition call_cancelling (k : CtxRef) (dispatched : list TaskRef)
    (st : CallState) : Prop :=
  match st with
  | CPut k' _ _ _ | CSleep k' _ _ => k' = k
  | CReturned _ result => forall t, t ∈ result -> t ∈ dispatched
  | CRaised _ => True
  end.

(** The state of the engine while the batch of call [c] (session [sid],
    context [k]) is the only work in it.  [dispatched] are the tasks taken
    from the queue before the cancellation; [cancelled] tells whether the
    cancellation has happened. *)
Record cancelling (sid : string) (k : CtxRef) (c : nat) (batch dispatched : list TaskRef)
    (cancelled : bool) (s : Engine) : Prop := mkCancelling {
  cancelling_session : active_sessions s !! sid = Some k;
  cancelling_ctx : k < length (contexts s);
  cancelling_flag : cancelled = true -> is_cancelled (ctx_of s k) = true;
  cancelling_queue : Forall (item_cancelling sid batch) (task_queue s);
  cancelling_workers :
    Forall (fun w => pc_cancelling sid batch dispatched cancelled w.2) (workers s);
  cancelling_tasks :
    forall t, t ∈ batch ->
      t ∈ dispatched
      \/ (status (task_of s t) = PENDING /\ waits s t)
      \/ (cancelled = true /\ status (task_of s t) = CANCELLED);
  cancelling_records :
    forall t, t ∈ completed_tasks (ctx_of s k) ++ failed_tasks (ctx_of s k) ->
      t ∈ dispatched;
  cancelling_valid : forall t, t ∈ batch -> t < length (objects s);
  cancelling_calls : forall c', pending_at s c' = [];
  cancelling_call : exists st, calls s !! c = Some st /\ call_cancelling k dispatched st
}.

(** The outcome [r] of a worker resumption that handles task [t0]: only
    that task object changes, and only that task can be appended to the
    lists of context [k], in which case it is one of [dispatched]. *)
Definition cancel_effect (k : CtxRef) (dispatched : list TaskRef) (t0 : TaskRef)
    (s : Engine) (r : WorkerStats * WorkerPc * Engine) : Prop :=
  (forall t, t <> t0 -> task_of r.2 t = task_of s t)
  /\ (forall t, t ∈ completed_tasks (ctx_of r.2 k) ++ failed_tasks (ctx_of r.2 k) ->
        t ∈ completed_tasks (ctx_of s k) ++ failed_tasks (ctx_of s k)
        \/ (t = t0 /\ t0 ∈ dispatched))
  /\ is_cancelled (ctx_of r.2 k) = is_cancelled (ctx_of s k)
  /\ length (objects r.2) = length (objects s).

(** What is known of a batch once its session has been cancelled, in the
    state [s] reached: [dispatched] being the tasks taken from the queue
    before the cancellation, call [c] the one that submitted the batch and
    [k] its context. *)
Record cancelled_outcome (s : Engine) (k : CtxRef) (c : nat)
    (batch dispatched : list TaskRef) : Prop := mkOutcome {
  outcome_status :
    forall t, t ∈ batch -> t ∉ dispatched ->
      (status (task_of s t) = PENDING /\ waits s t)
      \/ status (task_of s t) = CANCELLED;
  outcome_not_invoked :
    forall w st sid' t k' agent input,
      workers s !! w = Some (st, WExecute sid' t k' agent input) -> t ∈ dispatched;
  outcome_records :
    forall t, t ∈ completed_tasks (ctx_of s k) ++ failed_tasks (ctx_of s k) ->
      t ∈ dispatched;
  outcome_result :
    forall how result, calls s !! c = Some (CReturned how result) ->
      forall t, t ∈ result -> t ∈ dispatched
}.

(** The reading of the cancellation scenario in which the tasks that were
    not dispatched come back in the result, marked CANCELLED. *)
Definition others_returned_cancelled (s : Engine) (c : nat)
    (batch dispatched : list TaskRef) : Prop :=
  exists how result,
    calls s !! c = Some (CReturned how result)
    /\ forall t, t ∈ batch -> t ∉ dispatched ->
         t ∈ result /\ status (task_of s t) = CANCELLED.

(** A one-worker engine with ten task objects. *)
Definition ten_engine (reg : gmap string AgentClass) : Engine :=
  run (ParallelProcessor_init (mkSettings 1 1000 reg))
    (Initialize
     :: ((fun _ : nat => NewTask (demo_task "task" "UserCreationAgent" NORMAL))
           <$> seq 0 10)).

Definition ten_batch : list TaskRef := seq 0 10.

(** * Status reports, housekeeping and agent base classes

    The parts of [parallel_processor.py] and [base_agent.py] around the
    dispatch path: the reporting methods of the processor, the value
    [cancel_session] returns, the output checks of the agent base classes,
    and the notions used to state what the engine keeps invariant. *)

(** ** True division *)

(** [a / b] on two Python integers.  The quotient is kept exact; Python
    rounds it to the nearest float, which is monotone and leaves 0 and 1 as
    they are.  Division by zero raises and is tested by the callers. *)
Definition true_div (a b : Z) : Q := (inject_Z a / inject_Z b)%Q.

(** ** [SessionContext.completion_rate] *)

Definition completion_rate (c : SessionContext) : Q :=
  match tasks c with
  | [] => 0%Q
  | _ :: _ =>
      true_div (Z.of_nat (length (completed_tasks c))) (Z.of_nat (length (tasks c)))
  end.

(** ** [self.worker_stats] *)

(** The dictionary has the keys [worker_000 ..] of one [initialize]; a
    later [initialize] binds each key to a fresh statistics object and
    starts a further loop on it.  Its values are thus the statistics
    objects of the loops started last, in key order. *)
Definition worker_stats (s : Engine) : list WorkerStats :=
  fst <$> drop (length (workers s) - max_workers s) (workers s).

(** Truth value of an [Optional[str]]: [None] and the empty string are
    false. *)
Definition truthy (v : option string) : bool :=
  match v with
  | None => false
  | Some name => negb (String.eqb name "")
  end.

(** ** [get_agent_count], [get_agent_status], [get_health_status] *)

(** The placeholder of the module. *)
Definition get_agent_count : nat := 30.

Record AgentStatusReport := mkReport {
  system_status : string;
  total_workers : nat;
  active_workers : nat;
  available_agents : nat;
  report_queue_size : nat;
  max_queue_size : Z;
  total_tasks_completed : nat;
  total_tasks_failed : nat;
  report_active_sessions : nat;
  worker_details : list WorkerStats
}.

Definition get_agent_status (s : Engine) : AgentStatusReport :=
  let stats := worker_stats s in
  mkReport
    (if is_running s then "running" else "stopped")
    (length stats)
    (sum_list_with (fun st => if truthy (current_task st) then 1 else 0) stats)
    get_agent_count
    (length (task_queue s))
    (queue_size s)
    (sum_list_with tasks_completed stats)
    (sum_list_with tasks_failed stats)
    (size (active_sessions s))
    stats.

Record HealthStatus := mkHealth {
  health_status : string;
  health_initialized : bool;
  health_running : bool;
  worker_count : nat;
  health_active_sessions : nat;
  queue_utilization : Q
}.

(** The entries of the dictionary are evaluated in order; the last one
    divides by the configured queue size. *)
Definition get_health_status (s : Engine) : Result HealthStatus :=
  if (queue_size s =? 0)%Z then Raise ZeroDivisionError
  else
    Return (mkHealth
              (if is_running s then "healthy" else "unhealthy")
              (is_initialized s)
              (is_running s)
              (length (worker_stats s))
              (size (active_sessions s))
              (true_div (Z.of_nat (length (task_queue s))) (queue_size s))).

(** ** The value of [cancel_session] *)

(** [False] when the session id is not a key of [active_sessions], [True]
    once the flag of its context has been raised. *)
Definition cancel_session_result (sid : string) (s : Engine) : bool :=
  bool_decide (is_Some (active_sessions s !! sid)).

(** ** Output checks of the agent base classes *)












(** ** Notions used by the further properties *)

Definition is_initialize (e : Event) : bool :=
  match e with
  | Initialize => true
  | _ => false
  end.

(** How often [initialize] is called along a run. *)
Definition initialisations (evs : list Event) : nat :=
  sum_list_with (fun e => if is_initialize e then 1 else 0) evs.

Definition no_initialize (evs : list Event) : Prop :=
  forallb (fun e => negb (is_initialize e)) evs = true.

(** Every context reference in use names an existing context. *)
Definition pc_ref_valid (n : nat) (pc : WorkerPc) : Prop :=
  match pc with
  | WExecute _ _ k _ _ => k < n
  | _ => True
  end.

Record refs_valid (s : Engine) : Prop := mkRefsValid {
  valid_sessions :
    forall sid k, active_sessions s !! sid = Some k -> k < length (contexts s);
  valid_workers : Forall (fun w => pc_ref_valid (length (contexts s)) w.2) (workers s)
}.

(** The statistics object of a worker names a current task exactly while
    the worker is inside the semaphore section. *)
Definition busy_in_section (w : WorkerStats * WorkerPc) : Prop :=
  is_Some (current_task w.1) <-> holds_permit w.2 = 1.

(** Entries in the completed and failed lists of all session contexts made
    so far. *)
Definition completed_records (s : Engine) : nat :=
  sum_list_with (fun c => length (completed_tasks c)) (contexts s).

Definition failed_records (s : Engine) : nat :=
  sum_list_with (fun c => length (failed_tasks c)) (contexts s).

(** The counters of all worker loops. *)
Definition counted_completed (s : Engine) : nat :=
  sum_list_with (fun w => tasks_completed w.1) (workers s).

Definition counted_failed (s : Engine) : nat :=
  sum_list_with (fun w => tasks_failed w.1) (workers s).

(** The fields of a task the engine has no business writing. *)
Definition same_request (a b : SubAgentTaskModel) : Prop :=
  task_id a = task_id b /\ agent_name a = agent_name b
  /\ task_type a = task_type b /\ priority a = priority b
  /\ input_data a = input_data b.

(** A session context only grows: entries are appended to its two lists,
    the flag is raised and never lowered, the rest stays. *)
Definition grows_to (c c' : SessionContext) : Prop :=
  session_id c' = session_id c /\ tasks c' = tasks c
  /\ progress_callback c' = progress_callback c
  /\ completed_tasks c `prefix_of` completed_tasks c'
  /\ failed_tasks c `prefix_of` failed_tasks c'
  /\ (is_cancelled c = true -> is_cancelled c' = true).

(** A call that is still under way for session [sid]. *)
Definition serves (sid : string) (st : CallState) : Prop :=
  match st with
  | CPut _ sid' _ _ | CSleep _ sid' _ => sid' = sid
  | _ => False
  end.

(** No entry of [active_sessions] is left behind: its call is still under
    way, or a delayed clean-up for its id is pending. *)
Definition retained (s : Engine) : Prop :=
  forall sid, is_Some (active_sessions s !! sid) ->
    sid ∈ cleanup_timers s \/ exists c st, calls s !! c = Some st /\ serves sid st.

Definition all_exited (s : Engine) : Prop :=
  Forall (fun w => w.2 = WExited) (workers s).

(** [cleanup] is suspended in a [put] that nothing can ever serve: the
    queue is full and every worker loop has ended. *)
Record shutdown_stuck (s : Engine) : Prop := mkStuck {
  stuck_puts : 0 < shutdown_puts s;
  stuck_full : queue_full s = true;
  stuck_workers : all_exited s
}.

(** A task queue that respects its [maxsize]. *)
Definition within_maxsize (s : Engine) : Prop :=
  (0 < queue_size s)%Z -> (Z.of_nat (length (task_queue s)) <= queue_size s)%Z.

(** A worker that is not waiting for a permit of the semaphore. *)
Definition not_acquiring (w : WorkerStats * WorkerPc) : Prop :=
  match w.2 with
  | WAcquire _ _ => False
  | _ => True
  end.

(** The counters of the workers agree with the session records: every
    entry of a completed list was counted once, every entry of a failed
    list at least once. *)
Definition accounted (s : Engine) : Prop :=
  counted_completed s = completed_records s /\ failed_records s <= counted_failed s.

(** The engine after a shutdown of an idle engine: not running, nothing but
    termination signals in the queue, every worker parked in [get] or
    gone. *)
Record winding_down (s : Engine) : Prop := mkWinding {
  winding_flag : is_running s = false;
  winding_queue : Forall (fun item => item = None) (task_queue s);
  winding_workers : Forall (fun w => w.2 = WGet \/ w.2 = WExited) (workers s)
}.

(** ** One worker serving a batch *)

(** What the dispatch of task [t] leads to, read off the engine in which
    the batch is submitted: the task succeeds when its agent name is
    registered and [BaseAgent.execute] answers COMPLETED on its input. *)
Definition succeeds (s : Engine) (t : TaskRef) : bool :=
  match get_agent s (agent_name (task_of s t)) with
  | Some agent =>
      bool_decide
        (r_status (BaseAgent_execute agent (input_data (task_of s t))) = A_COMPLETED)
  | None => false
  end.

(** Every task of [ts] names an agent that [get_agent] finds. *)
Definition registered (s : Engine) (ts : list TaskRef) : Prop :=
  forall t, t ∈ ts -> is_Some (get_agent s (agent_name (task_of s t))).

(** The resumptions of worker [w] that take it through the tasks [ts]
    when their agents are registered and no progress callback is set: for
    each task, out of [get] and into the agent, then out of the agent. *)
Definition serve_events (w : nat) (ts : list TaskRef) : list Event :=
  ts ≫= fun _ => [ResumeWorker w; ResumeWorker w].

(** Worker [w] is ready to serve tasks of session [sid] (context [k]) in
    state [s]; [s0] is the engine in which the batch was submitted. *)
Record serving (s0 : Engine) (w : nat) (sid : string) (k : CtxRef) (s : Engine)
    : Prop := mkServing {
  serving_worker : exists st, workers s !! w = Some (st, WGet);
  serving_permit : 0 < semaphore s;
  serving_running : is_running s = true;
  serving_session : active_sessions s !! sid = Some k;
  serving_ctx :
    exists c, contexts s !! k = Some c
              /\ is_cancelled c = false /\ progress_callback c = None;
  serving_registry : registry s = registry s0;
  serving_objects : length (objects s) = length (objects s0);
  serving_requests : forall t, same_request (task_of s0 t) (task_of s t)
}.

(** The result an orderly run hands back for the tasks [ts]: those that
    succeed, then those that fail, each group in the order of dispatch. *)
Definition served_result (s : Engine) (ts : list TaskRef) : list TaskRef :=
  filter (fun t => succeeds s t = true) ts ++ filter (fun t => succeeds s t = false) ts.

(** The error message the dispatch of task [t] leaves in the task. *)
Definition expected_error (s : Engine) (t : TaskRef) : option string :=
  match get_agent s (agent_name (task_of s t)) with
  | Some agent => r_error_message (BaseAgent_execute agent (input_data (task_of s t)))
  | None => Some (agent_not_found (agent_name (task_of s t)))
  end.

(** What an orderly run leaves in task [t] of the batch. *)
Definition served (s s' : Engine) (t : TaskRef) : Prop :=
  status (task_of s' t) = (if succeeds s t then COMPLETED else FAILED)
  /\ error_message (task_of s' t) = expected_error s t.

(** An agent whose input check turns every input down. *)
Definition strict_agent : AgentClass :=
  fun _ => MainValueError "username is required".

Definition two_agents : gmap string AgentClass :=
  <["StrictAgent" := strict_agent]> demo_registry.

(** ** The module as it stands *)

(** A worker loop when no agent is ever found: it has completed nothing
    and never waits in an agent or a callback; it has failed no task, or
    exactly one, with which the loop ended. *)
Definition one_failure (w : WorkerStats * WorkerPc) : Prop :=
  tasks_completed w.1 = 0
  /\ match w.2 with
     | WGet | WAcquire _ _ | WExited => tasks_failed w.1 = 0
     | WRaised e => e = TypeError /\ tasks_failed w.1 = 1
     | WExecute _ _ _ _ _ | WCallback _ _ _ => False
     end.

(** A call for a batch of [n] tasks: while it is under way it knows its
    batch size and its context; if it has returned through the completion
    test, it has returned at least [n] tasks, and no more than there are
    worker loops. *)
Definition call_short (n : nat) (s : Engine) (st : CallState) : Prop :=
  match st with
  | CPut k _ _ total | CSleep k _ total => total = n /\ k < length (contexts s)
  | CReturned ByCompletion result => n <= length result <= length (workers s)
  | _ => True
  end.

(** The engine when no agent is ever found. *)
Record starved (s : Engine) : Prop := mkStarved {
  starved_registry : registry s = placeholder_registry;
  starved_workers : Forall one_failure (workers s);
  starved_refs : refs_valid s;
  starved_accounted : accounted s
}.

(** * [app/models/schemas.py]: the DNS server check

    [NetworkInterfaceModel.validate_dns_servers] runs [re.match] with the
    IPv4 pattern of the module on every entry of the list and raises
    [ValueError] on the first entry that does not match.  Strings are byte
    strings in UTF-8 here; the pattern consumes ASCII digits and dots
    only, so an entry with any other character is rejected either way. *)

(** The fragment of the regular expressions of [re] the pattern is written
    in.  [(?:...)] only groups; [r{n}] is [n] copies of [r] in a row. *)
Inductive Regex :=
| Lit (c : ascii)
| Range (lo hi : ascii)
| OneOf (cs : list ascii)
| Cat (r1 r2 : Regex)
| Or (r1 r2 : Regex)
| Maybe (r : Regex)
| Empty.

Fixpoint times (n : nat) (r : Regex) : Regex :=
  match n with
  | O => Empty
  | S n' => Cat r (times n' r)
  end.

Definition in_range (lo hi x : ascii) : bool :=
  (nat_of_ascii lo <=? nat_of_ascii x) && (nat_of_ascii x <=? nat_of_ascii hi).

(** The backtracking matcher: [r] has to match at the front of [s] and [k]
    what follows.  Alternatives are tried from left to right, an optional
    part first with and then without it. *)
Fixpoint match_here (r : Regex) (s : string) (k : string -> bool) : bool :=
  match r with
  | Lit c =>
      match s with
      | String x s' => Ascii.eqb x c && k s'
      | EmptyString => false
      end
  | Range lo hi =>
      match s with
      | String x s' => in_range lo hi x && k s'
      | EmptyString => false
      end
  | OneOf cs =>
      match s with
      | String x s' => existsb (Ascii.eqb x) cs && k s'
      | EmptyString => false
      end
  | Cat r1 r2 => match_here r1 s (fun s' => match_here r2 s' k)
  | Or r1 r2 => match_here r1 s k || match_here r2 s k
  | Maybe r' => match_here r' s k || k s
  | Empty => k s
  end.

(** [$] without [re.MULTILINE]: at the end of the string, or just before a
    line feed that ends it. *)
Definition at_end (s : string) : bool :=
  match s with
  | EmptyString => true
  | String c EmptyString => Ascii.eqb c "010"%char
  | _ => false
  end.

(** [re.match(pattern, s)] for a pattern [^r$]: the match is anchored at
    the start by [re.match] itself. *)
Definition re_match (r : Regex) (s : string) : bool := match_here r s at_end.

(** [(?:25[0-5]|2[0-4][0-9]|[01]?[0-9][0-9]?)] *)
Definition octet : Regex :=
  Or (Cat (Lit "2") (Cat (Lit "5") (Range "0" "5")))
     (Or (Cat (Lit "2") (Cat (Range "0" "4") (Range "0" "9")))
         (Cat (Maybe (OneOf ["0"; "1"]%char))
              (Cat (Range "0" "9") (Maybe (Range "0" "9"))))).

(** [^(?:octet\.){3}octet$] *)
Definition ip_pattern : Regex :=
  Cat (times 3 (Cat octet (Lit "."))) octet.

(** What a validator of a field answers: the value, or [ValueError]. *)
Inductive Validated (A : Type) :=
| Valid (a : A)
| ValueError (msg : string).

Arguments Valid {A} a.
Arguments ValueError {A} msg.

Fixpoint first_invalid_dns (v : list string) : option string :=
  match v with
  | [] => None
  | dns :: rest =>
      if re_match ip_pattern dns then first_invalid_dns rest else Some dns
  end.

Definition validate_dns_servers (v : list string) : Validated (list string) :=
  match first_invalid_dns v with
  | Some dns => ValueError ("無効なDNSサーバーアドレス: " +:+ dns)
  | None => Valid v
  end.

(** *** Dotted quads *)

Definition is_digit (c : ascii) : Prop :=
  48 <= nat_of_ascii c <= 57.

Definition digit_value (c : ascii) : nat := nat_of_ascii c - 48.

(** One to three decimal digits that denote a number up to 255. *)
Definition is_octet (s : string) : Prop :=
  match s with
  | String a EmptyString => is_digit a
  | String a (String b EmptyString) => is_digit a /\ is_digit b
  | String a (String b (String c EmptyString)) =>
      is_digit a /\ is_digit b /\ is_digit c
      /\ 100 * digit_value a + 10 * digit_value b + digit_value c <= 255
  | _ => False
  end.

Definition dotted_quad (s : string) : Prop :=
  exists a b c d,
    s = a +:+ "." +:+ b +:+ "." +:+ c +:+ "." +:+ d
    /\ is_octet a /\ is_octet b /\ is_octet c /\ is_octet d.

(** What the pattern lets through. *)
Definition dns_address (s : string) : Prop :=
  dotted_quad s \/ exists s0, s = s0 +:+ String "010" EmptyString /\ dotted_quad s0.

(** The strings a regular expression denotes. *)
Fixpoint lang (r : Regex) (s : string) : Prop :=
  match r with
  | Lit c => s = String c EmptyString
  | Range lo hi => exists x, s = String x EmptyString /\ in_range lo hi x = true
  | OneOf cs => exists x, s = String x EmptyString /\ existsb (Ascii.eqb x) cs = true
  | Cat r1 r2 => exists s1 s2, s = s1 +:+ s2 /\ lang r1 s1 /\ lang r2 s2
  | Or r1 r2 => lang r1 s \/ lang r2 s
  | Maybe r' => s = EmptyString \/ lang r' s
  | Empty => s = EmptyString
  end.
(** * Properties *)

(** ** Reading the stores after a write *)

Lemma task_of_update_task_eq f t s :
  is_Some (objects s !! t) -> task_of (update_task f t s) t = f (task_of s t).
Proof.
  intros [x Hx]. unfold task_of, update_task. simpl.
  by rewrite list_lookup_alter_eq, Hx.
Qed.

Lemma task_of_update_task_ne f t t' s :
  t <> t' -> task_of (update_task f t s) t' = task_of s t'.
Proof.
  intros Hne. unfold task_of, update_task. simpl.
  by rewrite list_lookup_alter_ne.
Qed.

Lemma ctx_of_update_ctx_eq f c s :
  is_Some (contexts s !! c) -> ctx_of (update_ctx f c s) c = f (ctx_of s c).
Proof.
  intros [x Hx]. unfold ctx_of, update_ctx. simpl.
  by rewrite list_lookup_alter_eq, Hx.
Qed.

Lemma ctx_of_update_ctx_ne f c c' s :
  c <> c' -> ctx_of (update_ctx f c s) c' = ctx_of s c'.
Proof.
  intros Hne. unfold ctx_of, update_ctx. simpl.
  by rewrite list_lookup_alter_ne.
Qed.


(** ** Bounded concurrency *)

Lemma same_permits_refl s : same_permits s s.
Proof. by repeat split. Qed.

Lemma same_permits_trans s1 s2 s3 :
  same_permits s1 s2 -> same_permits s2 s3 -> same_permits s1 s3.
Proof. unfold same_permits. intros (?&?&?) (?&?&?). repeat split; congruence. Qed.

Lemma sum_list_with_insert {A} (f : A -> nat) (l : list A) i x y :
  l !! i = Some x ->
  sum_list_with f (<[i:=y]> l) + f x = sum_list_with f l + f y.
Proof.
  revert i. induction l as [|a l IH]; intros [|i] H; simplify_eq/=; try lia.
  specialize (IH _ H). lia.
Qed.

Lemma sum_list_with_le {A} (f g : A -> nat) (l : list A) :
  (forall x, f x <= g x) -> sum_list_with f l <= sum_list_with g l.
Proof. intros H. induction l as [|a l IH]; simpl; [lia|]. specialize (H a). lia. Qed.

Lemma put_all_permits sid pending s :
  same_permits s (put_all sid pending s).1.
Proof.
  revert s. induction pending as [|t rest IH]; intros s; simpl.
  - apply same_permits_refl.
  - case_match; simpl; [by repeat split|].
    eapply same_permits_trans; [|apply IH]. by repeat split.
Qed.

Lemma resume_put_permits sid pending s :
  same_permits s (resume_put sid pending s).1.
Proof.
  destruct pending as [|t rest]; simpl; [apply same_permits_refl|].
  case_match; simpl; [apply same_permits_refl|].
  eapply same_permits_trans; [|apply put_all_permits]. by repeat split.
Qed.

Lemma wait_loop_permits k sid total timed_out s :
  same_permits s (wait_loop k sid total timed_out s).2.
Proof.
  unfold wait_loop, after_wait. repeat case_match; simpl; by repeat split.
Qed.

Lemma after_put_permits k sid total timed_out r :
  same_permits r.1 (after_put k sid total timed_out r).2.
Proof.
  destruct r as [s [|t rest]]; simpl; [apply wait_loop_permits|apply same_permits_refl].
Qed.

Lemma execute_agents_parallel_permits batch sid cb timed_out s :
  same_permits s (execute_agents_parallel batch sid cb timed_out s).2.
Proof.
  unfold execute_agents_parallel. case_match; [|apply same_permits_refl].
  eapply same_permits_trans; [|apply after_put_permits].
  eapply same_permits_trans; [|apply put_all_permits]. by repeat split.
Qed.

Lemma resume_call_permits c timed_out s :
  same_permits s (resume_call c timed_out s).
Proof.
  unfold resume_call.
  destruct (calls s !! c) as [[k sid pending total|k sid total|how res|e]|];
    try apply same_permits_refl.
  - pose proof (resume_put_permits sid pending s) as Hput.
    pose proof (after_put_permits k sid total timed_out (resume_put sid pending s)) as Haft.
    destruct (after_put k sid total timed_out (resume_put sid pending s)) as [st s'].
    eapply same_permits_trans; [exact Hput|].
    eapply same_permits_trans; [exact Haft|]. by repeat split.
  - pose proof (wait_loop_permits k sid total timed_out s) as Haft.
    destruct (wait_loop k sid total timed_out s) as [st s'].
    eapply same_permits_trans; [exact Haft|]. by repeat split.
Qed.

Lemma cancel_session_permits sid s : same_permits s (cancel_session sid s).
Proof. unfold cancel_session. case_match; by repeat split. Qed.

Lemma put_signals_permits n s : same_permits s (put_signals n s).
Proof.
  revert s. induction n as [|n IH]; intros s; simpl; [by repeat split|].
  case_match; [by repeat split|].
  eapply same_permits_trans; [|apply IH]. by repeat split.
Qed.

Lemma cancel_all_permits (l : list (string * CtxRef)) s :
  same_permits s (foldr (fun kv acc => cancel_session kv.1 acc) s l).
Proof.
  induction l as [|kv l IH]; simpl; [apply same_permits_refl|].
  eapply same_permits_trans; [exact IH|apply cancel_session_permits].
Qed.

Lemma cleanup_permits s : same_permits s (cleanup s).
Proof.
  unfold cleanup.
  eapply same_permits_trans; [|apply put_signals_permits].
  eapply same_permits_trans; [|apply cancel_all_permits]. by repeat split.
Qed.

Lemma resume_worker_permits st pc s st' pc' s' :
  resume_worker st pc s = (st', pc', s') ->
  semaphore s' + holds_permit pc' = semaphore s + holds_permit pc
  /\ workers s' = workers s /\ max_workers s' = max_workers s.
Proof.
  unfold resume_worker, acquire, enter_section, after_execute, leave_section,
    except_block.
  intros H. repeat case_match; simplify_eq/=; repeat split; lia.
Qed.

Lemma same_permits_balanced s s' :
  same_permits s s' -> permits_balanced s -> permits_balanced s'.
Proof.
  unfold same_permits, permits_balanced, in_section.
  intros (-> & -> & ->). done.
Qed.

Lemma step_permits_balanced s e :
  permits_balanced s -> permits_balanced (step s e).
Proof.
  intros Hs. destruct e; simpl.
  - exact Hs.
  - unfold permits_balanced, in_section, initialize in *. simpl.
    rewrite sum_list_with_app.
    assert (forall l : list nat,
      sum_list_with (fun w : WorkerStats * WorkerPc => holds_permit w.2)
        ((fun i => (mkStats i 0 0 None, WGet)) <$> l) = 0) as ->; [|lia].
    intros l. induction l; simpl; auto.
  - pose proof (execute_agents_parallel_permits batch sid cb timed_out s) as H.
    destruct (execute_agents_parallel batch sid cb timed_out s) as [st s'].
    eapply same_permits_balanced; [|exact Hs].
    eapply same_permits_trans; [exact H|]. by repeat split.
  - eapply same_permits_balanced; [apply resume_call_permits|exact Hs].
  - unfold step_worker. destruct (workers s !! w) as [[st pc]|] eqn:Hw; [|exact Hs].
    destruct (resume_worker st pc s) as [[st' pc'] s'] eqn:Hr.
    apply resume_worker_permits in Hr as (Hsem & Hws & Hmax).
    unfold permits_balanced, in_section in *. simpl. rewrite Hws, Hmax.
    pose proof (sum_list_with_insert (fun w : WorkerStats * WorkerPc => holds_permit w.2)
                  (workers s) w (st, pc) (st', pc') Hw) as Hsum.
    simpl in Hsum. lia.
  - eapply same_permits_balanced; [apply cancel_session_permits|exact Hs].
  - unfold cleanup_session. case_match; [|exact Hs]. exact Hs.
  - eapply same_permits_balanced; [apply cleanup_permits|exact Hs].
  - eapply same_permits_balanced; [apply put_signals_permits|exact Hs].
Qed.

Lemma run_permits_balanced evs s :
  permits_balanced s -> permits_balanced (run s evs).
Proof.
  revert s. induction evs as [|e evs IH]; intros s Hs; simpl; [exact Hs|].
  apply IH, step_permits_balanced, Hs.
Qed.

Lemma run_max_workers evs s : max_workers (run s evs) = max_workers s.
Proof.
  revert s. induction evs as [|e evs IH]; intros s; simpl; [done|].
  rewrite IH. destruct e; simpl; try done.
  - pose proof (execute_agents_parallel_permits batch sid cb timed_out s) as (_&_&H).
    by destruct (execute_agents_parallel batch sid cb timed_out s).
  - apply resume_call_permits.
  - unfold step_worker. destruct (workers s !! w) as [[st pc]|]; [|done].
    destruct (resume_worker st pc s) as [[st' pc'] s'] eqn:Hr.
    by apply resume_worker_permits in Hr as (_ & _ & ?).
  - apply cancel_session_permits.
  - unfold cleanup_session. by case_match.
  - apply cleanup_permits.
  - apply put_signals_permits.
Qed.

(** C1. In every state the engine can reach, whatever the configured worker
    count and whatever the schedule (including repeated [initialize] calls,
    which add worker loops), the number of workers inside the
    semaphore-guarded section of [_execute_task] is at most [max_workers];
    so is the number of agent invocations in flight. *)
Theorem C1_concurrency_bound (cfg : Settings) (evs : list Event) :
  let s := run (ParallelProcessor_init cfg) evs in
  in_section s <= cfg_max_workers cfg /\ running_agents s <= in_section s.
Proof.
  intros s. split.
  - assert (permits_balanced s) as H.
    { apply run_permits_balanced. unfold permits_balanced, in_section. simpl. lia. }
    unfold permits_balanced in H. subst s. rewrite run_max_workers in H. simpl in H. lia.
  - apply sum_list_with_le. intros [st pc]. destruct pc; simpl; lia.
Qed.
(** ** Empty batches, time-outs and unknown agents *)

(** C10 (evaluation of the code).  On an initialised engine,
    [execute_agents_parallel] called with an empty task list does not
    return: the wait loop leaves at once through the completion test
    ([0 >= 0]) and the success rate then divides by the batch size, which
    is zero.  The [except] block of the call catches that
    [ZeroDivisionError]; its logging call raises [TypeError] before [raise]
    is reached, and [TypeError] is what the caller gets. *)
Theorem C10_empty_batch_raises (s : Engine) (sid : string)
    (cb : option Callback) (timed_out : bool) :
  is_initialized s = true ->
  wait_check (mkCtx sid [] [] [] false cb) 0 timed_out = Some ByCompletion
  /\ (forall k s', wait_summary k 0 s' = Raise ZeroDivisionError)
  /\ call_except ZeroDivisionError = TypeError
  /\ (execute_agents_parallel [] sid cb timed_out s).1 = CRaised TypeError
  /\ calls (step s (Call [] sid cb timed_out)) = calls s ++ [CRaised TypeError].
Proof.
  intros Hinit. split; [done|]. split; [done|]. split; [done|].
  unfold step, execute_agents_parallel. rewrite Hinit. simpl.
  unfold wait_loop, wait_check. simpl. done.
Qed.

Lemma C10_empty_batch_raises_witness :
  is_initialized (demo_engine placeholder_registry) = true
  /\ calls (step (demo_engine placeholder_registry) (Call [] "session-1" None false))
     = [CRaised TypeError].
Proof.
  split; [reflexivity|].
  apply (C10_empty_batch_raises (demo_engine placeholder_registry)
           "session-1" None false).
  reflexivity.
Defined.

(** C9 (evaluation of the code).  When the time-out test of the wait loop
    fires while fewer tasks than the batch size have been recorded, the
    call does not return the tasks recorded so far: the [logger.warn(...)]
    in front of the [break] raises [TypeError], the [except] block of the
    call logs with [logger.error(...)], which raises [TypeError] again, and
    the caller gets that exception.  The clean-up of the session is
    scheduled all the same. *)
Theorem C9_timeout_raises (s : Engine) (k : CtxRef) (sid : string) (total : nat) :
  length (completed_tasks (ctx_of s k)) + length (failed_tasks (ctx_of s k)) < total ->
  wait_check (ctx_of s k) total true = Some ByTimeout
  /\ leave_wait_loop ByTimeout = Some TypeError
  /\ wait_loop k sid total true s
     = (CRaised TypeError, with_cleanup_timers (cleanup_timers s ++ [sid]) s)
  /\ forall c, calls s !! c = Some (CSleep k sid total) ->
       calls (step s (ResumeCall c true)) !! c = Some (CRaised TypeError).
Proof.
  intros Hlt.
  assert (wait_check (ctx_of s k) total true = Some ByTimeout) as Hc.
  { unfold wait_check.
    destruct (Nat.leb_spec total
      (length (completed_tasks (ctx_of s k)) + length (failed_tasks (ctx_of s k))));
      [lia|done]. }
  assert (wait_loop k sid total true s
          = (CRaised TypeError, with_cleanup_timers (cleanup_timers s ++ [sid]) s))
    as Hw.
  { unfold wait_loop. rewrite Hc. done. }
  split; [exact Hc|]. split; [done|]. split; [exact Hw|].
  intros c Hcall. simpl. unfold resume_call. rewrite Hcall, Hw. simpl.
  apply list_lookup_insert_eq. by eapply lookup_lt_Some.
Qed.

Lemma C9_timeout_raises_witness :
  let s := run (demo_submitted demo_registry None) [ResumeWorker 0; ResumeWorker 0] in
  length (completed_tasks (ctx_of s 0)) + length (failed_tasks (ctx_of s 0)) < 3
  /\ completed_tasks (ctx_of s 0) = [1]
  /\ calls s !! 0 = Some (CSleep 0 "session-1" 3)
  /\ calls (step s (ResumeCall 0 true)) !! 0 = Some (CRaised TypeError).
Proof.
  intros s.
  assert (length (completed_tasks (ctx_of s 0)) + length (failed_tasks (ctx_of s 0)) < 3)
    as Hlt by (vm_compute; lia).
  split; [exact Hlt|]. split; [reflexivity|]. split; [reflexivity|].
  apply (C9_timeout_raises s 0 "session-1" 3 Hlt). reflexivity.
Defined.

(** C7 (evaluation of the code).  A worker that takes from the queue a task
    whose agent name is not in the registry (the session being active and
    not cancelled) marks the task FAILED with the look-up error as its
    message, appends it to the failed list of the session and returns its
    permit; no call of [execute_agents_parallel] is disturbed.  The
    [logger.error(...)] that ends the except block raises [TypeError],
    though, the handler of the worker loop raises it again, and the
    exception leaves the loop: the worker is gone, and what is left in the
    queue is not taken by it. *)
Theorem C7_unknown_agent_ends_worker (s : Engine) (w : nat) (st : WorkerStats)
    (sid : string) (t : TaskRef) (q : list (option (string * TaskRef))) (c : CtxRef) :
  workers s !! w = Some (st, WGet) ->
  task_queue s = Some (sid, t) :: q ->
  0 < semaphore s ->
  is_Some (objects s !! t) ->
  active_sessions s !! sid = Some c ->
  is_Some (contexts s !! c) ->
  is_cancelled (ctx_of s c) = false ->
  get_agent s (agent_name (task_of s t)) = None ->
  let s' := step s (ResumeWorker w) in
  status (task_of s' t) = FAILED
  /\ error_message (task_of s' t) = Some (agent_not_found (agent_name (task_of s t)))
  /\ failed_tasks (ctx_of s' c) = failed_tasks (ctx_of s c) ++ [t]
  /\ completed_tasks (ctx_of s' c) = completed_tasks (ctx_of s c)
  /\ workers s' !! w
     = Some (set_current_task None (incr_tasks_failed st), WRaised TypeError)
  /\ semaphore s' = semaphore s
  /\ calls s' = calls s
  /\ task_queue s' = q
  /\ task_queue (step s' (ResumeWorker w)) = q.
Proof.
  intros Hw Hq Hsem Ht Hsid Hc Hcan Hreg s'.
  assert (s' = with_workers
                 (<[w := (set_current_task None (incr_tasks_failed st),
                          WRaised TypeError)]> (workers s))
                 (with_semaphore (semaphore s)
                    (update_ctx (append_failed t) c
                       (update_task
                          (fun x => set_error_message
                                      (Some (agent_not_found (agent_name (task_of s t))))
                                      (set_status FAILED x)) t
                          (with_task_queue q s))))) as ->.
  { subst s'. unfold step, step_worker. rewrite Hw. unfold resume_worker. rewrite Hq.
    unfold acquire. cbn [semaphore with_task_queue].
    destruct (semaphore s) as [|n] eqn:Hn; [lia|].
    unfold enter_section.
    cbn [active_sessions with_semaphore with_task_queue].
    rewrite Hsid.
    change (task_of (with_semaphore n (with_task_queue q s)) t) with (task_of s t).
    change (ctx_of (with_semaphore n (with_task_queue q s)) c) with (ctx_of s c).
    change (get_agent (with_semaphore n (with_task_queue q s))) with (get_agent s).
    rewrite Hcan, Hreg. unfold except_block.
    cbn [active_sessions update_task with_objects with_semaphore with_task_queue].
    rewrite Hsid. reflexivity. }
  destruct Ht as [x Hx]. destruct Hc as [y Hy].
  assert (w < length (workers s)) as Hlt by (by eapply lookup_lt_Some).
  unfold task_of, ctx_of. simpl.
  rewrite !list_lookup_alter_eq, Hx, Hy. simpl.
  split; [done|]. split; [done|]. split; [done|]. split; [done|].
  split; [by apply list_lookup_insert_eq|].
  split; [done|]. split; [done|]. split; [done|].
  unfold step_worker. simpl. rewrite list_lookup_insert_eq by done. done.
Qed.

Lemma C7_unknown_agent_ends_worker_witness :
  let s := demo_submitted placeholder_registry None in
  workers s !! 0 = Some (mkStats 0 0 0 None, WGet)
  /\ task_queue s = Some ("session-1", 1) :: [Some ("session-1", 2); Some ("session-1", 0)]
  /\ 0 < semaphore s
  /\ is_Some (objects s !! 1)
  /\ active_sessions s !! "session-1" = Some 0
  /\ is_Some (contexts s !! 0)
  /\ is_cancelled (ctx_of s 0) = false
  /\ get_agent s (agent_name (task_of s 1)) = None
  /\ is_running s = true
  /\ status (task_of (step s (ResumeWorker 0)) 1) = FAILED
  /\ error_message (task_of (step s (ResumeWorker 0)) 1)
     = Some "エージェント 'UserCreationAgent' が見つかりません"
  /\ failed_tasks (ctx_of (step s (ResumeWorker 0)) 0) = [1]
  /\ workers (step s (ResumeWorker 0)) !! 0 = Some (mkStats 0 0 1 None, WRaised TypeError)
  /\ task_queue (step (step s (ResumeWorker 0)) (ResumeWorker 0))
     = [Some ("session-1", 2); Some ("session-1", 0)].
Proof.
  intros s.
  assert (workers s !! 0 = Some (mkStats 0 0 0 None, WGet)) as H1 by reflexivity.
  assert (task_queue s
          = Some ("session-1", 1) :: [Some ("session-1", 2); Some ("session-1", 0)])
    as H2 by reflexivity.
  assert (0 < semaphore s) as H3 by (vm_compute; lia).
  assert (is_Some (objects s !! 1)) as H4 by (vm_compute; eauto).
  assert (active_sessions s !! "session-1" = Some 0) as H5 by reflexivity.
  assert (is_Some (contexts s !! 0)) as H6 by (vm_compute; eauto).
  assert (is_cancelled (ctx_of s 0) = false) as H7 by reflexivity.
  assert (get_agent s (agent_name (task_of s 1)) = None) as H8 by reflexivity.
  pose proof (C7_unknown_agent_ends_worker s 0 _ _ 1 _ 0 H1 H2 H3 H4 H5 H6 H7 H8)
    as (R1 & R2 & R3 & _ & R5 & _ & _ & _ & R9).
  split; [exact H1|]. split; [exact H2|]. split; [exact H3|]. split; [exact H4|].
  split; [exact H5|]. split; [exact H6|]. split; [exact H7|]. split; [exact H8|].
  split; [reflexivity|].
  split; [exact R1|]. split; [exact R2|]. split; [exact R3|]. split; [exact R5|].
  exact R9.
Defined.

(** ** Status transitions *)

Lemma only_sets_refl P s : only_sets P s s.
Proof. intros t. by left. Qed.

Lemma only_sets_trans P s1 s2 s3 :
  only_sets P s1 s2 -> only_sets P s2 s3 -> only_sets P s1 s3.
Proof.
  intros H12 H23 t. destruct (H23 t) as [E|?]; [|by right].
  rewrite E. apply H12.
Qed.

Lemma only_sets_same_objects P s s' : objects s' = objects s -> only_sets P s s'.
Proof. intros E t. left. unfold task_of. by rewrite E. Qed.

Lemma only_sets_update_task (P : StatusEnum -> Prop) f t s :
  (forall x, P (status (f x))) -> only_sets P s (update_task f t s).
Proof.
  intros Hf t'. unfold task_of, update_task. simpl.
  destruct (decide (t = t')) as [->|Hne].
  - rewrite list_lookup_alter_eq. destruct (objects s !! t'); simpl; auto.
  - rewrite list_lookup_alter_ne by done. by left.
Qed.

Lemma put_all_only_sets sid pending s :
  only_sets (fun v => v = PENDING) s (put_all sid pending s).1.
Proof.
  revert s. induction pending as [|t rest IH]; intros s; simpl.
  - apply only_sets_refl.
  - assert (only_sets (fun v => v = PENDING) s (update_task (set_status PENDING) t s))
      as H1 by (by apply only_sets_update_task).
    case_match; simpl; [exact H1|].
    eapply only_sets_trans; [exact H1|].
    eapply only_sets_trans; [|apply IH]. by apply only_sets_same_objects.
Qed.

Lemma resume_put_only_sets sid pending s :
  only_sets (fun v => v = PENDING) s (resume_put sid pending s).1.
Proof.
  destruct pending as [|t rest]; simpl; [apply only_sets_refl|].
  case_match; simpl; [apply only_sets_refl|].
  eapply only_sets_trans; [|apply put_all_only_sets]. by apply only_sets_same_objects.
Qed.

Lemma wait_loop_objects k sid total timed_out s :
  objects (wait_loop k sid total timed_out s).2 = objects s.
Proof. unfold wait_loop, after_wait. by repeat case_match. Qed.

Lemma after_put_objects k sid total timed_out r :
  objects (after_put k sid total timed_out r).2 = objects r.1.
Proof. destruct r as [s [|t rest]]; simpl; [apply wait_loop_objects|done]. Qed.

Lemma execute_agents_parallel_only_sets batch sid cb timed_out s :
  only_sets (fun v => v = PENDING) s
    (execute_agents_parallel batch sid cb timed_out s).2.
Proof.
  unfold execute_agents_parallel. case_match; [|apply only_sets_refl].
  eapply only_sets_trans; [|apply only_sets_same_objects, after_put_objects].
  eapply only_sets_trans; [|apply put_all_only_sets]. by apply only_sets_same_objects.
Qed.

Lemma resume_call_only_sets c timed_out s :
  only_sets (fun v => v = PENDING) s (resume_call c timed_out s).
Proof.
  unfold resume_call.
  destruct (calls s !! c) as [[k sid pending total|k sid total|how res|e]|];
    try apply only_sets_refl.
  - pose proof (resume_put_only_sets sid pending s) as Hput.
    pose proof (after_put_objects k sid total timed_out (resume_put sid pending s)) as Haft.
    destruct (after_put k sid total timed_out (resume_put sid pending s)) as [st s'].
    eapply only_sets_trans; [exact Hput|]. by apply only_sets_same_objects.
  - pose proof (wait_loop_objects k sid total timed_out s) as Haft.
    destruct (wait_loop k sid total timed_out s) as [st s'].
    by apply only_sets_same_objects.
Qed.

Lemma BaseAgent_execute_status agent input :
  r_status (BaseAgent_execute agent input) = A_COMPLETED
  \/ r_status (BaseAgent_execute agent input) = A_FAILED.
Proof. unfold BaseAgent_execute. destruct (agent input); simpl; auto. Qed.

Lemma except_block_only_sets sid t msg st s :
  only_sets terminal s (except_block sid t msg st s).1.2.
Proof.
  unfold except_block.
  assert (only_sets terminal s
            (update_task (fun x => set_error_message (Some msg) (set_status FAILED x)) t s))
    as H1.
  { apply only_sets_update_task. intros x. right. by left. }
  case_match; simpl; [|exact H1].
  eapply only_sets_trans; [exact H1|]. by apply only_sets_same_objects.
Qed.

Lemma leave_section_objects r : objects (leave_section r).2 = objects r.1.2.
Proof. by destruct r as [[st s] raised]. Qed.

Lemma enter_section_only_sets sid t st s :
  only_sets terminal s (enter_section sid t st s).2.
Proof.
  unfold enter_section. repeat case_match; simpl; try apply only_sets_refl.
  - apply only_sets_update_task. intros x. right. by right.
  - eapply only_sets_trans; [apply except_block_only_sets|].
    apply only_sets_same_objects, leave_section_objects.
  - eapply only_sets_trans; [apply except_block_only_sets|].
    apply only_sets_same_objects, leave_section_objects.
Qed.

Lemma acquire_only_sets sid t st s :
  only_sets terminal s (acquire sid t st s).2.
Proof.
  unfold acquire. destruct (semaphore s) as [|n]; [apply only_sets_refl|].
  eapply only_sets_trans; [|apply enter_section_only_sets].
  by apply only_sets_same_objects.
Qed.

Lemma after_execute_only_sets sid t c agent input st s :
  only_sets terminal s (after_execute sid t c (BaseAgent_execute agent input) st s).2.
Proof.
  unfold after_execute.
  set (r := BaseAgent_execute agent input).
  set (f := fun x => set_error_message (r_error_message r)
                       (set_output_data (r_output_data r)
                          (set_status (StatusEnum_of (r_status r)) x))).
  assert (only_sets terminal s (update_task f t s)) as H1.
  { apply only_sets_update_task. intros x. subst f. simpl.
    destruct (BaseAgent_execute_status agent input) as [E|E]; fold r in E; rewrite E;
      [by left|right; by left]. }
  destruct (decide (r_status r = A_COMPLETED)); repeat case_match; simpl;
    (eapply only_sets_trans; [exact H1|]); by apply only_sets_same_objects.
Qed.

Lemma resume_worker_only_sets st pc s :
  only_sets terminal s (resume_worker st pc s).2.
Proof.
  destruct pc as [|sid t|sid t c agent input|sid t [msg|]| |e]; simpl;
    try apply only_sets_refl.
  - destruct (task_queue s) as [|[[sid t]|] q]; simpl; try apply only_sets_refl.
    + eapply only_sets_trans; [|apply acquire_only_sets]. by apply only_sets_same_objects.
    + by apply only_sets_same_objects.
  - apply acquire_only_sets.
  - apply after_execute_only_sets.
  - eapply only_sets_trans; [apply except_block_only_sets|].
    apply only_sets_same_objects, leave_section_objects.
  - by apply only_sets_same_objects.
Qed.

Lemma cancel_session_objects sid s : objects (cancel_session sid s) = objects s.
Proof. unfold cancel_session. by case_match. Qed.

Lemma put_signals_objects n s : objects (put_signals n s) = objects s.
Proof.
  revert s. induction n as [|n IH]; intros s; simpl; [done|].
  case_match; [done|]. by rewrite IH.
Qed.

Lemma cancel_all_objects (l : list (string * CtxRef)) s :
  objects (foldr (fun kv acc => cancel_session kv.1 acc) s l) = objects s.
Proof. induction l as [|kv l IH]; simpl; [done|]. by rewrite cancel_session_objects. Qed.

Lemma cleanup_objects s : objects (cleanup s) = objects s.
Proof.
  unfold cleanup. by rewrite put_signals_objects, cancel_all_objects.
Qed.

(** C3 (amended). The engine never writes RUNNING.  A step changes the
    status of an existing task only in two ways: [execute_agents_parallel]
    sets it to PENDING when it enqueues the task, and a worker sets it to
    COMPLETED, FAILED or CANCELLED; a dispatched task thus goes from
    PENDING straight to its final status. *)
Theorem C3_status_changes (s : Engine) (e : Event) (t : TaskRef) :
  is_Some (objects s !! t) ->
  status (task_of (step s e) t) <> status (task_of s t) ->
  status (task_of (step s e) t) <> RUNNING
  /\ ((status (task_of (step s e) t) = PENDING
       /\ ((exists batch sid cb timed_out, e = Call batch sid cb timed_out)
           \/ (exists c timed_out, e = ResumeCall c timed_out)))
      \/ (terminal (status (task_of (step s e) t)) /\ exists w, e = ResumeWorker w)).
Proof.
  intros [x Hx] Hne.
  destruct e; simpl in *.
  - exfalso. apply Hne. unfold task_of. simpl.
    by rewrite (lookup_app_l_Some _ _ _ _ Hx), Hx.
  - exfalso. by apply Hne.
  - pose proof (execute_agents_parallel_only_sets batch sid cb timed_out s t) as H.
    destruct (execute_agents_parallel batch sid cb timed_out s) as [st s'].
    simpl in *. change (task_of (with_calls (calls s' ++ [st]) s') t) with (task_of s' t) in *.
    destruct H as [E|E]; [done|]. rewrite E. split; [done|]. left. split; [done|].
    left. eauto.
  - pose proof (resume_call_only_sets c timed_out s t) as [E|E]; [done|].
    rewrite E. split; [done|]. left. split; [done|]. right. eauto.
  - unfold step_worker in *. destruct (workers s !! w) as [[st pc]|]; [|done].
    pose proof (resume_worker_only_sets st pc s t) as H.
    destruct (resume_worker st pc s) as [[st' pc'] s']. simpl in *.
    change (task_of (with_workers (<[w:=(st', pc')]> (workers s')) s') t)
      with (task_of s' t) in *.
    destruct H as [E|E]; [done|]. split.
    + destruct E as [E|[E|E]]; rewrite E; done.
    + right. split; [exact E|eauto].
  - exfalso. apply Hne. unfold task_of. by rewrite cancel_session_objects.
  - exfalso. apply Hne. unfold cleanup_session. by case_match.
  - exfalso. apply Hne. unfold task_of. by rewrite cleanup_objects.
  - exfalso. apply Hne. unfold task_of. by rewrite put_signals_objects.
Qed.

Lemma C3_status_changes_witness :
  let s := demo_submitted placeholder_registry None in
  is_Some (objects s !! 1)
  /\ status (task_of (step s (ResumeWorker 0)) 1) <> status (task_of s 1)
  /\ status (task_of (step s (ResumeWorker 0)) 1) <> RUNNING
  /\ terminal (status (task_of (step s (ResumeWorker 0)) 1)).
Proof.
  intros s.
  assert (is_Some (objects s !! 1)) as H1 by (vm_compute; eauto).
  assert (status (task_of (step s (ResumeWorker 0)) 1) <> status (task_of s 1)) as H2
    by (vm_compute; discriminate).
  destruct (C3_status_changes s (ResumeWorker 0) 1 H1 H2) as [R1 R2].
  repeat split; try assumption.
  destruct R2 as [[E _]|[R2 _]]; [|exact R2].
  vm_compute in E. discriminate E.
Defined.

(** Counterexample to C3 as stated.  On the one-worker engine with the
    placeholder registry, the CRITICAL task of the batch is found FAILED
    after the worker handled it, and it was RUNNING at no point before.
    With a registered agent, the task is still PENDING while the worker is
    suspended in the agent invocation. *)
Lemma C3_counterexample :
  ~ passes_through_RUNNING (demo_submitted placeholder_registry None) [ResumeWorker 0] 1
  /\ (let s := step (demo_submitted demo_registry None) (ResumeWorker 0) in
      running_agents s = 1 /\ status (task_of s 1) = PENDING).
Proof.
  split; [|by vm_compute].
  intros H. destruct H as [n Hn]; [right; reflexivity|].
  destruct n as [|[|n]]; vm_compute in Hn; discriminate Hn.
Qed.

(** ** Session accounting when the progress callback fails *)

(** C4 (evaluation at the failing input).  One worker, a registered agent
    that succeeds, a progress callback that raises: after the worker is
    through with the CRITICAL task, that task is in the completed list and
    in the failed list of the session, and its status is FAILED. *)
Lemma C4_callback_failure_double_entry :
  let s := run (demo_submitted demo_registry (Some failing_callback))
             [ResumeWorker 0; ResumeWorker 0; ResumeWorker 0] in
  completed_tasks (ctx_of s 0) = [1]
  /\ failed_tasks (ctx_of s 0) = [1]
  /\ status (task_of s 1) = FAILED.
Proof. by vm_compute. Qed.

(** C6 (evaluation at the failing input).  The same run with a callback
    that returns and with one that raises: the status of the task, its
    membership in the failed list and the worker's failure counter all
    differ. *)
Lemma C6_callback_failure_changes_accounting :
  let after cb := run (demo_submitted demo_registry (Some cb))
                    [ResumeWorker 0; ResumeWorker 0; ResumeWorker 0] in
  status (task_of (after quiet_callback) 1) = COMPLETED
  /\ failed_tasks (ctx_of (after quiet_callback) 0) = []
  /\ (tasks_failed <$> (fst <$> workers (after quiet_callback) !! 0)) = Some 0
  /\ status (task_of (after failing_callback) 1) = FAILED
  /\ failed_tasks (ctx_of (after failing_callback) 0) = [1]
  /\ error_message (task_of (after failing_callback) 1) = Some "progress sink unavailable"
  /\ (tasks_failed <$> (fst <$> workers (after failing_callback) !! 0)) = Some 1.
Proof. by vm_compute. Qed.

(** ** Priority order within a batch *)

Lemma insert_desc_perm {A} (key : A -> Z) x (l : list A) :
  insert_desc key x l ≡ₚ x :: l.
Proof.
  induction l as [|y l IH]; simpl; [done|].
  case_match; [|done]. rewrite IH. apply Permutation_swap.
Qed.

Lemma sorted_desc_perm {A} (key : A -> Z) (l : list A) :
  sorted_desc key l ≡ₚ l.
Proof.
  induction l as [|x l IH]; simpl; [done|].
  by rewrite insert_desc_perm, IH.
Qed.












Lemma wait_loop_backlog k sid total timed_out s :
  pending_of (wait_loop k sid total timed_out s).1 = []
  /\ task_queue (wait_loop k sid total timed_out s).2 = task_queue s
  /\ calls (wait_loop k sid total timed_out s).2 = calls s.
Proof. unfold wait_loop, after_wait. by repeat case_match. Qed.

Lemma after_put_backlog k sid total timed_out r :
  pending_of (after_put k sid total timed_out r).1 = r.2
  /\ task_queue (after_put k sid total timed_out r).2 = task_queue r.1
  /\ calls (after_put k sid total timed_out r).2 = calls r.1.
Proof.
  destruct r as [s [|t rest]]; simpl; [apply wait_loop_backlog|done].
Qed.

Lemma pending_at_insert s' c st c' :
  c < length (calls s') ->
  pending_at (with_calls (<[c := st]> (calls s')) s') c'
  = if decide (c = c') then pending_of st else pending_at s' c'.
Proof.
  intros Hc. unfold pending_at. simpl. case_decide as E.
  - subst. by rewrite list_lookup_insert_eq.
  - by rewrite list_lookup_insert_ne.
Qed.


Lemma resume_worker_queue st pc s :
  calls (resume_worker st pc s).2 = calls s
  /\ match pc, task_queue s with
     | WGet, item :: q => task_queue (resume_worker st pc s).2 = q
     | _, _ => task_queue (resume_worker st pc s).2 = task_queue s
     end.
Proof.
  unfold resume_worker, acquire, enter_section, after_execute, leave_section,
    except_block.
  repeat case_match; simplify_eq/=; done.
Qed.



Lemma cancel_session_backlog sid s :
  task_queue (cancel_session sid s) = task_queue s
  /\ calls (cancel_session sid s) = calls s.
Proof. unfold cancel_session. by case_match. Qed.





(** ** What each operation touches *)

Lemma same_sessions_refl s : same_sessions s s.
Proof. by repeat split. Qed.

Lemma same_sessions_trans s1 s2 s3 :
  same_sessions s1 s2 -> same_sessions s2 s3 -> same_sessions s1 s3.
Proof.
  unfold same_sessions. intros (?&?&?&?) (?&?&?&?). repeat split; congruence.
Qed.

Lemma put_all_spec sid pending s :
  exists moved,
    pending = moved ++ (put_all sid pending s).2
    /\ task_queue (put_all sid pending s).1
       = task_queue s ++ ((fun t => Some (sid, t)) <$> moved)
    /\ same_sessions s (put_all sid pending s).1.
Proof.
  revert s. induction pending as [|t rest IH]; intros s; simpl.
  - exists []. simpl. rewrite app_nil_r. split; [done|]. split; [done|].
    apply same_sessions_refl.
  - case_match; simpl.
    + exists []. simpl. rewrite app_nil_r. split; [done|]. split; [done|].
      by repeat split.
    + destruct (IH (enqueue (Some (sid, t)) (update_task (set_status PENDING) t s)))
        as (moved & E1 & E2 & E3).
      exists (t :: moved). split; [simpl; by rewrite <- E1|]. split.
      * rewrite E2. simpl. by rewrite <- app_assoc.
      * eapply same_sessions_trans; [|exact E3]. by repeat split.
Qed.

Lemma resume_put_spec sid pending s :
  exists moved,
    pending = moved ++ (resume_put sid pending s).2
    /\ task_queue (resume_put sid pending s).1
       = task_queue s ++ ((fun t => Some (sid, t)) <$> moved)
    /\ same_sessions s (resume_put sid pending s).1.
Proof.
  destruct pending as [|t rest]; simpl.
  - exists []. simpl. rewrite app_nil_r. split; [done|]. split; [done|].
    apply same_sessions_refl.
  - case_match; simpl.
    + exists []. simpl. rewrite app_nil_r. split; [done|]. split; [done|].
      apply same_sessions_refl.
    + destruct (put_all_spec sid rest (enqueue (Some (sid, t)) s))
        as (moved & E1 & E2 & E3).
      exists (t :: moved). split; [simpl; by rewrite <- E1|]. split.
      * rewrite E2. simpl. by rewrite <- app_assoc.
      * eapply same_sessions_trans; [|exact E3]. by repeat split.
Qed.

Lemma wait_loop_spec k sid total timed_out s :
  same_sessions s (wait_loop k sid total timed_out s).2
  /\ task_queue (wait_loop k sid total timed_out s).2 = task_queue s
  /\ ((wait_loop k sid total timed_out s).1 = CSleep k sid total
      \/ (wait_loop k sid total timed_out s).1 = CRaised TypeError
      \/ exists how,
           wait_check (ctx_of s k) total timed_out = Some how
           /\ (wait_loop k sid total timed_out s).1
              = CReturned how (completed_tasks (ctx_of s k) ++ failed_tasks (ctx_of s k))).
Proof.
  unfold wait_loop, after_wait.
  destruct (wait_check (ctx_of s k) total timed_out) as [how|] eqn:Hc.
  - destruct how, total; simpl; (split; [by repeat split|]); (split; [done|]); eauto.
  - simpl. split; [apply same_sessions_refl|]. eauto.
Qed.

Lemma queue_count_app sid q1 q2 :
  queue_count sid (q1 ++ q2) = queue_count sid q1 + queue_count sid q2.
Proof. unfold queue_count. apply sum_list_with_app. Qed.

Lemma queue_count_same sid (l : list TaskRef) :
  queue_count sid ((fun t => Some (sid, t)) <$> l) = length l.
Proof.
  unfold queue_count. induction l as [|t l IH]; csimpl; [done|].
  rewrite IH. by rewrite decide_True.
Qed.

Lemma queue_count_other sid sid' (l : list TaskRef) :
  sid' <> sid -> queue_count sid ((fun t => Some (sid', t)) <$> l) = 0.
Proof.
  intros Hne. unfold queue_count. induction l as [|t l IH]; csimpl; [done|].
  rewrite IH. by rewrite decide_False.
Qed.

Lemma queue_count_signals sid n : queue_count sid (replicate n None) = 0.
Proof. unfold queue_count. induction n as [|n IH]; csimpl; [done|]. by rewrite IH. Qed.

Lemma put_signals_spec n s :
  exists m,
    task_queue (put_signals n s) = task_queue s ++ replicate m None
    /\ same_sessions s (put_signals n s)
    /\ objects (put_signals n s) = objects s.
Proof.
  revert s. induction n as [|n IH]; intros s; simpl.
  - exists 0. simpl. rewrite app_nil_r. by repeat split.
  - case_match.
    + exists 0. simpl. rewrite app_nil_r. by repeat split.
    + destruct (IH (enqueue None s)) as (m & E1 & E2 & E3).
      exists (S m). split; [|split].
      * rewrite E1. simpl. by rewrite <- app_assoc.
      * eapply same_sessions_trans; [|exact E2]. by repeat split.
      * by rewrite E3.
Qed.

Lemma resume_worker_frame st pc s :
  active_sessions (resume_worker st pc s).2 = active_sessions s
  /\ length (contexts (resume_worker st pc s).2) = length (contexts s)
  /\ workers (resume_worker st pc s).2 = workers s
  /\ calls (resume_worker st pc s).2 = calls s.
Proof.
  unfold resume_worker, acquire, enter_section, after_execute, leave_section,
    except_block.
  repeat case_match; simplify_eq/=; rewrite ?length_alter; done.
Qed.

(** ** A session id that has not been used *)

Lemma queue_count_cons_zero sid sid' t q :
  queue_count sid (Some (sid', t) :: q) = 0 -> sid' <> sid /\ queue_count sid q = 0.
Proof.
  unfold queue_count. simpl. destruct (decide (sid' = sid)); [lia|].
  intros H. split; [done|lia].
Qed.

Lemma resume_worker_unused sid st pc s :
  unused sid s -> pc_unused sid (length (contexts s)) pc ->
  pc_unused sid (length (contexts s)) (resume_worker st pc s).1.2
  /\ queue_count sid (task_queue (resume_worker st pc s).2) = 0.
Proof.
  intros [U1 U2 U3 U4] Hpc.
  destruct pc as [|sid' t|sid' t c agent input|sid' t [msg|]| |e].
  - simpl. destruct (task_queue s) as [|[[sid' t]|] q] eqn:Hq.
    + simpl. rewrite Hq. by destruct (is_running s).
    + apply queue_count_cons_zero in U3 as [Hne U3].
      unfold acquire, enter_section, leave_section, except_block.
      repeat case_match; simplify_eq/=; try done.
      split; [|done]. split; [done|]. by eapply U1.
    + done.
  - simpl in *.
    unfold acquire, enter_section, leave_section, except_block.
    repeat case_match; simplify_eq/=; try done.
    split; [|done]. split; [done|]. by eapply U1.
  - simpl in *. unfold after_execute, leave_section.
    repeat case_match; simplify_eq/=; try done; by destruct Hpc.
  - simpl in *. unfold leave_section, except_block.
    repeat case_match; simplify_eq/=; done.
  - simpl. by case_match.
  - done.
  - done.
Qed.

Lemma Forall_pc_unused_mono sid n m (ws : list (WorkerStats * WorkerPc)) :
  n <= m -> Forall (fun w => pc_unused sid n w.2) ws ->
  Forall (fun w => pc_unused sid m w.2) ws.
Proof.
  intros Hnm H. eapply Forall_impl; [exact H|]. intros [st pc]. simpl.
  destruct pc; simpl; try done. intros [? ?]. split; [done|lia].
Qed.

Lemma step_worker_unused sid w s :
  unused sid s -> unused sid (step_worker w s).
Proof.
  intros Hs. unfold step_worker.
  destruct (workers s !! w) as [[st pc]|] eqn:Hw; [|done].
  assert (pc_unused sid (length (contexts s)) pc) as Hpc.
  { pose proof (unused_workers _ _ Hs) as H.
    rewrite Forall_lookup in H. apply (H _ _ Hw). }
  destruct (resume_worker_unused sid st pc s Hs Hpc) as [Hpc' Hq].
  destruct (resume_worker_frame st pc s) as (Ea & El & Ew & Ec).
  destruct (resume_worker st pc s) as [[st' pc'] s']. simpl in *.
  destruct Hs as [U1 U2 U3 U4]. constructor; simpl.
  - rewrite Ea, El. exact U1.
  - rewrite Ew, El. apply Forall_insert; done.
  - exact Hq.
  - by rewrite Ec.
Qed.

Lemma unused_same sid s s' :
  same_sessions s s' -> queue_count sid (task_queue s') = 0 ->
  unused sid s -> unused sid s'.
Proof.
  intros (Ec & Ea & Ew & El) Hq [U1 U2 U3 U4].
  constructor; rewrite ?Ec, ?Ea, ?Ew, ?El; done.
Qed.

Lemma cancel_session_spec sid s :
  task_queue (cancel_session sid s) = task_queue s
  /\ active_sessions (cancel_session sid s) = active_sessions s
  /\ workers (cancel_session sid s) = workers s
  /\ calls (cancel_session sid s) = calls s
  /\ objects (cancel_session sid s) = objects s
  /\ length (contexts (cancel_session sid s)) = length (contexts s).
Proof.
  unfold cancel_session. case_match; simpl; rewrite ?length_alter; done.
Qed.

Lemma cancel_all_spec (l : list (string * CtxRef)) s :
  let s' := foldr (fun kv acc => cancel_session kv.1 acc) s l in
  task_queue s' = task_queue s
  /\ active_sessions s' = active_sessions s
  /\ workers s' = workers s
  /\ calls s' = calls s
  /\ objects s' = objects s
  /\ length (contexts s') = length (contexts s).
Proof.
  induction l as [|kv l IH]; simpl; [done|].
  destruct IH as (E1 & E2 & E3 & E4 & E5 & E6).
  destruct (cancel_session_spec kv.1 (foldr (fun kv acc => cancel_session kv.1 acc) s l))
    as (F1 & F2 & F3 & F4 & F5 & F6).
  repeat split; congruence.
Qed.

Lemma unused_frame sid s s' :
  task_queue s' = task_queue s -> active_sessions s' = active_sessions s ->
  workers s' = workers s -> calls s' = calls s ->
  length (contexts s') = length (contexts s) ->
  unused sid s -> unused sid s'.
Proof.
  intros Eq Ea Ew Ec El [U1 U2 U3 U4].
  constructor; rewrite ?Eq, ?Ea, ?Ew, ?Ec, ?El; done.
Qed.

Lemma call_state_unused sid k sid' total timed_out r :
  sid' <> sid -> call_unused sid (after_put k sid' total timed_out r).1.
Proof.
  intros Hne. destruct r as [s [|t rest]]; simpl; [|done].
  unfold wait_loop, after_wait. by repeat case_match.
Qed.

Lemma after_put_spec k sid total timed_out r :
  same_sessions r.1 (after_put k sid total timed_out r).2
  /\ task_queue (after_put k sid total timed_out r).2 = task_queue r.1.
Proof.
  destruct r as [s [|t rest]]; simpl.
  - destruct (wait_loop_spec k sid total timed_out s) as (E1 & E2 & _). done.
  - split; [apply same_sessions_refl|done].
Qed.

Lemma resume_call_unused sid c timed_out s :
  unused sid s -> unused sid (resume_call c timed_out s).
Proof.
  intros Hs. unfold resume_call.
  destruct (calls s !! c) as [st|] eqn:Hc; [|done].
  assert (call_unused sid st) as Hst.
  { pose proof (unused_calls _ _ Hs) as H. rewrite Forall_lookup in H. by eapply H. }
  destruct st as [k sid' pending total|k sid' total|how res|e]; try done.
  - simpl in Hst.
    destruct (resume_put_spec sid' pending s) as (moved & E1 & E2 & E3).
    destruct (after_put_spec k sid' total timed_out (resume_put sid' pending s)) as [E4 E5].
    pose proof (call_state_unused sid k sid' total timed_out
                  (resume_put sid' pending s) Hst) as Hst'.
    destruct (after_put k sid' total timed_out (resume_put sid' pending s)) as [st s'].
    simpl in *.
    pose proof (same_sessions_trans _ _ _ E3 E4) as (Ec & Ea & Ew & El).
    destruct Hs as [U1 U2 U3 U4]. constructor; simpl; rewrite ?Ec, ?Ea, ?Ew; try done.
    + rewrite E5, E2, queue_count_app, U3, queue_count_other; done.
    + rewrite El. by apply Forall_insert.
  - destruct (wait_loop_spec k sid' total timed_out s) as ((Ec & Ea & Ew & El) & E2 & E3).
    destruct (wait_loop k sid' total timed_out s) as [st s']. simpl in *.
    destruct Hs as [U1 U2 U3 U4]. constructor; simpl; rewrite ?Ec, ?Ea, ?Ew, ?E2; try done.
    rewrite El. apply Forall_insert; [done|].
    destruct E3 as [->|[->|(how & _ & ->)]]; done.
Qed.

Lemma execute_agents_parallel_unused sid batch sid' cb timed_out s :
  sid' <> sid -> unused sid s ->
  unused sid (step s (Call batch sid' cb timed_out)).
Proof.
  intros Hne Hs. simpl. unfold execute_agents_parallel.
  destruct (is_initialized s).
  - set (s2 := with_active_sessions _ _).
    set (sorted_tasks := sorted_desc _ batch).
    destruct (put_all_spec sid' sorted_tasks s2) as (moved & E1 & E2 & E3).
    destruct (after_put_spec (length (contexts s)) sid' (length batch) timed_out
                (put_all sid' sorted_tasks s2)) as [E4 E5].
    pose proof (call_state_unused sid (length (contexts s)) sid' (length batch) timed_out
                  (put_all sid' sorted_tasks s2) Hne) as Hst'.
    destruct (after_put (length (contexts s)) sid' (length batch) timed_out
                (put_all sid' sorted_tasks s2)) as [st s'].
    simpl in *.
    pose proof (same_sessions_trans _ _ _ E3 E4) as (Ec & Ea & Ew & El).
    destruct Hs as [U1 U2 U3 U4]. constructor; simpl; rewrite ?Ec, ?Ea, ?Ew; simpl.
    + intros sid'' k'. rewrite length_app. simpl. intros H.
      apply lookup_insert_Some in H as [[_ <-]|[_ H]]; [lia|].
      apply U1 in H. lia.
    + rewrite length_app. simpl. eapply Forall_pc_unused_mono; [|exact U2]. lia.
    + rewrite E5, E2, queue_count_app. simpl. rewrite U3, queue_count_other; done.
    + rewrite El. simpl. apply Forall_app. split; [done|]. by apply Forall_singleton.
  - simpl. destruct Hs as [U1 U2 U3 U4]. constructor; simpl; try done.
    apply Forall_app. split; [done|]. by apply Forall_singleton.
Qed.

Lemma step_unused sid s e :
  is_call_for sid e = false -> unused sid s -> unused sid (step s e).
Proof.
  intros He Hs. destruct e.
  - simpl. by apply (unused_frame sid s).
  - simpl. destruct Hs as [U1 U2 U3 U4]. constructor; simpl; try done.
    apply Forall_app. split; [done|].
    apply Forall_fmap, Forall_forall. done.
  - apply execute_agents_parallel_unused; [|done].
    simpl in He. by apply bool_decide_eq_false in He.
  - by apply resume_call_unused.
  - by apply step_worker_unused.
  - simpl. destruct (cancel_session_spec sid0 s) as (E1 & E2 & E3 & E4 & E5 & E6).
    by apply (unused_frame sid s).
  - simpl. unfold cleanup_session. case_match; [|done].
    destruct Hs as [U1 U2 U3 U4]. constructor; simpl; try done.
    intros sid' k' Hd. apply lookup_delete_Some in Hd as [_ Hd]. by eapply U1.
  - simpl. unfold cleanup.
    set (s1 := with_flags _ _ _).
    pose proof (cancel_all_spec (map_to_list (active_sessions s1)) s1)
      as (E1 & E2 & E3 & E4 & E5 & E6).
    set (s2 := foldr _ _ _) in *.
    destruct (put_signals_spec (shutdown_puts s2 + length (workers s2)) s2)
      as (m & F1 & (Fc & Fa & Fw & Fl) & F3).
    destruct Hs as [U1 U2 U3 U4]. constructor.
    + rewrite Fa, Fc, E2, E6. exact U1.
    + rewrite Fw, Fc, E3, E6. exact U2.
    + rewrite F1, queue_count_app, queue_count_signals, E1. simpl. lia.
    + rewrite Fl, E4. exact U4.
  - simpl.
    destruct (put_signals_spec (shutdown_puts s) s) as (m & F1 & (Fc & Fa & Fw & Fl) & F3).
    destruct Hs as [U1 U2 U3 U4]. constructor.
    + rewrite Fa, Fc. exact U1.
    + rewrite Fw, Fc. exact U2.
    + rewrite F1, queue_count_app, queue_count_signals. lia.
    + rewrite Fl. exact U4.
Qed.

Lemma run_unused sid evs s :
  no_call_for sid evs -> unused sid s -> unused sid (run s evs).
Proof.
  unfold no_call_for. revert s.
  induction evs as [|e evs IH]; intros s Hevs Hs; simpl; [done|].
  simpl in Hevs. apply andb_prop in Hevs as [He Hevs].
  apply negb_true_iff in He. by apply IH, step_unused.
Qed.

Lemma init_unused sid cfg : unused sid (ParallelProcessor_init cfg).
Proof. constructor; simpl; try done. Qed.

(** ** One batch, one session id *)

Lemma ctx_of_same s s' k : contexts s' = contexts s -> ctx_of s' k = ctx_of s k.
Proof. intros E. unfold ctx_of. by rewrite E. Qed.

Lemma ctx_append_failed t c0 k s :
  k < length (contexts s) ->
  completed_tasks (ctx_of (update_ctx (append_failed t) c0 s) k)
  = completed_tasks (ctx_of s k)
  /\ failed_tasks (ctx_of (update_ctx (append_failed t) c0 s) k)
     = failed_tasks (ctx_of s k) ++ (if decide (c0 = k) then [t] else [])
  /\ progress_callback (ctx_of (update_ctx (append_failed t) c0 s) k)
     = progress_callback (ctx_of s k)
  /\ is_cancelled (ctx_of (update_ctx (append_failed t) c0 s) k)
     = is_cancelled (ctx_of s k).
Proof.
  intros Hk. apply lookup_lt_is_Some in Hk.
  destruct (decide (c0 = k)) as [->|Hne].
  - by rewrite ctx_of_update_ctx_eq.
  - rewrite ctx_of_update_ctx_ne by done. by rewrite app_nil_r.
Qed.

Lemma ctx_append_completed t c0 k s :
  k < length (contexts s) ->
  completed_tasks (ctx_of (update_ctx (append_completed t) c0 s) k)
  = completed_tasks (ctx_of s k) ++ (if decide (c0 = k) then [t] else [])
  /\ failed_tasks (ctx_of (update_ctx (append_completed t) c0 s) k)
     = failed_tasks (ctx_of s k)
  /\ progress_callback (ctx_of (update_ctx (append_completed t) c0 s) k)
     = progress_callback (ctx_of s k)
  /\ is_cancelled (ctx_of (update_ctx (append_completed t) c0 s) k)
     = is_cancelled (ctx_of s k).
Proof.
  intros Hk. apply lookup_lt_is_Some in Hk.
  destruct (decide (c0 = k)) as [->|Hne].
  - by rewrite ctx_of_update_ctx_eq.
  - rewrite ctx_of_update_ctx_ne by done. by rewrite app_nil_r.
Qed.

Lemma ctx_set_cancelled c0 k s :
  completed_tasks (ctx_of (update_ctx set_cancelled c0 s) k)
  = completed_tasks (ctx_of s k)
  /\ failed_tasks (ctx_of (update_ctx set_cancelled c0 s) k) = failed_tasks (ctx_of s k)
  /\ progress_callback (ctx_of (update_ctx set_cancelled c0 s) k)
     = progress_callback (ctx_of s k).
Proof.
  destruct (decide (c0 = k)) as [->|Hne].
  - unfold ctx_of, update_ctx. simpl. rewrite list_lookup_alter_eq.
    by destruct (contexts s !! k).
  - by rewrite ctx_of_update_ctx_ne.
Qed.

(** The [except] block records the task in the context the session id
    names at that moment. *)
Lemma except_block_records sid' t msg st s k :
  k < length (contexts s) ->
  let s' := (except_block sid' t msg st s).1.2 in
  completed_tasks (ctx_of s' k) = completed_tasks (ctx_of s k)
  /\ failed_tasks (ctx_of s' k)
     = failed_tasks (ctx_of s k)
       ++ (if decide (active_sessions s !! sid' = Some k) then [t] else [])
  /\ progress_callback (ctx_of s' k) = progress_callback (ctx_of s k)
  /\ is_cancelled (ctx_of s' k) = is_cancelled (ctx_of s k)
  /\ task_queue s' = task_queue s
  /\ is_running s' = is_running s
  /\ (except_block sid' t msg st s).2 = Some TypeError.
Proof.
  intros Hk. unfold except_block. simpl.
  destruct (active_sessions s !! sid') as [c0|] eqn:Ha; simpl.
  - set (s1 := update_task _ t s).
    destruct (ctx_append_failed t c0 k s1 Hk) as (E1 & E2 & E3 & E4).
    rewrite E1, E2, E3, E4.
    repeat split; try done.
    destruct (decide (c0 = k)) as [->|Hne].
    + by rewrite decide_True.
    + rewrite decide_False; [done|congruence].
  - by rewrite app_nil_r.
Qed.

Lemma owes_loop_head sid (b : bool) : owes sid (if b then WGet else WExited) = 0.
Proof. by destruct b. Qed.

Lemma pc_tracked_loop_head sid k (b : bool) :
  pc_tracked sid k (if b then WGet else WExited).
Proof. by destruct b. Qed.

Lemma leave_except_effect sid k sid' t msg st s pc :
  k < length (contexts s) ->
  (forall x, active_sessions s !! x = Some k -> x = sid) ->
  (active_sessions s !! sid' = Some k -> 1 <= owes sid pc) ->
  worker_effect sid k s pc (leave_section (except_block sid' t msg st s)).
Proof.
  intros Hk Hkey Howes.
  destruct (except_block_records sid' t msg st s k Hk)
    as (E1 & E2 & E3 & E4 & E5 & E6 & E7).
  destruct (except_block sid' t msg st s) as [[st1 s1] raised]. simpl in *.
  subst raised.
  exists [], (if decide (active_sessions s !! sid' = Some k) then [t] else []).
  simpl.
  change (ctx_of (with_semaphore (S (semaphore s1)) s1) k) with (ctx_of s1 k).
  rewrite E1, E2, E3, E5, app_nil_r.
  repeat split; try done.
  case_decide as Ha; simpl; [|lia]. specialize (Howes Ha). lia.
Qed.

Lemma enter_section_effect sid k sid' t st s :
  k < length (contexts s) ->
  (forall x, active_sessions s !! x = Some k -> x = sid) ->
  (forall k', active_sessions s !! sid = Some k' -> k' = k) ->
  worker_effect sid k s (WAcquire sid' t) (enter_section sid' t st s).
Proof.
  intros Hk Hkey Hval. unfold enter_section.
  assert (active_sessions s !! sid' = Some k -> 1 <= owes sid (WAcquire sid' t)) as Howes.
  { intros Ha. simpl. rewrite decide_True; [lia|by apply Hkey]. }
  destruct (active_sessions s !! sid') as [c0|] eqn:Ha.
  - destruct (is_cancelled (ctx_of s c0)).
    + exists [], []. simpl. rewrite !app_nil_r, owes_loop_head.
      repeat split; try done; [lia|apply pc_tracked_loop_head].
    + destruct (get_agent s (agent_name (task_of s t))) as [agent|].
      * exists [], []. simpl. rewrite !app_nil_r.
        repeat split; try done.
        -- intros ->. by apply Hval.
        -- intros ->. by apply Hkey.
      * apply leave_except_effect; try done. by rewrite Ha.
  - apply leave_except_effect; try done. by rewrite Ha.
Qed.

Lemma worker_effect_frame sid k s0 s pc pc0 r :
  contexts s = contexts s0 ->
  queue_count sid (task_queue s) + owes sid pc
    <= queue_count sid (task_queue s0) + owes sid pc0 ->
  worker_effect sid k s pc r -> worker_effect sid k s0 pc0 r.
Proof.
  intros Ec Hq (a & b & E1 & E2 & E3 & E4 & E5).
  exists a, b. rewrite (ctx_of_same s0 s) in * by done.
  repeat split; try done. lia.
Qed.

Lemma acquire_effect sid k sid' t st s :
  k < length (contexts s) ->
  (forall x, active_sessions s !! x = Some k -> x = sid) ->
  (forall k', active_sessions s !! sid = Some k' -> k' = k) ->
  worker_effect sid k s (WAcquire sid' t) (acquire sid' t st s).
Proof.
  intros Hk Hkey Hval. unfold acquire. destruct (semaphore s) as [|n].
  - exists [], []. simpl. rewrite !app_nil_r. repeat split; try done.
  - eapply (worker_effect_frame sid k s (with_semaphore n s)); [done|done|].
    by apply enter_section_effect.
Qed.

Lemma after_execute_effect sid k sid' t c0 agent input st s :
  k < length (contexts s) ->
  (forall x, active_sessions s !! x = Some k -> x = sid) ->
  never_raises (progress_callback (ctx_of s k)) ->
  (sid' = sid <-> c0 = k) ->
  worker_effect sid k s (WExecute sid' t c0 agent input)
    (after_execute sid' t c0 (BaseAgent_execute agent input) st s).
Proof.
  intros Hk Hkey Hcb Hpc. unfold after_execute.
  set (r := BaseAgent_execute agent input).
  set (s1 := update_task _ t s).
  assert (k < length (contexts s1)) as Hk1 by done.
  assert ((if decide (sid' = sid) then 1 else 0) = (if decide (c0 = k) then 1 else 0) :> nat)
    as Ho.
  { destruct (decide (sid' = sid)) as [E|E], (decide (c0 = k)) as [E'|E'];
      try done; tauto. }
  destruct (decide (r_status r = A_COMPLETED)) as [Hr|Hr].
  - destruct (ctx_append_completed t c0 k s1 Hk1) as (E1 & E2 & E3 & E4).
    set (s2 := update_ctx (append_completed t) c0 s1) in *.
    change (ctx_of s1 k) with (ctx_of s k) in *.
    destruct (progress_callback (ctx_of s2 c0)) as [cb|] eqn:Hcb2.
    + exists (if decide (c0 = k) then [t] else []), []. simpl.
      split; [exact E1|]. split; [rewrite app_nil_r; exact E2|].
      split; [rewrite Ho; case_decide; simpl; lia|]. split; [exact E3|].
      intros Hs. apply Hpc in Hs. subst c0. eapply Hcb. etrans; [symmetry; exact E3|exact Hcb2].
    + exists (if decide (c0 = k) then [t] else []), []. simpl.
      change (ctx_of (with_semaphore (S (semaphore s2)) s2) k) with (ctx_of s2 k).
      split; [exact E1|]. split; [rewrite app_nil_r; exact E2|].
      split; [rewrite owes_loop_head, Ho; case_decide; simpl; lia|].
      split; [exact E3|apply pc_tracked_loop_head].
  - destruct (ctx_append_failed t c0 k s1 Hk1) as (E1 & E2 & E3 & E4).
    set (s2 := update_ctx (append_failed t) c0 s1) in *.
    change (ctx_of s1 k) with (ctx_of s k) in *.
    destruct (progress_callback (ctx_of s2 c0)) as [cb|] eqn:Hcb2.
    + exists [], (if decide (c0 = k) then [t] else []). simpl.
      split; [rewrite app_nil_r; exact E1|]. split; [exact E2|].
      split; [rewrite Ho; case_decide; simpl; lia|]. split; [exact E3|].
      intros Hs. apply Hpc in Hs. subst c0. eapply Hcb. etrans; [symmetry; exact E3|exact Hcb2].
    + exists [], (if decide (c0 = k) then [t] else []). simpl.
      change (ctx_of (with_semaphore (S (semaphore s2)) s2) k) with (ctx_of s2 k).
      split; [rewrite app_nil_r; exact E1|]. split; [exact E2|].
      split; [rewrite owes_loop_head, Ho; case_decide; simpl; lia|].
      split; [exact E3|apply pc_tracked_loop_head].
Qed.

Lemma resume_worker_effect sid k st pc s :
  k < length (contexts s) ->
  (forall x, active_sessions s !! x = Some k -> x = sid) ->
  (forall k', active_sessions s !! sid = Some k' -> k' = k) ->
  never_raises (progress_callback (ctx_of s k)) ->
  pc_tracked sid k pc ->
  worker_effect sid k s pc (resume_worker st pc s).
Proof.
  intros Hk Hkey Hval Hcb Hpc.
  destruct pc as [|sid' t|sid' t c0 agent input|sid' t [msg|]| |e]; simpl.
  - destruct (task_queue s) as [|[[sid' t]|] q] eqn:Hq.
    + exists [], []. simpl. rewrite !app_nil_r, owes_loop_head, Hq.
      repeat split; try done. apply pc_tracked_loop_head.
    + eapply (worker_effect_frame sid k s (with_task_queue q s) (WAcquire sid' t) WGet);
        [done| |].
      * rewrite Hq. unfold queue_count. simpl. lia.
      * by apply acquire_effect.
    + exists [], []. simpl. rewrite !app_nil_r, Hq. repeat split; try done.
  - by apply acquire_effect.
  - by apply after_execute_effect.
  - apply leave_except_effect; try done.
    intros Ha. apply Hkey in Ha. simpl in Hpc. by specialize (Hpc Ha).
  - exists [], []. simpl. rewrite !app_nil_r, owes_loop_head.
    repeat split; try done. apply pc_tracked_loop_head.
  - exists [], []. simpl. rewrite !app_nil_r. repeat split; done.
  - exists [], []. simpl. rewrite !app_nil_r. repeat split; done.
Qed.

Lemma sum_list_with_lookup_le {A} (f : A -> nat) (l : list A) i x :
  l !! i = Some x -> f x <= sum_list_with f l.
Proof.
  revert i. induction l as [|a l IH]; intros [|i] H; simplify_eq/=; [lia|].
  specialize (IH _ H). lia.
Qed.

Lemma wait_check_completion c total timed_out :
  wait_check c total timed_out = Some ByCompletion ->
  total <= length (completed_tasks c) + length (failed_tasks c).
Proof.
  unfold wait_check.
  destruct (Nat.leb_spec total (length (completed_tasks c) + length (failed_tasks c)));
    [done|].
  by repeat case_match.
Qed.

Lemma tracked_frame sid k c total s s' :
  completed_tasks (ctx_of s' k) = completed_tasks (ctx_of s k) ->
  failed_tasks (ctx_of s' k) = failed_tasks (ctx_of s k) ->
  progress_callback (ctx_of s' k) = progress_callback (ctx_of s k) ->
  length (contexts s) <= length (contexts s') ->
  (forall x y, active_sessions s' !! x = Some y -> active_sessions s !! x = Some y) ->
  workers s' = workers s ->
  calls s' = calls s ->
  queue_count sid (task_queue s') = queue_count sid (task_queue s) ->
  tracked sid k c total s -> tracked sid k c total s'.
Proof.
  intros E1 E2 E3 Hl Ha Ew Ec Eq [T1 T2 T3 T4 T5 T6 T7 T8].
  constructor.
  - lia.
  - intros x Hx. by apply T2, Ha.
  - intros y Hy. by apply T3, Ha.
  - by rewrite E3.
  - by rewrite Ew.
  - unfold recorded, owed, pending_at in *. by rewrite E1, E2, Eq, Ew, Ec.
  - intros c' st Hc'. rewrite Ec. by apply T7.
  - destruct T8 as (st & Hst & Hct). exists st. rewrite Ec. split; [done|].
    destruct st as [| |[]|]; simpl in *; try done. by rewrite E1, E2.
Qed.

Lemma step_worker_tracked sid k c total w s :
  tracked sid k c total s -> tracked sid k c total (step_worker w s).
Proof.
  intros [T1 T2 T3 T4 T5 T6 T7 T8]. unfold step_worker.
  destruct (workers s !! w) as [[st pc]|] eqn:Hw; [|by constructor].
  assert (pc_tracked sid k pc) as Hpc.
  { rewrite Forall_lookup in T5. apply (T5 _ _ Hw). }
  pose proof (resume_worker_effect sid k st pc s T1 T2 T3 T4 Hpc)
    as (a & b & E1 & E2 & E3 & E4 & E5).
  destruct (resume_worker_frame st pc s) as (Ea & El & Ew & Ec).
  destruct (resume_worker st pc s) as [[st' pc'] s']. simpl in *.
  pose proof (sum_list_with_insert (fun w : WorkerStats * WorkerPc => owes sid w.2)
                (workers s) w (st, pc) (st', pc') Hw) as Hsum. simpl in Hsum.
  pose proof (sum_list_with_lookup_le (fun w : WorkerStats * WorkerPc => owes sid w.2)
                (workers s) w (st, pc) Hw) as Hle. simpl in Hle.
  set (s'' := with_workers (<[w:=(st', pc')]> (workers s')) s').
  assert (ctx_of s'' k = ctx_of s' k) as Ek by done.
  constructor.
  - change (contexts s'') with (contexts s'). lia.
  - change (active_sessions s'') with (active_sessions s'). by rewrite Ea.
  - change (active_sessions s'') with (active_sessions s'). by rewrite Ea.
  - by rewrite Ek, E4.
  - change (workers s'') with (<[w:=(st', pc')]> (workers s')). rewrite Ew.
    by apply Forall_insert.
  - unfold recorded, owed, pending_at in *. rewrite Ek, E1, E2, !length_app.
    change (calls s'') with (calls s'). rewrite Ec.
    change (task_queue s'') with (task_queue s').
    change (workers s'') with (<[w:=(st', pc')]> (workers s')). rewrite Ew. lia.
  - intros c' st0 Hc'. change (calls s'') with (calls s'). rewrite Ec. by apply T7.
  - destruct T8 as (st0 & Hst & Hct). exists st0.
    change (calls s'') with (calls s'). rewrite Ec. split; [done|].
    destruct st0 as [| |[]|]; simpl in *; try done.
    destruct Hct as [-> Hlen]. rewrite length_app in Hlen.
    unfold recorded, owed in T6.
    assert (a = [] /\ b = []) as [-> ->].
    { split; apply length_zero_iff_nil; lia. }
    rewrite Ek, E1, E2, !app_nil_r. split; [done|]. by rewrite length_app.
Qed.

Lemma wait_loop_tracked sid k total timed_out s s' :
  recorded s k <= total ->
  ctx_of s' k = ctx_of s k ->
  call_tracked s' sid k total (wait_loop k sid total timed_out s).1.
Proof.
  intros Hb Ek.
  destruct (wait_loop_spec k sid total timed_out s) as (_ & _ & [->|[->|(how & Hc & ->)]]);
    try done.
  destruct how; try done. simpl. rewrite Ek. split; [done|].
  apply wait_check_completion in Hc. unfold recorded in Hb. rewrite length_app. lia.
Qed.

Lemma after_put_tracked sid k total timed_out r s' :
  recorded r.1 k <= total ->
  ctx_of s' k = ctx_of r.1 k ->
  call_tracked s' sid k total (after_put k sid total timed_out r).1.
Proof.
  intros Hb Ek. destruct r as [s [|t rest]]; simpl in *; [|done].
  by apply wait_loop_tracked.
Qed.

Lemma resume_call_tracked sid k c total c' timed_out s :
  tracked sid k c total s -> tracked sid k c total (resume_call c' timed_out s).
Proof.
  intros Hs. pose proof Hs as [T1 T2 T3 T4 T5 T6 T7 T8]. unfold resume_call.
  destruct (calls s !! c') as [st0|] eqn:Hc'; [|done].
  assert (c' < length (calls s)) as Hlt by (by eapply lookup_lt_Some).
  destruct st0 as [k0 sid0 pending total0|k0 sid0 total0|how res|e]; try done.
  - destruct (resume_put_spec sid0 pending s) as (moved & E1 & E2 & E3).
    destruct (after_put_spec k0 sid0 total0 timed_out (resume_put sid0 pending s))
      as [E4 E5].
    destruct (after_put_backlog k0 sid0 total0 timed_out (resume_put sid0 pending s))
      as (E6 & _ & _).
    pose proof (same_sessions_trans _ _ _ E3 E4) as (Ec & Ea & Ew & El).
    destruct (decide (c' = c)) as [->|Hne].
    + destruct T8 as (st & Hst & Hct). rewrite Hc' in Hst. simplify_eq. simpl in Hct.
      destruct Hct as (-> & -> & ->).
      assert (recorded (resume_put sid pending s).1 k <= total) as Hb.
      { unfold recorded. rewrite (ctx_of_same s (resume_put sid pending s).1 k) by apply E3.
        unfold recorded in T6. lia. }
      pose proof (fun s' => after_put_tracked sid k total timed_out
                              (resume_put sid pending s) s' Hb) as Hct.
      destruct (after_put k sid total timed_out (resume_put sid pending s)) as [st s'] eqn:Hap.
      simpl in *.
      set (s'' := with_calls (<[c:=st]> (calls s')) s').
      assert (ctx_of s'' k = ctx_of s k) as Ek by (unfold ctx_of; simpl; by rewrite Ec).
      constructor.
      * change (contexts s'') with (contexts s'). by rewrite Ec.
      * change (active_sessions s'') with (active_sessions s'). by rewrite Ea.
      * change (active_sessions s'') with (active_sessions s'). by rewrite Ea.
      * by rewrite Ek.
      * change (workers s'') with (workers s'). by rewrite Ew.
      * unfold recorded, owed, pending_at in *. rewrite Ek.
        change (workers s'') with (workers s'). rewrite Ew.
        change (task_queue s'') with (task_queue s').
        rewrite E5, E2, queue_count_app, queue_count_same.
        change (calls s'') with (<[c:=st]> (calls s')).
        rewrite list_lookup_insert_eq by (by rewrite El). simpl. rewrite E6.
        rewrite Hc' in T6. simpl in T6. rewrite E1, length_app in T6. lia.
      * intros c' st0 Hc0 Hst0. change (calls s'') with (<[c:=st]> (calls s')) in Hst0.
        rewrite list_lookup_insert_ne in Hst0 by done. rewrite El in Hst0.
        by eapply T7.
      * exists st. split.
        -- change (calls s'') with (<[c:=st]> (calls s')).
           apply list_lookup_insert_eq. by rewrite El.
        -- apply Hct. rewrite Ek. symmetry. apply ctx_of_same, E3.
    + assert (sid0 <> sid) as Hsid by (by apply (T7 c' _ Hne Hc')).
      pose proof (call_state_unused sid k0 sid0 total0 timed_out
                    (resume_put sid0 pending s) Hsid) as Hun.
      destruct (after_put k0 sid0 total0 timed_out (resume_put sid0 pending s))
        as [st s'] eqn:Hap.
      simpl in *.
      set (s'' := with_calls (<[c':=st]> (calls s')) s').
      assert (ctx_of s'' k = ctx_of s k) as Ek by (unfold ctx_of; simpl; by rewrite Ec).
      constructor.
      * change (contexts s'') with (contexts s'). by rewrite Ec.
      * change (active_sessions s'') with (active_sessions s'). by rewrite Ea.
      * change (active_sessions s'') with (active_sessions s'). by rewrite Ea.
      * by rewrite Ek.
      * change (workers s'') with (workers s'). by rewrite Ew.
      * unfold recorded, owed, pending_at in *. rewrite Ek.
        change (workers s'') with (workers s'). rewrite Ew.
        change (task_queue s'') with (task_queue s').
        rewrite E5, E2, queue_count_app, queue_count_other by done.
        change (calls s'') with (<[c':=st]> (calls s')).
        rewrite list_lookup_insert_ne by done. rewrite El. lia.
      * intros c0 st0 Hc0 Hst0. change (calls s'') with (<[c':=st]> (calls s')) in Hst0.
        destruct (decide (c0 = c')) as [->|Hne'].
        -- rewrite list_lookup_insert_eq in Hst0 by (by rewrite El). by simplify_eq.
        -- rewrite list_lookup_insert_ne in Hst0 by done. rewrite El in Hst0.
           by eapply T7.
      * destruct T8 as (st1 & Hst1 & Hct1). exists st1. split.
        -- change (calls s'') with (<[c':=st]> (calls s')).
           rewrite list_lookup_insert_ne by done. by rewrite El.
        -- destruct st1 as [| |[]|]; simpl in *; try done. by rewrite Ek.
  - destruct (wait_loop_spec k0 sid0 total0 timed_out s)
      as ((Ec & Ea & Ew & El) & E5 & Hcase).
    destruct (wait_loop_backlog k0 sid0 total0 timed_out s) as (E6 & _ & _).
    destruct (decide (c' = c)) as [->|Hne].
    + destruct T8 as (st & Hst & Hct). rewrite Hc' in Hst. simplify_eq. simpl in Hct.
      destruct Hct as (-> & -> & ->).
      assert (recorded s k <= total) as Hb by lia.
      pose proof (fun s' => wait_loop_tracked sid k total timed_out s s' Hb) as Hct.
      destruct (wait_loop k sid total timed_out s) as [st s'] eqn:Hap. simpl in *.
      set (s'' := with_calls (<[c:=st]> (calls s')) s').
      assert (ctx_of s'' k = ctx_of s k) as Ek by (unfold ctx_of; simpl; by rewrite Ec).
      constructor.
      * change (contexts s'') with (contexts s'). by rewrite Ec.
      * change (active_sessions s'') with (active_sessions s'). by rewrite Ea.
      * change (active_sessions s'') with (active_sessions s'). by rewrite Ea.
      * by rewrite Ek.
      * change (workers s'') with (workers s'). by rewrite Ew.
      * unfold recorded, owed, pending_at in *. rewrite Ek.
        change (workers s'') with (workers s'). rewrite Ew.
        change (task_queue s'') with (task_queue s'). rewrite E5.
        change (calls s'') with (<[c:=st]> (calls s')).
        rewrite list_lookup_insert_eq by (by rewrite El). simpl. rewrite E6.
        simpl. lia.
      * intros c' st0 Hc0 Hst0. change (calls s'') with (<[c:=st]> (calls s')) in Hst0.
        rewrite list_lookup_insert_ne in Hst0 by done. rewrite El in Hst0.
        by eapply T7.
      * exists st. split.
        -- change (calls s'') with (<[c:=st]> (calls s')).
           apply list_lookup_insert_eq. by rewrite El.
        -- by apply Hct.
    + destruct (wait_loop k0 sid0 total0 timed_out s) as [st s'] eqn:Hap. simpl in *.
      set (s'' := with_calls (<[c':=st]> (calls s')) s').
      assert (ctx_of s'' k = ctx_of s k) as Ek by (unfold ctx_of; simpl; by rewrite Ec).
      constructor.
      * change (contexts s'') with (contexts s'). by rewrite Ec.
      * change (active_sessions s'') with (active_sessions s'). by rewrite Ea.
      * change (active_sessions s'') with (active_sessions s'). by rewrite Ea.
      * by rewrite Ek.
      * change (workers s'') with (workers s'). by rewrite Ew.
      * unfold recorded, owed, pending_at in *. rewrite Ek.
        change (workers s'') with (workers s'). rewrite Ew.
        change (task_queue s'') with (task_queue s'). rewrite E5.
        change (calls s'') with (<[c':=st]> (calls s')).
        rewrite list_lookup_insert_ne by done. rewrite El. lia.
      * intros c0 st0 Hc0 Hst0. change (calls s'') with (<[c':=st]> (calls s')) in Hst0.
        destruct (decide (c0 = c')) as [->|Hne'].
        -- rewrite list_lookup_insert_eq in Hst0 by (by rewrite El). simplify_eq.
           destruct Hcase as [->|[->|(how & _ & ->)]]; done.
        -- rewrite list_lookup_insert_ne in Hst0 by done. rewrite El in Hst0.
           by eapply T7.
      * destruct T8 as (st1 & Hst1 & Hct1). exists st1. split.
        -- change (calls s'') with (<[c':=st]> (calls s')).
           rewrite list_lookup_insert_ne by done. by rewrite El.
        -- destruct st1 as [| |[]|]; simpl in *; try done. by rewrite Ek.
Qed.

Lemma execute_agents_parallel_spec batch sid cb timed_out s :
  is_initialized s = true ->
  let k := length (contexts s) in
  let r := execute_agents_parallel batch sid cb timed_out s in
  exists moved,
    sorted_desc (fun t => priority_value (priority (task_of s t))) batch
      = moved ++ pending_of r.1
    /\ task_queue r.2 = task_queue s ++ ((fun t => Some (sid, t)) <$> moved)
    /\ contexts r.2 = contexts s ++ [mkCtx sid batch [] [] false cb]
    /\ active_sessions r.2 = <[sid := k]> (active_sessions s)
    /\ workers r.2 = workers s
    /\ calls r.2 = calls s
    /\ (forall s', ctx_of s' k = mkCtx sid batch [] [] false cb ->
          call_tracked s' sid k (length batch) r.1).
Proof.
  intros Hinit k r. subst r. unfold execute_agents_parallel. rewrite Hinit.
  set (s2 := with_active_sessions _ _).
  change (sorted_desc _ batch)
    with (sorted_desc (fun t => priority_value (priority (task_of s t))) batch).
  set (sorted_tasks := sorted_desc _ batch).
  destruct (put_all_spec sid sorted_tasks s2) as (moved & E1 & E2 & E3).
  destruct (after_put_spec k sid (length batch) timed_out (put_all sid sorted_tasks s2))
    as [E4 E5].
  destruct (after_put_backlog k sid (length batch) timed_out (put_all sid sorted_tasks s2))
    as (E6 & _ & _).
  pose proof (same_sessions_trans _ _ _ E3 E4) as (Ec & Ea & Ew & El).
  assert (ctx_of (put_all sid sorted_tasks s2).1 k = mkCtx sid batch [] [] false cb) as Ek.
  { unfold ctx_of. destruct E3 as (-> & _). simpl. by rewrite list_lookup_middle. }
  exists moved. fold k. rewrite E6, E5, E2, Ec, Ea, Ew, El.
  repeat split; try done.
  intros s' Hs'. apply after_put_tracked.
  - unfold recorded. rewrite Ek. simpl. lia.
  - by rewrite Hs', Ek.
Qed.

Lemma owed_unused sid n (ws : list (WorkerStats * WorkerPc)) :
  Forall (fun w => pc_unused sid n w.2) ws ->
  sum_list_with (fun w : WorkerStats * WorkerPc => owes sid w.2) ws = 0.
Proof.
  induction 1 as [|[st pc] ws Hpc _ IH]; simpl; [done|]. rewrite IH.
  destruct pc; simpl in *; try done; rewrite decide_False; try done; by destruct Hpc.
Qed.

Lemma call_tracked_init sid batch cb timed_out s :
  is_initialized s = true -> unused sid s -> never_raises cb ->
  tracked sid (length (contexts s)) (length (calls s)) (length batch)
    (step s (Call batch sid cb timed_out)).
Proof.
  intros Hinit [U1 U2 U3 U4] Hcb. simpl.
  destruct (execute_agents_parallel_spec batch sid cb timed_out s Hinit)
    as (moved & E1 & E2 & E3 & E4 & E5 & E6 & E7).
  destruct (execute_agents_parallel batch sid cb timed_out s) as [st s']. simpl in *.
  set (k := length (contexts s)) in *.
  set (s'' := with_calls (calls s' ++ [st]) s').
  assert (ctx_of s'' k = mkCtx sid batch [] [] false cb) as Ek.
  { unfold ctx_of. simpl. rewrite E3. by rewrite list_lookup_middle. }
  constructor.
  - change (contexts s'') with (contexts s'). rewrite E3, length_app. simpl. lia.
  - change (active_sessions s'') with (active_sessions s'). rewrite E4.
    intros x Hx. apply lookup_insert_Some in Hx as [[? _]|[_ Hx]]; [done|].
    apply U1 in Hx. lia.
  - change (active_sessions s'') with (active_sessions s'). rewrite E4.
    intros y Hy. rewrite lookup_insert_eq in Hy. by simplify_eq.
  - by rewrite Ek.
  - change (workers s'') with (workers s'). rewrite E5.
    eapply Forall_impl; [exact U2|]. intros [st0 pc]. simpl.
    destruct pc; simpl; try done.
    + intros [Hne Hlt]. split; [done|]. fold k in Hlt. lia.
  - unfold recorded, owed, pending_at. rewrite Ek. simpl.
    rewrite E5, (owed_unused sid _ _ U2), E2, queue_count_app, U3, queue_count_same.
    rewrite E6, list_lookup_middle by done. simpl.
    pose proof (Permutation_length (sorted_desc_perm
      (fun t => priority_value (priority (task_of s t))) batch)) as Hlen.
    rewrite E1, length_app in Hlen. lia.
  - intros c' st0 Hc'. simpl. rewrite E6. intros Hst0.
    apply lookup_app_Some in Hst0 as [Hst0|[Hge Hst0]].
    + rewrite Forall_lookup in U4. by eapply U4.
    + destruct (c' - length (calls s)) eqn:Hd; simpl in Hst0; [|done].
      lia.
  - exists st. split.
    + simpl. rewrite E6. by apply list_lookup_middle.
    + by apply E7.
Qed.

Lemma call_other_tracked sid k c total batch sid' cb timed_out s :
  sid' <> sid -> tracked sid k c total s ->
  tracked sid k c total (step s (Call batch sid' cb timed_out)).
Proof.
  intros Hne [T1 T2 T3 T4 T5 T6 T7 T8]. simpl.
  destruct T8 as (st1 & Hst1 & Hct1).
  destruct (is_initialized s) eqn:Hinit.
  - destruct (execute_agents_parallel_spec batch sid' cb timed_out s Hinit)
      as (moved & E1 & E2 & E3 & E4 & E5 & E6 & E7).
    pose proof (fun r => call_state_unused sid (length (contexts s)) sid' (length batch)
                           timed_out r Hne) as Hun.
    unfold execute_agents_parallel in Hun |- *. rewrite Hinit in *.
    match goal with |- context [after_put ?a ?b ?c ?d ?r] => specialize (Hun r) end.
    unfold execute_agents_parallel in E1, E2, E3, E4, E5, E6. rewrite Hinit in *.
    match goal with |- context [after_put ?a ?b ?c ?d ?r] =>
      destruct (after_put a b c d r) as [st s'] end.
    simpl in *.
    set (s'' := with_calls (calls s' ++ [st]) s').
    assert (ctx_of s'' k = ctx_of s k) as Ek.
    { unfold ctx_of. simpl. rewrite E3. by rewrite lookup_app_l. }
    constructor.
    + change (contexts s'') with (contexts s'). rewrite E3, length_app. lia.
    + change (active_sessions s'') with (active_sessions s'). rewrite E4.
      intros x Hx. apply lookup_insert_Some in Hx as [[_ Hx]|[_ Hx]]; [lia|by apply T2].
    + change (active_sessions s'') with (active_sessions s'). rewrite E4.
      intros y Hy. rewrite lookup_insert_ne in Hy by done. by apply T3.
    + by rewrite Ek.
    + change (workers s'') with (workers s'). by rewrite E5.
    + unfold recorded, owed, pending_at in *. rewrite Ek.
      change (workers s'') with (workers s'). rewrite E5.
      change (task_queue s'') with (task_queue s').
      rewrite E2, queue_count_app, queue_count_other by done.
      change (calls s'') with (calls s' ++ [st]). rewrite E6.
      rewrite (lookup_app_l_Some _ _ _ _ Hst1). rewrite Hst1 in T6. simpl in *. lia.
    + intros c' st0 Hc'. change (calls s'') with (calls s' ++ [st]). rewrite E6.
      intros Hst0. apply lookup_app_Some in Hst0 as [Hst0|[Hge Hst0]].
      * by eapply T7.
      * destruct (c' - length (calls s)) eqn:Hd; simpl in Hst0; [|done].
        by simplify_eq.
    + exists st1. split.
      * change (calls s'') with (calls s' ++ [st]). rewrite E6.
        by apply lookup_app_l_Some.
      * destruct st1 as [| |[]|]; simpl in *; try done. by rewrite Ek.
  - unfold execute_agents_parallel. rewrite Hinit. simpl.
    constructor; simpl; try done.
    + unfold pending_at in *. simpl. by rewrite (lookup_app_l_Some _ _ _ _ Hst1), Hst1 in *.
    + intros c' st0 Hc' Hst0. apply lookup_app_Some in Hst0 as [Hst0|[Hge Hst0]].
      * by eapply T7.
      * destruct (c' - length (calls s)) eqn:Hd; simpl in Hst0; [|done].
        by simplify_eq.
    + exists st1. split; [by apply lookup_app_l_Some|].
      destruct st1 as [| |[]|]; simpl in *; done.
Qed.

Lemma cancel_session_records sid s k :
  completed_tasks (ctx_of (cancel_session sid s) k) = completed_tasks (ctx_of s k)
  /\ failed_tasks (ctx_of (cancel_session sid s) k) = failed_tasks (ctx_of s k)
  /\ progress_callback (ctx_of (cancel_session sid s) k) = progress_callback (ctx_of s k).
Proof. unfold cancel_session. case_match; [apply ctx_set_cancelled|done]. Qed.

Lemma cancel_all_records (l : list (string * CtxRef)) s k :
  let s' := foldr (fun kv acc => cancel_session kv.1 acc) s l in
  completed_tasks (ctx_of s' k) = completed_tasks (ctx_of s k)
  /\ failed_tasks (ctx_of s' k) = failed_tasks (ctx_of s k)
  /\ progress_callback (ctx_of s' k) = progress_callback (ctx_of s k).
Proof.
  induction l as [|kv l (E1 & E2 & E3)]; simpl; [done|].
  destruct (cancel_session_records kv.1
              (foldr (fun kv acc => cancel_session kv.1 acc) s l) k) as (F1 & F2 & F3).
  repeat split; congruence.
Qed.

Lemma step_tracked sid k c total s e :
  is_call_for sid e = false ->
  tracked sid k c total s -> tracked sid k c total (step s e).
Proof.
  intros He Hs. destruct e.
  - simpl. by apply (tracked_frame sid k c total s).
  - simpl. destruct Hs as [T1 T2 T3 T4 T5 T6 T7 T8]. constructor; simpl; try done.
    + apply Forall_app. split; [done|]. apply Forall_fmap, Forall_forall. done.
    + unfold recorded, owed, pending_at in *. simpl. rewrite sum_list_with_app.
      change (ctx_of (initialize s) k) with (ctx_of s k).
      assert (forall l : list nat,
        sum_list_with (fun w : WorkerStats * WorkerPc => owes sid w.2)
          ((fun i => (mkStats i 0 0 None, WGet)) <$> l) = 0) as ->; [|lia].
      intros l. induction l; simpl; auto.
  - apply call_other_tracked; [|done].
    simpl in He. by apply bool_decide_eq_false in He.
  - by apply resume_call_tracked.
  - by apply step_worker_tracked.
  - simpl. destruct (cancel_session_spec sid0 s) as (E1 & E2 & E3 & E4 & E5 & E6).
    destruct (cancel_session_records sid0 s k) as (F1 & F2 & F3).
    apply (tracked_frame sid k c total s);
      [exact F1|exact F2|exact F3|rewrite E6; lia|by rewrite E2|exact E3|exact E4
      |by rewrite E1|exact Hs].
  - simpl. unfold cleanup_session. case_match; [|done].
    apply (tracked_frame sid k c total s); try done.
    simpl. intros x y Hd. by apply lookup_delete_Some in Hd as [_ Hd].
  - simpl. unfold cleanup.
    set (s1 := with_flags _ _ _).
    pose proof (cancel_all_spec (map_to_list (active_sessions s1)) s1)
      as (E1 & E2 & E3 & E4 & E5 & E6).
    pose proof (cancel_all_records (map_to_list (active_sessions s1)) s1 k)
      as (R1 & R2 & R3).
    set (s2 := foldr _ _ _) in *.
    destruct (put_signals_spec (shutdown_puts s2 + length (workers s2)) s2)
      as (m & F1 & (Fc & Fa & Fw & Fl) & F3).
    apply (tracked_frame sid k c total s); try done.
    + rewrite (ctx_of_same s2) by done. by rewrite R1.
    + rewrite (ctx_of_same s2) by done. by rewrite R2.
    + rewrite (ctx_of_same s2) by done. by rewrite R3.
    + rewrite Fc, E6. done.
    + rewrite Fa, E2. done.
    + by rewrite Fw, E3.
    + by rewrite Fl, E4.
    + rewrite F1, queue_count_app, queue_count_signals, E1. simpl. lia.
  - simpl.
    destruct (put_signals_spec (shutdown_puts s) s) as (m & F1 & (Fc & Fa & Fw & Fl) & F3).
    apply (tracked_frame sid k c total s); try done.
    + by rewrite (ctx_of_same s).
    + by rewrite (ctx_of_same s).
    + by rewrite (ctx_of_same s).
    + by rewrite Fc.
    + by rewrite Fa.
    + rewrite F1, queue_count_app, queue_count_signals. lia.
Qed.

Lemma run_tracked sid k c total evs s :
  no_call_for sid evs -> tracked sid k c total s -> tracked sid k c total (run s evs).
Proof.
  unfold no_call_for. revert s.
  induction evs as [|e evs IH]; intros s Hevs Hs; simpl; [done|].
  simpl in Hevs. apply andb_prop in Hevs as [He Hevs].
  apply negb_true_iff in He. by apply IH, step_tracked.
Qed.






(** ** Cancellation *)

Lemma except_block_tasks sid' t0 msg st s :
  (forall t, t <> t0 -> task_of (except_block sid' t0 msg st s).1.2 t = task_of s t)
  /\ length (objects (except_block sid' t0 msg st s).1.2) = length (objects s).
Proof.
  unfold except_block. simpl. case_match; simpl.
  - split; [|by rewrite length_alter].
    intros t Hne. unfold task_of. simpl. by rewrite list_lookup_alter_ne.
  - split; [|by rewrite length_alter].
    intros t Hne. unfold task_of. simpl. by rewrite list_lookup_alter_ne.
Qed.

Lemma leave_except_cancel k dispatched sid' t0 msg st s :
  k < length (contexts s) ->
  (active_sessions s !! sid' = Some k -> t0 ∈ dispatched) ->
  cancel_effect k dispatched t0 s (leave_section (except_block sid' t0 msg st s)).
Proof.
  intros Hk Hd.
  destruct (except_block_records sid' t0 msg st s k Hk)
    as (E1 & E2 & E3 & E4 & E5 & E6 & E7).
  destruct (except_block_tasks sid' t0 msg st s) as [F1 F2].
  destruct (except_block sid' t0 msg st s) as [[st1 s1] raised]. simpl in *.
  unfold cancel_effect. simpl.
  change (ctx_of (with_semaphore (S (semaphore s1)) s1) k) with (ctx_of s1 k).
  split; [exact F1|]. split; [|split; [exact E4|exact F2]].
  intros t. rewrite E1, E2. intros Ht.
  rewrite app_assoc in Ht. apply elem_of_app in Ht as [Ht|Ht]; [by left|].
  case_decide as Ha; [|by apply elem_of_nil in Ht].
  apply list_elem_of_singleton in Ht as ->. right. split; [done|by apply Hd].
Qed.

Lemma pc_cancelling_loop_head sid batch dispatched b (r : bool) :
  pc_cancelling sid batch dispatched b (if r then WGet else WExited).
Proof. by destruct r. Qed.

Lemma pc_cancelling_leave sid batch dispatched b r :
  pc_cancelling sid batch dispatched b (leave_section r).1.2.
Proof.
  destruct r as [[st s] [e|]]; simpl; [done|apply pc_cancelling_loop_head].
Qed.

Lemma enter_section_cancel sid k batch dispatched b t0 st s :
  active_sessions s !! sid = Some k ->
  k < length (contexts s) ->
  (b = true -> is_cancelled (ctx_of s k) = true) ->
  t0 < length (objects s) ->
  t0 ∈ dispatched \/ b = true ->
  cancel_effect k dispatched t0 s (enter_section sid t0 st s)
  /\ pc_cancelling sid batch dispatched b (enter_section sid t0 st s).1.2
  /\ (t0 ∈ dispatched
      \/ (b = true /\ status (task_of (enter_section sid t0 st s).2 t0) = CANCELLED)).
Proof.
  intros Ha Hk Hb Ht Hd. unfold enter_section. rewrite Ha.
  destruct (is_cancelled (ctx_of s k)) eqn:Hcan.
  - simpl. split; [|split; [apply pc_cancelling_loop_head|]].
    + unfold cancel_effect. simpl. split; [|split; [by left|split; [done|]]].
      * intros t Hne. unfold task_of. simpl. by rewrite list_lookup_alter_ne.
      * by rewrite length_alter.
    + destruct Hd as [Hd| ->]; [by left|]. right. split; [done|].
      unfold task_of. simpl. rewrite list_lookup_alter_eq.
      apply lookup_lt_is_Some in Ht as [x ->]. done.
  - assert (t0 ∈ dispatched) as Hin.
    { destruct Hd as [Hd| ->]; [done|]. by specialize (Hb eq_refl). }
    destruct (get_agent s (agent_name (task_of s t0))) as [agent|].
    + simpl. split; [|split; [done|by left]].
      unfold cancel_effect. simpl. split; [done|]. split; [by left|done].
    + split; [by apply leave_except_cancel|].
      split; [|by left]. apply pc_cancelling_leave.
Qed.

Lemma cancel_effect_frame k dispatched t0 s0 s r :
  objects s = objects s0 -> contexts s = contexts s0 ->
  cancel_effect k dispatched t0 s r -> cancel_effect k dispatched t0 s0 r.
Proof.
  intros Eo Ec (H1 & H2 & H3 & H4). unfold cancel_effect, task_of, ctx_of in *.
  rewrite <- Eo, <- Ec. done.
Qed.

Lemma after_execute_cancel sid k batch dispatched b sid' t0 c0 agent input st s :
  k < length (contexts s) ->
  t0 ∈ dispatched ->
  let r := after_execute sid' t0 c0 (BaseAgent_execute agent input) st s in
  cancel_effect k dispatched t0 s r /\ pc_cancelling sid batch dispatched b r.1.2.
Proof.
  intros Hk Hd. unfold after_execute.
  set (res := BaseAgent_execute agent input).
  set (s1 := update_task _ t0 s).
  assert (k < length (contexts s1)) as Hk1 by done.
  assert (forall t, t <> t0 -> task_of s1 t = task_of s t) as Ht1.
  { intros t Hne. unfold task_of. simpl. by rewrite list_lookup_alter_ne. }
  assert (length (objects s1) = length (objects s)) as Hl1 by (simpl; by rewrite length_alter).
  destruct (decide (r_status res = A_COMPLETED)) as [Hr|Hr].
  - destruct (ctx_append_completed t0 c0 k s1 Hk1) as (E1 & E2 & E3 & E4).
    set (s2 := update_ctx (append_completed t0) c0 s1) in *.
    change (ctx_of s1 k) with (ctx_of s k) in *.
    assert (cancel_effect k dispatched t0 s (incr_tasks_completed st, WGet, s2)) as Hce.
    { unfold cancel_effect. simpl. split; [exact Ht1|]. split; [|split; [exact E4|exact Hl1]].
      intros t Ht. apply elem_of_app in Ht as [Ht|Ht].
      - assert (t ∈ completed_tasks (ctx_of s k) ++ (if decide (c0 = k) then [t0] else []))
          as Ht' by (by rewrite <- E1).
        apply elem_of_app in Ht' as [Ht'|Ht']; [left; apply elem_of_app; by left|].
        case_decide; [|by apply elem_of_nil in Ht'].
        apply list_elem_of_singleton in Ht' as ->. by right.
      - left. apply elem_of_app. right.
        assert (failed_tasks (ctx_of s2 k) = failed_tasks (ctx_of s k)) as <- by exact E2.
        done. }
    destruct (progress_callback (ctx_of s2 c0)) as [cb|]; simpl; split; try done.
    apply pc_cancelling_loop_head.
  - destruct (ctx_append_failed t0 c0 k s1 Hk1) as (E1 & E2 & E3 & E4).
    set (s2 := update_ctx (append_failed t0) c0 s1) in *.
    change (ctx_of s1 k) with (ctx_of s k) in *.
    assert (cancel_effect k dispatched t0 s (incr_tasks_failed st, WGet, s2)) as Hce.
    { unfold cancel_effect. simpl. split; [exact Ht1|]. split; [|split; [exact E4|exact Hl1]].
      intros t Ht. apply elem_of_app in Ht as [Ht|Ht].
      - left. apply elem_of_app. left.
        assert (completed_tasks (ctx_of s2 k) = completed_tasks (ctx_of s k)) as <- by exact E1.
        done.
      - assert (t ∈ failed_tasks (ctx_of s k) ++ (if decide (c0 = k) then [t0] else []))
          as Ht' by (by rewrite <- E2).
        apply elem_of_app in Ht' as [Ht'|Ht']; [left; apply elem_of_app; by right|].
        case_decide; [|by apply elem_of_nil in Ht'].
        apply list_elem_of_singleton in Ht' as ->. by right. }
    destruct (progress_callback (ctx_of s2 c0)) as [cb|]; simpl; split; try done.
    apply pc_cancelling_loop_head.
Qed.

Lemma pc_cancelling_mono sid batch d d' b pc :
  (forall t, t ∈ d -> t ∈ d') ->
  pc_cancelling sid batch d b pc -> pc_cancelling sid batch d' b pc.
Proof.
  intros Hd. destruct pc; simpl; try done; try apply Hd.
  intros (? & ? & [?|?]); repeat split; auto.
Qed.

Lemma call_cancelling_mono k d d' st :
  (forall t, t ∈ d -> t ∈ d') -> call_cancelling k d st -> call_cancelling k d' st.
Proof. intros Hd. destruct st; simpl; try done. intros H t Ht. by apply Hd, H. Qed.

Lemma cancelling_assemble sid k c batch d d' b w st pc st' pc' s s' :
  cancelling sid k c batch d b s ->
  workers s !! w = Some (st, pc) ->
  (forall t, t ∈ d -> t ∈ d') ->
  active_sessions s' = active_sessions s ->
  length (contexts s') = length (contexts s) ->
  calls s' = calls s ->
  workers s' = workers s ->
  Forall (item_cancelling sid batch) (task_queue s') ->
  pc_cancelling sid batch d' b pc' ->
  (forall t, task_of s' t = task_of s t
             \/ t ∈ d' \/ (b = true /\ status (task_of s' t) = CANCELLED)) ->
  (forall t, t ∈ completed_tasks (ctx_of s' k) ++ failed_tasks (ctx_of s' k) ->
             t ∈ completed_tasks (ctx_of s k) ++ failed_tasks (ctx_of s k) \/ t ∈ d') ->
  is_cancelled (ctx_of s' k) = is_cancelled (ctx_of s k) ->
  length (objects s') = length (objects s) ->
  (forall t, t ∈ queued_tasks s ->
             t ∈ queued_tasks s'
             \/ (exists sid'', pc' = WAcquire sid'' t)
             \/ t ∈ d' \/ (b = true /\ status (task_of s' t) = CANCELLED)) ->
  (forall sid' t, pc = WAcquire sid' t ->
             (exists sid'', pc' = WAcquire sid'' t)
             \/ t ∈ d' \/ (b = true /\ status (task_of s' t) = CANCELLED)) ->
  cancelling sid k c batch d' b (with_workers (<[w:=(st', pc')]> (workers s')) s').
Proof.
  intros [K1 K2 K3 K4 K5 K6 K7 K8 K9 K10] Hw Hd Ea El Ec Ew Hq Hpc A1 A2 A3 A4 Q P.
  set (s'' := with_workers (<[w:=(st', pc')]> (workers s')) s').
  assert (w < length (workers s)) as Hlt by (by eapply lookup_lt_Some).
  constructor.
  - change (active_sessions s'') with (active_sessions s'). by rewrite Ea.
  - change (contexts s'') with (contexts s'). by rewrite El.
  - change (ctx_of s'' k) with (ctx_of s' k). rewrite A3. exact K3.
  - exact Hq.
  - change (workers s'') with (<[w:=(st', pc')]> (workers s')). rewrite Ew.
    apply Forall_insert; [|done].
    eapply Forall_impl; [exact K5|]. intros [st0 pc0]. by apply pc_cancelling_mono.
  - intros t Ht. change (task_of s'' t) with (task_of s' t).
    destruct (A1 t) as [E|[?|?]]; [|by left|by right; right].
    rewrite E. destruct (K6 t Ht) as [?|[[Hp Hwt]|?]]; [left; by apply Hd| |by right; right].
    assert (waits s'' t \/ t ∈ d' \/ (b = true /\ status (task_of s' t) = CANCELLED))
      as [?|[?|[? Hs]]]; [|by right; left|by left|right; right; by rewrite <- E].
    destruct Hwt as [Hwt|(w0 & st0 & sid0 & Hw0)].
    + destruct (Q t Hwt) as [?|[[sid'' ->]|?]]; [left; by left| |by right].
      left. right. exists w, st', sid''.
      change (workers s'') with (<[w:=(st', WAcquire sid'' t)]> (workers s')).
      rewrite Ew. by apply list_lookup_insert_eq.
    + destruct (decide (w0 = w)) as [->|Hne].
      * rewrite Hw in Hw0. simplify_eq.
        destruct (P _ _ eq_refl) as [[sid'' ->]|?]; [|by right].
        left. right. exists w, st', sid''.
        change (workers s'') with (<[w:=(st', WAcquire sid'' t)]> (workers s')).
        rewrite Ew. by apply list_lookup_insert_eq.
      * left. right. exists w0, st0, sid0.
        change (workers s'') with (<[w:=(st', pc')]> (workers s')).
        rewrite Ew. by rewrite list_lookup_insert_ne.
  - intros t Ht. change (ctx_of s'' k) with (ctx_of s' k) in Ht.
    destruct (A2 t Ht) as [?|?]; [|done]. by apply Hd, K7.
  - intros t Ht. change (objects s'') with (objects s'). rewrite A4. by apply K8.
  - intros c'. unfold pending_at. change (calls s'') with (calls s'). rewrite Ec.
    apply K9.
  - destruct K10 as (st0 & Hst0 & Hcc). exists st0.
    change (calls s'') with (calls s'). rewrite Ec. split; [done|].
    by eapply call_cancelling_mono.
Qed.

Lemma queued_tasks_cons_task sid t q s :
  task_queue s = Some (sid, t) :: q ->
  queued_tasks s = t :: queued_tasks (with_task_queue q s).
Proof. intros E. unfold queued_tasks. by rewrite E. Qed.

Lemma cancelling_handled sid k c batch d d' b w st pc st' pc' s s' t0 :
  cancelling sid k c batch d b s ->
  workers s !! w = Some (st, pc) ->
  (forall t, t ∈ d -> t ∈ d') ->
  active_sessions s' = active_sessions s ->
  length (contexts s') = length (contexts s) ->
  calls s' = calls s ->
  workers s' = workers s ->
  Forall (item_cancelling sid batch) (task_queue s') ->
  pc_cancelling sid batch d' b pc' ->
  cancel_effect k d' t0 s (st', pc', s') ->
  (t0 ∈ d'
   \/ (b = true /\ status (task_of s' t0) = CANCELLED)
   \/ (task_of s' t0 = task_of s t0 /\ exists sid'', pc' = WAcquire sid'' t0)) ->
  (forall t, t ∈ queued_tasks s -> t ∈ queued_tasks s' \/ t = t0) ->
  (forall sid' t, pc = WAcquire sid' t -> t = t0) ->
  cancelling sid k c batch d' b (with_workers (<[w:=(st', pc')]> (workers s')) s').
Proof.
  intros Hs Hw Hd Ea El Ec Ew Hq Hpc (C1 & C2 & C3 & C4) Hfate Q P.
  simpl in C1, C2, C3, C4.
  apply (cancelling_assemble sid k c batch d d' b w st pc st' pc' s s'); try done.
  - intros t. destruct (decide (t = t0)) as [->|Hne]; [|left; by apply C1].
    destruct Hfate as [?|[?|[? _]]]; auto.
  - intros t Ht. destruct (C2 t Ht) as [?|[-> ?]]; auto.
  - intros t Ht. destruct (Q t Ht) as [?| ->]; [by left|].
    destruct Hfate as [?|[?|[_ ?]]]; auto.
  - intros sid' t Hpc0. rewrite (P _ _ Hpc0).
    destruct Hfate as [?|[?|[_ ?]]]; auto.
Qed.

Lemma cancelling_unhandled sid k c batch d b w st pc st' pc' s s' :
  cancelling sid k c batch d b s ->
  workers s !! w = Some (st, pc) ->
  active_sessions s' = active_sessions s ->
  calls s' = calls s ->
  workers s' = workers s ->
  objects s' = objects s ->
  contexts s' = contexts s ->
  queued_tasks s' = queued_tasks s ->
  Forall (item_cancelling sid batch) (task_queue s') ->
  pc_cancelling sid batch d b pc' ->
  (forall sid' t, pc <> WAcquire sid' t) ->
  cancelling sid k c batch d b (with_workers (<[w:=(st', pc')]> (workers s')) s').
Proof.
  intros Hs Hw Ea Ec Ew Eo Ex Eq Hq Hpc P.
  apply (cancelling_assemble sid k c batch d d b w st pc st' pc' s s'); try done.
  - by rewrite Ex.
  - intros t. left. unfold task_of. by rewrite Eo.
  - intros t Ht. left. by rewrite <- (ctx_of_same s s').
  - by rewrite (ctx_of_same s s').
  - by rewrite Eo.
  - intros t Ht. left. by rewrite Eq.
  - intros sid' t Hpc0. by destruct (P sid' t).
Qed.


Lemma app_if_nil {A} (d : list A) (b : bool) : d ++ (if b then [] else []) = d.
Proof. destruct b; by rewrite app_nil_r. Qed.

Lemma step_worker_cancelling sid k c batch d b w s :
  cancelling sid k c batch d b s ->
  cancelling sid k c batch (d ++ (if b then [] else dequeued s (ResumeWorker w))) b
    (step_worker w s).
Proof.
  intros Hs. unfold step_worker, dequeued.
  destruct (workers s !! w) as [[st pc]|] eqn:Hw; [|by rewrite app_if_nil].
  destruct (resume_worker_frame st pc s) as (Ea & El & Ew & Ec).
  pose proof (resume_worker_queue st pc s) as [_ Eq].
  pose proof Hs as [K1 K2 K3 K4 K5 K6 K7 K8 K9 K10].
  assert (pc_cancelling sid batch d b pc) as Hpc.
  { rewrite Forall_lookup in K5. apply (K5 _ _ Hw). }
  assert (forall t, t ∈ d -> t ∈ d) as Hdd by done.
  destruct (resume_worker st pc s) as [[st' pc'] s'] eqn:Hr. simpl in Ea, El, Ew, Ec, Eq.
  destruct pc as [|sid' t0|sid' t0 c0 agent input|sid' t0 [msg|]| |e].
  - (* taking from the queue *)
    destruct (task_queue s) as [|[[sid' t0]|] q] eqn:Hq.
    + rewrite app_if_nil. simpl in Hr. rewrite Hq in Hr. injection Hr as <- <- <-.
      assert (Forall (item_cancelling sid batch) (task_queue s)) as Hq' by (by rewrite Hq).
      exact (cancelling_unhandled sid k c batch d b w st WGet st _ s s Hs Hw
               eq_refl eq_refl eq_refl eq_refl eq_refl eq_refl Hq'
               (pc_cancelling_loop_head sid batch d b (is_running s))
               (fun _ _ H => match H with end)).
    + apply Forall_cons in K4 as [[-> Hb0] K4].
      set (d' := d ++ (if b then [] else [t0])).
      assert (forall t, t ∈ d -> t ∈ d') as Hd by (intros t Ht; apply elem_of_app; by left).
      assert (t0 ∈ d' \/ b = true) as Hd0.
      { destruct b; [by right|left]. apply elem_of_app. right. by apply list_elem_of_singleton. }
      pose proof (queued_tasks_cons_task sid t0 q s Hq) as Hqt.
      assert (forall t, t ∈ queued_tasks s -> t ∈ queued_tasks s' \/ t = t0) as HQ.
      { intros t Ht. rewrite Hqt in Ht. apply elem_of_cons in Ht as [->|Ht]; [by right|].
        left. unfold queued_tasks in *. by rewrite Eq. }
      assert (Forall (item_cancelling sid batch) (task_queue s')) as Hq' by (by rewrite Eq).
      assert (forall sid' t, WGet = WAcquire sid' t -> t = t0) as HP by done.
      simpl in Hr. rewrite Hq in Hr. unfold acquire in Hr. simpl in Hr.
      destruct (semaphore s) as [|n] eqn:Hsem.
      * injection Hr as <- <- <-.
        assert (cancel_effect k d' t0 s (st, WAcquire sid t0, with_task_queue q s)) as Hce.
        { unfold cancel_effect. simpl. split; [done|]. split; [by left|done]. }
        assert (pc_cancelling sid batch d' b (WAcquire sid t0)) as Hpc' by done.
        exact (cancelling_handled sid k c batch d d' b w st WGet st _ s _ t0 Hs Hw Hd
                 Ea El Ec Ew Hq' Hpc' Hce
                 (or_intror (or_intror (conj eq_refl (ex_intro _ sid eq_refl)))) HQ HP).
      * set (s1 := with_semaphore n (with_task_queue q s)) in *.
        destruct (enter_section_cancel sid k batch d' b t0 st s1) as (Hce & Hpc' & Hfate);
          try done; [by apply K8|].
        rewrite Hr in Hce, Hpc', Hfate. simpl in Hpc', Hfate.
        apply (cancel_effect_frame k d' t0 s s1) in Hce; [|done|done].
        assert (t0 ∈ d'
                \/ (b = true /\ status (task_of s' t0) = CANCELLED)
                \/ (task_of s' t0 = task_of s t0 /\ exists sid'', pc' = WAcquire sid'' t0))
          as Hfate' by (destruct Hfate as [?|?]; auto).
        exact (cancelling_handled sid k c batch d d' b w st WGet st' pc' s s' t0 Hs Hw Hd
                 Ea El Ec Ew Hq' Hpc' Hce Hfate' HQ HP).
    + rewrite app_if_nil. apply Forall_cons in K4 as [_ K4].
      simpl in Hr. rewrite Hq in Hr. injection Hr as <- <- <-.
      assert (queued_tasks (with_task_queue q s) = queued_tasks s) as Hqt.
      { unfold queued_tasks. simpl. by rewrite Hq. }
      exact (cancelling_unhandled sid k c batch d b w st WGet st WExited s
               (with_task_queue q s) Hs Hw eq_refl eq_refl eq_refl eq_refl eq_refl Hqt K4 I
               (fun _ _ H => match H with end)).
  - (* waiting for a permit *)
    rewrite app_if_nil. simpl in Hpc. destruct Hpc as (-> & Hb0 & Hd0).
    simpl in Hr. unfold acquire in Hr.
    assert (Forall (item_cancelling sid batch) (task_queue s')) as Hq' by (by rewrite Eq).
    assert (forall t, t ∈ queued_tasks s -> t ∈ queued_tasks s' \/ t = t0) as HQ.
    { intros t Ht. left. unfold queued_tasks in *. by rewrite Eq. }
    assert (forall sid' t, WAcquire sid t0 = WAcquire sid' t -> t = t0) as HP
      by (intros ? ? ?; by simplify_eq).
    destruct (semaphore s) as [|n] eqn:Hsem.
    + injection Hr as <- <- <-.
      assert (cancel_effect k d t0 s (st, WAcquire sid t0, s)) as Hce.
      { unfold cancel_effect. simpl. split; [done|]. split; [by left|done]. }
      assert (pc_cancelling sid batch d b (WAcquire sid t0)) as Hpc' by done.
      exact (cancelling_handled sid k c batch d d b w st _ st _ s s t0 Hs Hw Hdd
               Ea El Ec Ew Hq' Hpc' Hce
               (or_intror (or_intror (conj eq_refl (ex_intro _ sid eq_refl)))) HQ HP).
    + set (s1 := with_semaphore n s) in *.
      destruct (enter_section_cancel sid k batch d b t0 st s1) as (Hce & Hpc' & Hfate);
        try done; [by apply K8|].
      rewrite Hr in Hce, Hpc', Hfate. simpl in Hpc', Hfate.
      apply (cancel_effect_frame k d t0 s s1) in Hce; [|done|done].
      assert (t0 ∈ d
              \/ (b = true /\ status (task_of s' t0) = CANCELLED)
              \/ (task_of s' t0 = task_of s t0 /\ exists sid'', pc' = WAcquire sid'' t0))
        as Hfate' by (destruct Hfate as [?|?]; auto).
      exact (cancelling_handled sid k c batch d d b w st _ st' pc' s s' t0 Hs Hw Hdd
               Ea El Ec Ew Hq' Hpc' Hce Hfate' HQ HP).
  - (* the agent has returned *)
    rewrite app_if_nil. simpl in Hpc. simpl in Hr.
    destruct (after_execute_cancel sid k batch d b sid' t0 c0 agent input st s K2 Hpc)
      as [Hce Hpc'].
    rewrite Hr in Hce, Hpc'. simpl in Hpc'.
    assert (Forall (item_cancelling sid batch) (task_queue s')) as Hq' by (by rewrite Eq).
    assert (forall t, t ∈ queued_tasks s -> t ∈ queued_tasks s' \/ t = t0) as HQ.
    { intros t Ht. left. unfold queued_tasks in *. by rewrite Eq. }
    exact (cancelling_handled sid k c batch d d b w st _ st' pc' s s' t0 Hs Hw Hdd
             Ea El Ec Ew Hq' Hpc' Hce (or_introl Hpc) HQ
             (fun _ _ H => ltac:(discriminate H))).
  - (* the progress callback has raised *)
    rewrite app_if_nil. simpl in Hpc. simpl in Hr.
    pose proof (leave_except_cancel k d sid' t0 msg st s K2 (fun _ => Hpc)) as Hce.
    rewrite Hr in Hce.
    assert (pc_cancelling sid batch d b pc') as Hpc'.
    { pose proof (pc_cancelling_leave sid batch d b (except_block sid' t0 msg st s)) as H.
      by rewrite Hr in H. }
    assert (Forall (item_cancelling sid batch) (task_queue s')) as Hq' by (by rewrite Eq).
    assert (forall t, t ∈ queued_tasks s -> t ∈ queued_tasks s' \/ t = t0) as HQ.
    { intros t Ht. left. unfold queued_tasks in *. by rewrite Eq. }
    exact (cancelling_handled sid k c batch d d b w st _ st' pc' s s' t0 Hs Hw Hdd
             Ea El Ec Ew Hq' Hpc' Hce (or_introl Hpc) HQ
             (fun _ _ H => ltac:(discriminate H))).
  - (* the progress callback has returned *)
    rewrite app_if_nil. simpl in Hr. injection Hr as <- <- <-.
    exact (cancelling_unhandled sid k c batch d b w st _ _ _ s
             (with_semaphore (S (semaphore s)) s) Hs Hw eq_refl eq_refl eq_refl eq_refl
             eq_refl eq_refl K4 (pc_cancelling_loop_head sid batch d b (is_running s))
             (fun _ _ H => ltac:(discriminate H))).
  - rewrite app_if_nil. simpl in Hr. injection Hr as <- <- <-.
    exact (cancelling_unhandled sid k c batch d b w st WExited st WExited s s Hs Hw eq_refl eq_refl
             eq_refl eq_refl eq_refl eq_refl K4 I (fun _ _ H => ltac:(discriminate H))).
  - rewrite app_if_nil. simpl in Hr. injection Hr as <- <- <-.
    exact (cancelling_unhandled sid k c batch d b w st (WRaised e) st (WRaised e) s s Hs Hw
             eq_refl eq_refl eq_refl eq_refl eq_refl eq_refl K4 I
             (fun _ _ H => ltac:(discriminate H))).
Qed.

Lemma cancelling_frame sid k c batch d b s s' extra :
  active_sessions s' = active_sessions s ->
  length (contexts s') = length (contexts s) ->
  workers s' = workers s ++ extra ->
  Forall (fun w : WorkerStats * WorkerPc => w.2 = WGet) extra ->
  calls s' = calls s ->
  (forall t, t < length (objects s) -> task_of s' t = task_of s t) ->
  length (objects s) <= length (objects s') ->
  completed_tasks (ctx_of s' k) = completed_tasks (ctx_of s k) ->
  failed_tasks (ctx_of s' k) = failed_tasks (ctx_of s k) ->
  (is_cancelled (ctx_of s k) = true -> is_cancelled (ctx_of s' k) = true) ->
  queued_tasks s' = queued_tasks s ->
  Forall (item_cancelling sid batch) (task_queue s') ->
  cancelling sid k c batch d b s -> cancelling sid k c batch d b s'.
Proof.
  intros Ea El Ew Hex Ec Et Eo E1 E2 E3 Eq Hq [K1 K2 K3 K4 K5 K6 K7 K8 K9 K10].
  constructor.
  - by rewrite Ea.
  - by rewrite El.
  - intros Hb. by apply E3, K3.
  - exact Hq.
  - rewrite Ew. apply Forall_app. split; [exact K5|].
    eapply Forall_impl; [exact Hex|]. intros [st pc]. simpl. by intros ->.
  - intros t Ht. rewrite (Et t (K8 t Ht)).
    destruct (K6 t Ht) as [?|[[Hp Hwt]|?]]; [by left| |by right; right].
    right. left. split; [done|].
    destruct Hwt as [Hwt|(w0 & st0 & sid0 & Hw0)].
    + left. by rewrite Eq.
    + right. exists w0, st0, sid0. rewrite Ew. by apply lookup_app_l_Some.
  - rewrite E1, E2. exact K7.
  - intros t Ht. specialize (K8 t Ht). lia.
  - intros c'. unfold pending_at. rewrite Ec. apply K9.
  - destruct K10 as (st & Hst & Hcc). exists st. by rewrite Ec.
Qed.

Lemma cancelling_flag_up sid k c batch d s :
  is_cancelled (ctx_of s k) = true ->
  cancelling sid k c batch d false s -> cancelling sid k c batch d true s.
Proof.
  intros Hcan [K1 K2 K3 K4 K5 K6 K7 K8 K9 K10]. constructor; try done.
  - eapply Forall_impl; [exact K5|]. intros [st pc]. simpl.
    destruct pc; simpl; try done. intros (? & ? & _). auto.
  - intros t Ht. destruct (K6 t Ht) as [?|[?|[? _]]]; auto. done.
Qed.

Lemma cancelling_mono sid k c batch d d' b s :
  (forall t, t ∈ d -> t ∈ d') ->
  cancelling sid k c batch d b s -> cancelling sid k c batch d' b s.
Proof.
  intros Hd [K1 K2 K3 K4 K5 K6 K7 K8 K9 K10]. constructor; try done.
  - eapply Forall_impl; [exact K5|]. intros [st pc]. by apply pc_cancelling_mono.
  - intros t Ht. destruct (K6 t Ht) as [?|[?|?]]; auto.
  - intros t Ht. by apply Hd, K7.
  - destruct K10 as (st & Hst & Hcc). exists st. split; [done|].
    by eapply call_cancelling_mono.
Qed.

Lemma queued_tasks_signals q n :
  omap (fun item : option (string * TaskRef) => snd <$> item) (q ++ replicate n None)
  = omap (fun item : option (string * TaskRef) => snd <$> item) q.
Proof.
  rewrite omap_app.
  assert (omap (fun item : option (string * TaskRef) => snd <$> item) (replicate n None)
          = []) as ->; [|by rewrite app_nil_r].
  induction n as [|n IH]; simpl; [done|]. exact IH.
Qed.

Lemma cancel_session_cancelled sid s k :
  (is_cancelled (ctx_of s k) = true ->
   is_cancelled (ctx_of (cancel_session sid s) k) = true)
  /\ (active_sessions s !! sid = Some k -> k < length (contexts s) ->
      is_cancelled (ctx_of (cancel_session sid s) k) = true).
Proof.
  unfold cancel_session. destruct (active_sessions s !! sid) as [c0|]; [|done].
  split.
  - intros H. destruct (decide (c0 = k)) as [->|Hne].
    + unfold ctx_of, update_ctx in *. simpl. rewrite list_lookup_alter_eq.
      by destruct (contexts s !! k).
    + by rewrite ctx_of_update_ctx_ne.
  - intros [= ->] Hk. rewrite ctx_of_update_ctx_eq; [done|].
    by apply lookup_lt_is_Some.
Qed.

Lemma cancel_all_cancelled (l : list (string * CtxRef)) s k :
  is_cancelled (ctx_of s k) = true ->
  is_cancelled (ctx_of (foldr (fun kv acc => cancel_session kv.1 acc) s l) k) = true.
Proof.
  intros H. induction l as [|kv l IH]; simpl; [done|].
  by apply (proj1 (cancel_session_cancelled kv.1 _ k)).
Qed.

Lemma task_of_same s s' t : objects s' = objects s -> task_of s' t = task_of s t.
Proof. intros E. unfold task_of. by rewrite E. Qed.

Lemma resume_call_cancelling sid k c batch d b c' timed_out s :
  cancelling sid k c batch d b s ->
  cancelling sid k c batch d b (resume_call c' timed_out s).
Proof.
  intros Hs. pose proof Hs as [K1 K2 K3 K4 K5 K6 K7 K8 K9 K10]. unfold resume_call.
  destruct (calls s !! c') as [st0|] eqn:Hc'; [|done].
  assert (c' < length (calls s)) as Hlt by (by eapply lookup_lt_Some).
  assert (pending_of st0 = []) as Hp0.
  { specialize (K9 c'). unfold pending_at in K9. by rewrite Hc' in K9. }
  assert (forall k0 sid0 total0 st s',
            wait_loop k0 sid0 total0 timed_out s = (st, s') ->
            (c' = c -> k0 = k) ->
            cancelling sid k c batch d b (with_calls (<[c':=st]> (calls s')) s')) as Hwait.
  { intros k0 sid0 total0 st s' Hwl Hk0.
    destruct (wait_loop_spec k0 sid0 total0 timed_out s)
      as ((Ec & Ea & Ew & El) & E5 & Hcase).
    destruct (wait_loop_backlog k0 sid0 total0 timed_out s) as (E6 & _ & _).
    pose proof (wait_loop_objects k0 sid0 total0 timed_out s) as Eo.
    rewrite Hwl in *. simpl in *.
    set (s'' := with_calls (<[c':=st]> (calls s')) s').
    constructor.
    - change (active_sessions s'') with (active_sessions s'). by rewrite Ea.
    - change (contexts s'') with (contexts s'). by rewrite Ec.
    - change (ctx_of s'' k) with (ctx_of s' k). by rewrite (ctx_of_same s s').
    - change (task_queue s'') with (task_queue s'). by rewrite E5.
    - change (workers s'') with (workers s'). by rewrite Ew.
    - intros t Ht. change (task_of s'' t) with (task_of s' t).
      rewrite (task_of_same s s') by done.
      destruct (K6 t Ht) as [?|[[Hp Hwt]|?]]; [by left| |by right; right].
      right. left. split; [done|].
      destruct Hwt as [Hwt|(w0 & st1 & sid1 & Hw0)].
      + left. unfold queued_tasks in *. change (task_queue s'') with (task_queue s').
        by rewrite E5.
      + right. exists w0, st1, sid1. change (workers s'') with (workers s').
        by rewrite Ew.
    - change (ctx_of s'' k) with (ctx_of s' k). by rewrite (ctx_of_same s s').
    - change (objects s'') with (objects s'). by rewrite Eo.
    - intros c0. unfold s''. rewrite pending_at_insert by (by rewrite El).
      case_decide; [done|]. unfold pending_at. rewrite El. apply K9.
    - destruct K10 as (st1 & Hst1 & Hcc).
      change (calls s'') with (<[c':=st]> (calls s')). rewrite El.
      destruct (decide (c' = c)) as [->|Hne].
      + exists st. split; [by apply list_lookup_insert_eq|].
        specialize (Hk0 eq_refl). subst k0.
        destruct Hcase as [->|[->|(how & _ & ->)]]; simpl; try done.
      + exists st1. split; [by rewrite list_lookup_insert_ne|done]. }
  destruct st0 as [k0 sid0 pending total0|k0 sid0 total0|how res|e]; try done.
  - simpl in Hp0. subst pending. simpl.
    destruct (wait_loop k0 sid0 total0 timed_out s) as [st s'] eqn:Hwl.
    apply (Hwait k0 sid0 total0); [done|]. intros ->.
    destruct K10 as (st1 & Hst1 & Hcc). rewrite Hc' in Hst1. by simplify_eq.
  - destruct (wait_loop k0 sid0 total0 timed_out s) as [st s'] eqn:Hwl.
    apply (Hwait k0 sid0 total0); [done|]. intros ->.
    destruct K10 as (st1 & Hst1 & Hcc). rewrite Hc' in Hst1. by simplify_eq.
Qed.

Lemma Forall_signals sid batch n :
  Forall (item_cancelling sid batch) (replicate n None).
Proof. apply Forall_forall. intros x Hx. by apply elem_of_replicate in Hx as [-> _]. Qed.

Lemma step_cancelling sid k c batch d b s e :
  quiet_event e = true ->
  cancelling sid k c batch d b s ->
  cancelling sid k c batch (d ++ (if b then [] else dequeued s e)) b (step s e).
Proof.
  intros He Hs. destruct e; try done;
    try (cbn [dequeued]; rewrite app_if_nil).
  - (* NewTask *)
    simpl.
    refine (cancelling_frame sid k c batch d b s _ [] _ _ _ _ _ _ _ _ _ _ _ _ Hs);
      try done.
    + simpl. by rewrite app_nil_r.
    + intros t0 Ht. unfold task_of. simpl. by rewrite lookup_app_l.
    + simpl. rewrite length_app. lia.
    + apply Hs.
  - (* Initialize *)
    simpl.
    refine (cancelling_frame sid k c batch d b s (initialize s)
              ((fun i => (mkStats i 0 0 None, WGet)) <$> seq 0 (max_workers s))
              _ _ _ _ _ _ _ _ _ _ _ _ Hs);
      try done.
    + apply Forall_fmap, Forall_forall. done.
    + apply Hs.
  - by apply resume_call_cancelling.
  - by apply step_worker_cancelling.
  - (* CancelSession *)
    simpl. destruct (cancel_session_spec sid0 s) as (E1 & E2 & E3 & E4 & E5 & E6).
    destruct (cancel_session_records sid0 s k) as (F1 & F2 & F3).
    refine (cancelling_frame sid k c batch d b s _ [] E2 E6 _ _ E4 _ _ F1 F2 _ _ _ Hs).
    + by rewrite app_nil_r.
    + done.
    + intros t _. by apply task_of_same.
    + by rewrite E5.
    + apply cancel_session_cancelled.
    + unfold queued_tasks. by rewrite E1.
    + rewrite E1. apply Hs.
  - (* Cleanup *)
    simpl. unfold cleanup.
    set (s1 := with_flags _ _ _).
    pose proof (cancel_all_spec (map_to_list (active_sessions s1)) s1)
      as (E1 & E2 & E3 & E4 & E5 & E6).
    pose proof (cancel_all_records (map_to_list (active_sessions s1)) s1 k)
      as (R1 & R2 & R3).
    pose proof (cancel_all_cancelled (map_to_list (active_sessions s1)) s1 k) as R4.
    set (s2 := foldr _ _ _) in *.
    destruct (put_signals_spec (shutdown_puts s2 + length (workers s2)) s2)
      as (m & F1 & (Fc & Fa & Fw & Fl) & F3).
    refine (cancelling_frame sid k c batch d b s _ [] _ _ _ _ _ _ _ _ _ _ _ _ Hs).
    + by rewrite Fa, E2.
    + by rewrite Fc, E6.
    + by rewrite Fw, E3, app_nil_r.
    + done.
    + by rewrite Fl, E4.
    + intros t _. apply task_of_same. by rewrite F3, E5.
    + by rewrite F3, E5.
    + by rewrite (ctx_of_same s2 _ k Fc), R1.
    + by rewrite (ctx_of_same s2 _ k Fc), R2.
    + rewrite (ctx_of_same s2 _ k Fc). exact R4.
    + unfold queued_tasks. by rewrite F1, queued_tasks_signals, E1.
    + rewrite F1, E1. apply Forall_app. split; [apply Hs|apply Forall_signals].
  - (* ResumeCleanup *)
    simpl.
    destruct (put_signals_spec (shutdown_puts s) s) as (m & F1 & (Fc & Fa & Fw & Fl) & F3).
    refine (cancelling_frame sid k c batch d b s _ [] _ _ _ _ _ _ _ _ _ _ _ _ Hs).
    + done.
    + by rewrite Fc.
    + by rewrite Fw, app_nil_r.
    + done.
    + done.
    + intros t _. by apply task_of_same.
    + by rewrite F3.
    + by rewrite (ctx_of_same s _ k Fc).
    + by rewrite (ctx_of_same s _ k Fc).
    + by rewrite (ctx_of_same s _ k Fc).
    + unfold queued_tasks. by rewrite F1, queued_tasks_signals.
    + rewrite F1. apply Forall_app. split; [apply Hs|apply Forall_signals].
Qed.

Lemma run_cancelling_before sid k c batch d evs s :
  undisturbed evs ->
  cancelling sid k c batch d false s ->
  cancelling sid k c batch (d ++ dispatch_order s evs) false (run s evs).
Proof.
  unfold undisturbed. revert s d.
  induction evs as [|e evs IH]; intros s d Hevs Hs; simpl.
  - by rewrite app_nil_r.
  - simpl in Hevs. apply andb_prop in Hevs as [He Hevs].
    rewrite app_assoc. apply IH; [done|].
    by apply (step_cancelling sid k c batch d false).
Qed.

Lemma run_cancelling_after sid k c batch d evs s :
  undisturbed evs ->
  cancelling sid k c batch d true s ->
  cancelling sid k c batch d true (run s evs).
Proof.
  unfold undisturbed. revert s.
  induction evs as [|e evs IH]; intros s Hevs Hs; simpl; [done|].
  simpl in Hevs. apply andb_prop in Hevs as [He Hevs].
  apply IH; [done|].
  pose proof (step_cancelling sid k c batch d true s e He Hs) as H.
  by rewrite app_nil_r in H.
Qed.

Lemma put_all_room sid pending s :
  has_room s (length pending) -> (put_all sid pending s).2 = [].
Proof.
  revert s. induction pending as [|t rest IH]; intros s Hroom; simpl; [done|].
  assert (queue_full (update_task (set_status PENDING) t s) = false) as ->.
  { unfold queue_full. simpl. unfold has_room in Hroom. simpl in Hroom.
    destruct (Z.ltb_spec 0 (queue_size s)); [|done].
    destruct (Z.leb_spec (queue_size s) (Z.of_nat (length (task_queue s)))); [lia|done]. }
  apply IH. unfold has_room in *. simpl in *. rewrite length_app. simpl.
  destruct Hroom as [?|?]; [by left|right; lia].
Qed.

Lemma put_all_objects_length sid pending s :
  length (objects (put_all sid pending s).1) = length (objects s).
Proof.
  revert s. induction pending as [|t rest IH]; intros s; simpl; [done|].
  case_match; simpl; [by rewrite length_alter|].
  rewrite IH. simpl. by rewrite length_alter.
Qed.

Lemma put_all_pending sid pending s t :
  (put_all sid pending s).2 = [] ->
  t ∈ pending -> t < length (objects s) ->
  status (task_of (put_all sid pending s).1 t) = PENDING.
Proof.
  revert s. induction pending as [|t1 rest IH]; intros s Hdone Ht Hvalid; simpl in *.
  - by apply elem_of_nil in Ht.
  - destruct (queue_full (update_task (set_status PENDING) t1 s)); [done|].
    set (s1 := enqueue (Some (sid, t1)) (update_task (set_status PENDING) t1 s)) in *.
    destruct (decide (t = t1)) as [->|Hne].
    + destruct (put_all_only_sets sid rest s1 t1) as [E|E]; [|done].
      rewrite E. unfold task_of. simpl. rewrite list_lookup_alter_eq.
      apply lookup_lt_is_Some in Hvalid as [x ->]. done.
    + apply IH; [done| |].
      * apply elem_of_cons in Ht as [?|?]; done.
      * simpl. by rewrite length_alter.
Qed.

Lemma call_cancelling_init sid batch cb timed_out s :
  is_initialized s = true ->
  idle s ->
  has_room s (length batch) ->
  (forall t, t ∈ batch -> t < length (objects s)) ->
  cancelling sid (length (contexts s)) (length (calls s)) batch [] false
    (step s (Call batch sid cb timed_out)).
Proof.
  intros Hinit [I1 I2 I3] Hroom Hvalid. simpl.
  unfold execute_agents_parallel. rewrite Hinit.
  set (k := length (contexts s)).
  set (s2 := with_active_sessions _ _).
  set (sorted_tasks := sorted_desc _ batch).
  assert (sorted_tasks ≡ₚ batch) as Hperm by apply sorted_desc_perm.
  assert (has_room s2 (length sorted_tasks)) as Hroom2.
  { unfold has_room in *. simpl. by rewrite (Permutation_length Hperm). }
  pose proof (put_all_room sid sorted_tasks s2 Hroom2) as Hdone.
  destruct (put_all_spec sid sorted_tasks s2) as (moved & E1 & E2 & (Ec & Ea & Ew & El)).
  pose proof (put_all_objects_length sid sorted_tasks s2) as Eo.
  pose proof (fun t => put_all_pending sid sorted_tasks s2 t Hdone) as Hpend.
  rewrite Hdone, app_nil_r in E1. subst moved.
  destruct (put_all sid sorted_tasks s2) as [s3 pending]. simpl in *. subst pending.
  simpl.
  destruct (wait_loop_spec k sid (length batch) timed_out s3)
    as ((Fc & Fa & Fw & Fl) & F5 & Hcase).
  destruct (wait_loop_backlog k sid (length batch) timed_out s3) as (F6 & _ & _).
  pose proof (wait_loop_objects k sid (length batch) timed_out s3) as Fo.
  destruct (wait_loop k sid (length batch) timed_out s3) as [st s4]. simpl in *.
  set (s5 := with_calls (calls s4 ++ [st]) s4).
  assert (ctx_of s3 k = mkCtx sid batch [] [] false cb) as Ek.
  { unfold ctx_of. rewrite Ec. simpl. by rewrite list_lookup_middle. }
  assert (ctx_of s5 k = mkCtx sid batch [] [] false cb) as Ek5.
  { rewrite <- Ek. by apply ctx_of_same. }
  assert (queued_tasks s5 = sorted_tasks) as Hqueued.
  { unfold queued_tasks. change (task_queue s5) with (task_queue s4).
    rewrite F5, E2, I1. simpl. clear. induction sorted_tasks as [|t l IH]; csimpl; [done|].
    by rewrite IH. }
  constructor.
  - change (active_sessions s5) with (active_sessions s4). rewrite Fa, Ea. simpl.
    apply lookup_insert_eq.
  - change (contexts s5) with (contexts s4). rewrite Fc, Ec. simpl.
    rewrite length_app. simpl. unfold k. lia.
  - done.
  - change (task_queue s5) with (task_queue s4). rewrite F5, E2, I1. simpl.
    apply Forall_fmap, Forall_forall. intros t Ht. simpl. split; [done|].
    by rewrite <- Hperm.
  - change (workers s5) with (workers s4). rewrite Fw, Ew. simpl.
    eapply Forall_impl; [exact I2|]. intros [st0 pc]. simpl. by intros [-> | ->].
  - intros t Ht. right. left. split.
    + change (task_of s5 t) with (task_of s4 t). rewrite (task_of_same s3 s4) by done.
      apply Hpend; [by rewrite Hperm|]. simpl. by apply Hvalid.
    + left. rewrite Hqueued. by rewrite Hperm.
  - rewrite Ek5. simpl. intros t Ht. by apply elem_of_nil in Ht.
  - intros t Ht. change (objects s5) with (objects s4). rewrite Fo, Eo. simpl.
    by apply Hvalid.
  - intros c'. unfold pending_at. change (calls s5) with (calls s4 ++ [st]).
    rewrite Fl, El. simpl.
    destruct (decide (c' < length (calls s))) as [Hlt|Hge].
    + rewrite lookup_app_l by done. apply I3.
    + destruct (decide (c' = length (calls s))) as [->|Hne].
      * rewrite list_lookup_middle by done. simpl. exact F6.
      * rewrite lookup_ge_None_2; [done|]. rewrite length_app. simpl. lia.
  - exists st. split.
    + change (calls s5) with (calls s4 ++ [st]). rewrite Fl, El. simpl.
      by apply list_lookup_middle.
    + destruct Hcase as [->|[->|(how & _ & ->)]]; simpl; try done.
      rewrite Ek. simpl. intros t Ht. by apply elem_of_nil in Ht.
Qed.

(** C8 (amended). A batch is submitted to an initialised, idle engine whose
    queue takes it whole; the session is then cancelled, no other batch
    being submitted and no retention timer firing.  Let [dispatched] be the
    tasks workers took from the queue before the cancellation (at most one
    when a single worker is cancelled at once).  From then on every other
    task of the batch is PENDING while it waits and CANCELLED once a worker
    has looked at it; none of them is handed to an agent or recorded in the
    lists of the session, and the list returned by the call holds
    dispatched tasks only. *)
Theorem C8_cancelled_batch (s0 : Engine) (batch : list TaskRef) (sid : string)
    (cb : option Callback) (timed_out : bool) (pre post : list Event) :
  is_initialized s0 = true ->
  idle s0 ->
  has_room s0 (length batch) ->
  (forall t, t ∈ batch -> t < length (objects s0)) ->
  undisturbed pre ->
  undisturbed post ->
  cancelled_outcome
    (run (step s0 (Call batch sid cb timed_out)) (pre ++ CancelSession sid :: post))
    (length (contexts s0)) (length (calls s0)) batch
    (dispatch_order (step s0 (Call batch sid cb timed_out)) pre).
Proof.
  intros Hinit Hidle Hroom Hvalid Hpre Hpost.
  set (s1 := step s0 (Call batch sid cb timed_out)).
  set (k := length (contexts s0)). set (c := length (calls s0)).
  set (d := dispatch_order s1 pre).
  assert (cancelling sid k c batch d true (run s1 (pre ++ CancelSession sid :: post)))
    as [K1 K2 K3 K4 K5 K6 K7 K8 K9 K10].
  { unfold run. rewrite foldl_app. simpl. apply run_cancelling_after; [done|].
    pose proof (run_cancelling_before sid k c batch [] pre s1 Hpre
                  (call_cancelling_init sid batch cb timed_out s0 Hinit Hidle Hroom Hvalid))
      as Hbefore.
    simpl in Hbefore. fold d in Hbefore.
    pose proof (step_cancelling sid k c batch d false _ (CancelSession sid) eq_refl Hbefore)
      as Hstep.
    rewrite app_nil_r in Hstep.
    apply cancelling_flag_up; [|exact Hstep].
    simpl. apply cancel_session_cancelled; apply Hbefore. }
  constructor.
  - intros t Ht Hnd. destruct (K6 t Ht) as [?|[?|[_ ?]]]; [done|by left|by right].
  - intros w st sid' t k' agent input Hw.
    rewrite Forall_lookup in K5. apply (K5 _ _ Hw).
  - exact K7.
  - intros how result Hres. destruct K10 as (st & Hst & Hcc).
    rewrite Hres in Hst. simplify_eq. exact Hcc.
Qed.

Lemma C8_cancelled_batch_witness :
  let s0 := ten_engine demo_registry in
  let pre := [ResumeWorker 0] in
  let post := replicate 11 (ResumeWorker 0) ++ [ResumeCall 0 false] in
  is_initialized s0 = true
  /\ idle s0
  /\ has_room s0 (length ten_batch)
  /\ (forall t, t ∈ ten_batch -> t < length (objects s0))
  /\ undisturbed pre
  /\ undisturbed post
  /\ cancelled_outcome
       (run (step s0 (Call ten_batch "session-1" None false))
            (pre ++ CancelSession "session-1" :: post))
       (length (contexts s0)) (length (calls s0)) ten_batch
       (dispatch_order (step s0 (Call ten_batch "session-1" None false)) pre)
  /\ dispatch_order (step s0 (Call ten_batch "session-1" None false)) pre = [0].
Proof.
  intros s0 pre post.
  assert (is_initialized s0 = true) as H1 by reflexivity.
  assert (idle s0) as H2.
  { constructor.
    - reflexivity.
    - vm_compute. repeat constructor.
    - intros c. reflexivity. }
  assert (has_room s0 (length ten_batch)) as H3.
  { right. vm_compute. intros H. discriminate H. }
  assert (forall t, t ∈ ten_batch -> t < length (objects s0)) as H4.
  { intros t Ht. apply elem_of_seq in Ht.
    change (length (objects s0)) with 10. lia. }
  assert (undisturbed pre) as H5 by reflexivity.
  assert (undisturbed post) as H6 by reflexivity.
  split; [exact H1|]. split; [exact H2|]. split; [exact H3|]. split; [exact H4|].
  split; [exact H5|]. split; [exact H6|]. split.
  - exact (C8_cancelled_batch s0 ten_batch "session-1" None false pre post
             H1 H2 H3 H4 H5 H6).
  - vm_compute. reflexivity.
Defined.

(** Counterexample to C8 as stated.  Ten tasks on the one-worker engine,
    the session cancelled before the worker runs, the worker then going
    through the queue, the caller then polling: the call returns the empty
    list, so none of the tasks that were not dispatched appears in what is
    returned. *)
Lemma C8_counterexample :
  ~ others_returned_cancelled
      (run (step (ten_engine placeholder_registry)
                 (Call ten_batch "session-1" None false))
           (CancelSession "session-1"
            :: replicate 10 (ResumeWorker 0) ++ [ResumeCall 0 false]))
      0 ten_batch [].
Proof.
  intros (how & result & Hc & Hall).
  vm_compute in Hc. injection Hc as <- <-.
  destruct (Hall 5) as [Hin _].
  - apply elem_of_seq. lia.
  - apply not_elem_of_nil.
  - by apply elem_of_nil in Hin.
Qed.

(** The same run, looked at directly: the call has returned the empty list
    through the cancellation test, and all ten tasks are CANCELLED without
    being in either list of the session. *)
Example cancelled_ten_tasks :
  let s := run (step (ten_engine placeholder_registry)
                     (Call ten_batch "session-1" None false))
               (CancelSession "session-1"
                :: replicate 10 (ResumeWorker 0) ++ [ResumeCall 0 false]) in
  calls s !! 0 = Some (CReturned ByCancellation [])
  /\ (fun t => status (task_of s t)) <$> ten_batch = replicate 10 CANCELLED
  /\ completed_tasks (ctx_of s 0) ++ failed_tasks (ctx_of s 0) = [].
Proof. by vm_compute. Qed.

(** * Further properties of the engine *)

(** ** Invariants of a run *)

Lemma run_invariant (P : Engine -> Prop) :
  (forall s e, P s -> P (step s e)) -> forall evs s, P s -> P (run s evs).
Proof.
  intros Hstep evs. induction evs as [|e evs IH]; intros s Hs; simpl; [done|].
  by apply IH, Hstep.
Qed.

Lemma run_app s evs1 evs2 : run s (evs1 ++ evs2) = run (run s evs1) evs2.
Proof. unfold run. apply foldl_app. Qed.

(** ** The components each operation writes *)

Lemma put_all_shape sid pending s :
  exists o q, (put_all sid pending s).1 = with_task_queue q (with_objects o s).
Proof.
  revert s. induction pending as [|t rest IH]; intros s; simpl.
  - exists (objects s), (task_queue s). by destruct s.
  - case_match; simpl.
    + exists (alter (set_status PENDING) t (objects s)), (task_queue s). by destruct s.
    + destruct (IH (enqueue (Some (sid, t)) (update_task (set_status PENDING) t s)))
        as (o & q & ->).
      by exists o, q.
Qed.

Lemma resume_put_shape sid pending s :
  exists o q, (resume_put sid pending s).1 = with_task_queue q (with_objects o s).
Proof.
  destruct pending as [|t rest]; simpl.
  - exists (objects s), (task_queue s). by destruct s.
  - case_match; simpl.
    + exists (objects s), (task_queue s). by destruct s.
    + destruct (put_all_shape sid rest (enqueue (Some (sid, t)) s)) as (o & q & ->).
      by exists o, q.
Qed.

Lemma wait_loop_shape k sid total timed_out s :
  ((wait_loop k sid total timed_out s).1 = CSleep k sid total
   /\ (wait_loop k sid total timed_out s).2 = s)
  \/ (finished (wait_loop k sid total timed_out s).1
      /\ (wait_loop k sid total timed_out s).2
         = with_cleanup_timers (cleanup_timers s ++ [sid]) s).
Proof.
  unfold wait_loop, after_wait.
  destruct (wait_check (ctx_of s k) total timed_out) as [how|]; [|by left].
  right. by destruct how, total.
Qed.

Lemma after_put_shape k sid total timed_out r :
  (serves sid (after_put k sid total timed_out r).1
   /\ (after_put k sid total timed_out r).2 = r.1)
  \/ (finished (after_put k sid total timed_out r).1
      /\ (after_put k sid total timed_out r).2
         = with_cleanup_timers (cleanup_timers r.1 ++ [sid]) r.1).
Proof.
  destruct r as [s [|t rest]]; simpl; [|by left].
  destruct (wait_loop_shape k sid total timed_out s) as [[E1 E2]|[E1 E2]].
  - left. by rewrite E1, E2.
  - right. by rewrite E2.
Qed.

Lemma execute_agents_parallel_shape batch sid cb timed_out s :
  let r := execute_agents_parallel batch sid cb timed_out s in
  (is_initialized s = false /\ r = (CRaised (RuntimeError not_initialized), s))
  \/ (is_initialized s = true
      /\ exists o q,
           let s1 :=
             with_task_queue q
               (with_objects o
                  (with_active_sessions (<[sid := length (contexts s)]> (active_sessions s))
                     (with_contexts (contexts s ++ [mkCtx sid batch [] [] false cb]) s))) in
           (serves sid r.1 /\ r.2 = s1)
           \/ (finished r.1
               /\ r.2 = with_cleanup_timers (cleanup_timers s ++ [sid]) s1)).
Proof.
  intros r. subst r. unfold execute_agents_parallel.
  destruct (is_initialized s); [right|by left]. split; [done|].
  set (s2 := with_active_sessions _ _).
  set (sorted_tasks := sorted_desc _ batch).
  destruct (put_all_shape sid sorted_tasks s2) as (o & q & E).
  exists o, q.
  destruct (after_put_shape (length (contexts s)) sid (length batch) timed_out
              (put_all sid sorted_tasks s2)) as [[E1 E2]|[E1 E2]].
  - left. split; [done|]. by rewrite E2, E.
  - right. split; [done|]. by rewrite E2, E.
Qed.

Lemma resume_call_shape c timed_out s :
  match calls s !! c with
  | Some (CPut _ sid _ _) | Some (CSleep _ sid _) =>
      exists st o q,
        let s1 := with_task_queue q (with_objects o s) in
        (serves sid st /\ resume_call c timed_out s = with_calls (<[c := st]> (calls s)) s1)
        \/ (finished st
            /\ resume_call c timed_out s
               = with_calls (<[c := st]> (calls s))
                   (with_cleanup_timers (cleanup_timers s ++ [sid]) s1))
  | _ => resume_call c timed_out s = s
  end.
Proof.
  unfold resume_call.
  destruct (calls s !! c) as [[k sid pending total|k sid total|how res|e]|]; try done.
  - destruct (resume_put_shape sid pending s) as (o & q & E).
    destruct (after_put_shape k sid total timed_out (resume_put sid pending s))
      as [[E1 E2]|[E1 E2]];
      destruct (after_put k sid total timed_out (resume_put sid pending s)) as [st s'];
      simpl in *; exists st, o, q; [left|right]; (split; [done|]);
      rewrite E2, E; done.
  - destruct (wait_loop_shape k sid total timed_out s) as [[E1 E2]|[E1 E2]];
      destruct (wait_loop k sid total timed_out s) as [st s'];
      simpl in *; exists st, (objects s), (task_queue s); [left|right];
      (split; [by rewrite ?E1|]); rewrite E2; by destruct s.
Qed.

Lemma resume_worker_shape st pc s :
  exists n q c o,
    (resume_worker st pc s).2
    = with_semaphore n (with_task_queue q (with_contexts c (with_objects o s))).
Proof.
  set (r := (resume_worker st pc s).2).
  exists (semaphore r), (task_queue r), (contexts r), (objects r).
  assert (max_workers r = max_workers s /\ queue_size r = queue_size s
          /\ registry r = registry s /\ active_sessions r = active_sessions s
          /\ workers r = workers s /\ is_initialized r = is_initialized s
          /\ is_running r = is_running s /\ calls r = calls s
          /\ cleanup_timers r = cleanup_timers s
          /\ shutdown_puts r = shutdown_puts s) as H.
  { subst r.
    unfold resume_worker, acquire, enter_section, after_execute, leave_section,
      except_block.
    repeat case_match; simplify_eq/=; done. }
  destruct r, s. simpl in *. destruct H as (?&?&?&?&?&?&?&?&?&?). by subst.
Qed.

Lemma cancel_session_shape sid s :
  exists c, cancel_session sid s = with_contexts c s.
Proof.
  unfold cancel_session. case_match.
  - by eexists.
  - exists (contexts s). by destruct s.
Qed.

Lemma cancel_all_shape (l : list (string * CtxRef)) s :
  exists c, foldr (fun kv acc => cancel_session kv.1 acc) s l = with_contexts c s.
Proof.
  induction l as [|kv l IH]; simpl.
  - exists (contexts s). by destruct s.
  - destruct IH as (c & ->).
    destruct (cancel_session_shape kv.1 (with_contexts c s)) as (c' & ->).
    by exists c'.
Qed.

Lemma put_signals_shape n s :
  exists m q, put_signals n s = with_shutdown_puts m (with_task_queue q s).
Proof.
  revert s. induction n as [|n IH]; intros s; simpl.
  - exists 0, (task_queue s). by destruct s.
  - case_match.
    + exists (S n), (task_queue s). by destruct s.
    + destruct (IH (enqueue None s)) as (m & q & ->). by exists m, q.
Qed.

Lemma cleanup_shape s :
  exists c m q,
    cleanup s
    = with_shutdown_puts m
        (with_task_queue q (with_contexts c (with_flags (is_initialized s) false s))).
Proof.
  unfold cleanup.
  destruct (cancel_all_shape
              (map_to_list (active_sessions (with_flags (is_initialized s) false s)))
              (with_flags (is_initialized s) false s)) as (c & ->).
  destruct (put_signals_shape
              (shutdown_puts (with_contexts c (with_flags (is_initialized s) false s))
               + length (workers (with_contexts c (with_flags (is_initialized s) false s))))
              (with_contexts c (with_flags (is_initialized s) false s))) as (m & q & ->).
  by exists c, m, q.
Qed.

(** ** Priority order of a batch *)




(** The calls other events leave alone. *)
Lemma step_calls s e :
  (forall c timed_out, e <> ResumeCall c timed_out) ->
  forall c, c < length (calls s) -> calls (step s e) !! c = calls s !! c.
Proof.
  intros He c Hc. destruct e; simpl.
  - done.
  - done.
  - pose proof (execute_agents_parallel_shape batch sid cb timed_out s) as H.
    destruct (execute_agents_parallel batch sid cb timed_out s) as [st s'].
    simpl in *.
    assert (calls s' = calls s) as ->.
    { destruct H as [[_ [= _ ->]]|[_ (o & q & [[_ ->]|[_ ->]])]]; done. }
    by rewrite lookup_app_l.
  - by destruct (He c0 timed_out).
  - unfold step_worker. destruct (workers s !! w) as [[st pc]|]; [|done].
    destruct (resume_worker_queue st pc s) as [E _].
    destruct (resume_worker st pc s) as [[st' pc'] s']. simpl in *. by rewrite E.
  - destruct (cancel_session_backlog sid s) as [_ E]. by rewrite E.
  - unfold cleanup_session. by case_match.
  - by destruct (cleanup_shape s) as (k & m & q & ->).
  - by destruct (put_signals_shape (shutdown_puts s) s) as (m & q & ->).
Qed.

Lemma resume_call_other c c' timed_out s :
  c <> c' -> calls (resume_call c' timed_out s) !! c = calls s !! c.
Proof.
  intros Hne. pose proof (resume_call_shape c' timed_out s) as H.
  destruct (calls s !! c') as [[k sid pending total|k sid total|how res|e]|];
    try (by rewrite H);
    destruct H as (st & o & q & [[_ ->]|[_ ->]]); simpl;
    by rewrite list_lookup_insert_ne.
Qed.









(** The batch [LOW, CRITICAL, NORMAL] on the idle one-worker engine: the
    worker takes the CRITICAL task, then the NORMAL one, then the LOW one. *)
Example dispatch_low_critical_normal :
  let s1 := demo_submitted demo_registry None in
  let order := dispatch_order s1 (replicate 6 (ResumeWorker 0)) in
  queued_tasks s1 = [1; 2; 0]
  /\ order = [1; 2; 0]
  /\ (fun t => priority (task_of s1 t)) <$> order = [CRITICAL; NORMAL; LOW].
Proof. by vm_compute. Qed.

(** ** The configuration is never written *)

Lemma put_all_queue_size sid pending s :
  queue_size (put_all sid pending s).1 = queue_size s.
Proof.
  revert s. induction pending as [|t rest IH]; intros s; simpl; [done|].
  case_match; simpl; [done|]. by rewrite IH.
Qed.

Lemma resume_put_queue_size sid pending s :
  queue_size (resume_put sid pending s).1 = queue_size s.
Proof.
  destruct pending as [|t rest]; simpl; [done|].
  case_match; simpl; [done|]. by rewrite put_all_queue_size.
Qed.

Lemma after_put_queue_size k sid total timed_out r :
  queue_size (after_put k sid total timed_out r).2 = queue_size r.1.
Proof.
  destruct r as [s [|t rest]]; simpl; [|done].
  unfold wait_loop, after_wait. by repeat case_match.
Qed.

Lemma step_queue_size s e : queue_size (step s e) = queue_size s.
Proof.
  destruct e; simpl; try done.
  - pose proof (execute_agents_parallel_shape batch sid cb timed_out s) as H.
    simpl in H. destruct (execute_agents_parallel batch sid cb timed_out s) as [st s'].
    destruct H as [[_ [= _ ->]]|(_ & o & q & [[_ E]|[_ E]])]; simpl in *; by subst.
  - pose proof (resume_call_shape c timed_out s) as H.
    destruct (calls s !! c) as [[k sid pending total|k sid total|how res|e]|];
      try (by rewrite H);
      destruct H as (st & o & q & [[_ ->]|[_ ->]]); done.
  - unfold step_worker. destruct (workers s !! w) as [[st pc]|]; [|done].
    destruct (resume_worker_shape st pc s) as (n & q & c & o & E).
    destruct (resume_worker st pc s) as [[st' pc'] s']. simpl in *. by subst.
  - by destruct (cancel_session_shape sid s) as (c & ->).
  - unfold cleanup_session. by case_match.
  - by destruct (cleanup_shape s) as (c & m & q & ->).
  - by destruct (put_signals_shape (shutdown_puts s) s) as (m & q & ->).
Qed.

Lemma run_queue_size evs s : queue_size (run s evs) = queue_size s.
Proof.
  revert s. induction evs as [|e evs IH]; intros s; simpl; [done|].
  by rewrite IH, step_queue_size.
Qed.

(** ** The queue respects its [maxsize] *)

Lemma within_maxsize_same s s' :
  queue_size s' = queue_size s -> task_queue s' = task_queue s ->
  within_maxsize s -> within_maxsize s'.
Proof. unfold within_maxsize. by intros -> ->. Qed.

Lemma within_maxsize_enqueue item s :
  queue_full s = false -> within_maxsize (enqueue item s).
Proof.
  unfold queue_full, within_maxsize. simpl. rewrite length_app. simpl.
  intros Hfull Hpos.
  destruct (Z.ltb_spec 0 (queue_size s)); [|lia].
  destruct (Z.leb_spec (queue_size s) (Z.of_nat (length (task_queue s)))); [done|lia].
Qed.

Lemma put_all_within sid pending s :
  within_maxsize s -> within_maxsize (put_all sid pending s).1.
Proof.
  revert s. induction pending as [|t rest IH]; intros s Hs; simpl; [done|].
  destruct (queue_full (update_task (set_status PENDING) t s)) eqn:Hfull; simpl; [done|].
  apply IH. by apply within_maxsize_enqueue.
Qed.

Lemma resume_put_within sid pending s :
  within_maxsize s -> within_maxsize (resume_put sid pending s).1.
Proof.
  destruct pending as [|t rest]; simpl; [done|]. intros Hs.
  destruct (queue_full s) eqn:Hfull; simpl; [done|].
  by apply put_all_within, within_maxsize_enqueue.
Qed.

Lemma put_signals_within n s :
  within_maxsize s -> within_maxsize (put_signals n s).
Proof.
  revert s. induction n as [|n IH]; intros s Hs; simpl; [done|].
  destruct (queue_full s) eqn:Hfull; simpl; [done|].
  by apply IH, within_maxsize_enqueue.
Qed.

Lemma after_put_within k sid total timed_out r :
  within_maxsize r.1 -> within_maxsize (after_put k sid total timed_out r).2.
Proof.
  intros H. eapply within_maxsize_same; [| |exact H].
  - apply after_put_queue_size.
  - apply after_put_spec.
Qed.

Lemma resume_worker_within st pc s :
  within_maxsize s -> within_maxsize (resume_worker st pc s).2.
Proof.
  unfold within_maxsize.
  assert (queue_size (resume_worker st pc s).2 = queue_size s) as ->.
  { by destruct (resume_worker_shape st pc s) as (n & q & c & o & ->). }
  intros H Hpos. specialize (H Hpos).
  destruct (resume_worker_queue st pc s) as [_ Hq].
  destruct pc, (task_queue s) as [|item q] eqn:E; rewrite Hq; simpl in *; lia.
Qed.

Lemma execute_agents_parallel_within batch sid cb timed_out s :
  within_maxsize s ->
  within_maxsize (execute_agents_parallel batch sid cb timed_out s).2.
Proof.
  intros Hs. unfold execute_agents_parallel. destruct (is_initialized s); [|done].
  by apply after_put_within, put_all_within.
Qed.

Lemma resume_call_within c timed_out s :
  within_maxsize s -> within_maxsize (resume_call c timed_out s).
Proof.
  intros Hs. unfold resume_call.
  destruct (calls s !! c) as [[k sid pending total|k sid total|how res|e]|]; try done.
  - pose proof (after_put_within k sid total timed_out (resume_put sid pending s)
                  (resume_put_within sid pending s Hs)) as H.
    by destruct (after_put k sid total timed_out (resume_put sid pending s)).
  - pose proof (after_put_within k sid total timed_out (s, []) Hs) as H. simpl in H.
    by destruct (wait_loop k sid total timed_out s).
Qed.

Lemma step_within_maxsize s e : within_maxsize s -> within_maxsize (step s e).
Proof.
  intros Hs. destruct e; simpl; try done.
  - pose proof (execute_agents_parallel_within batch sid cb timed_out s Hs) as H.
    by destruct (execute_agents_parallel batch sid cb timed_out s).
  - by apply resume_call_within.
  - unfold step_worker. destruct (workers s !! w) as [[st pc]|]; [|done].
    pose proof (resume_worker_within st pc s Hs) as H.
    by destruct (resume_worker st pc s) as [[st' pc'] s'].
  - by destruct (cancel_session_shape sid s) as (c & ->).
  - unfold cleanup_session. by case_match.
  - unfold cleanup. apply put_signals_within.
    by destruct (cancel_all_shape
                   (map_to_list (active_sessions (with_flags (is_initialized s) false s)))
                   (with_flags (is_initialized s) false s)) as (c & ->).
  - by apply put_signals_within.
Qed.

Lemma run_within_maxsize cfg evs :
  within_maxsize (run (ParallelProcessor_init cfg) evs).
Proof.
  apply run_invariant; [apply step_within_maxsize|].
  unfold within_maxsize. simpl. lia.
Qed.

(** X1. With a positive [queue_size], the task queue never holds more
    items than that, whatever is submitted and however the coroutines are
    scheduled: [put] on a full queue suspends, in [execute_agents_parallel]
    as in [cleanup]. *)
Theorem queue_never_exceeds_maxsize (cfg : Settings) (evs : list Event) :
  (0 < cfg_queue_size cfg)%Z ->
  (Z.of_nat (length (task_queue (run (ParallelProcessor_init cfg) evs)))
   <= cfg_queue_size cfg)%Z.
Proof.
  intros Hpos. pose proof (run_within_maxsize cfg evs) as H.
  unfold within_maxsize in H. rewrite run_queue_size in H. by apply H.
Qed.

Lemma queue_never_exceeds_maxsize_witness :
  let cfg := mkSettings 1 2 placeholder_registry in
  let evs := [Initialize;
              NewTask (demo_task "t-low" "UserCreationAgent" LOW);
              NewTask (demo_task "t-critical" "UserCreationAgent" CRITICAL);
              NewTask (demo_task "t-normal" "UserCreationAgent" NORMAL);
              Call [0; 1; 2] "session-1" None false] in
  (0 < cfg_queue_size cfg)%Z
  /\ (Z.of_nat (length (task_queue (run (ParallelProcessor_init cfg) evs)))
      <= cfg_queue_size cfg)%Z
  /\ pending_at (run (ParallelProcessor_init cfg) evs) 0 = [0].
Proof.
  intros cfg evs.
  assert (0 < cfg_queue_size cfg)%Z as Hpos by (vm_compute; reflexivity).
  split; [exact Hpos|]. split; [|reflexivity].
  exact (queue_never_exceeds_maxsize cfg evs Hpos).
Defined.

Lemma true_div_pos (a b : Z) : (0 < b)%Z -> true_div a b == a # Z.to_pos b.
Proof.
  intros Hb. unfold true_div, Qdiv, Qinv, inject_Z, Qmult, Qeq. simpl.
  destruct b as [|p|p]; simpl; lia.
Qed.

(** X2. [get_health_status] on any reachable engine: it raises
    [ZeroDivisionError] exactly when the configured [queue_size] is zero (an
    unbounded queue); otherwise it reports "healthy" exactly while the
    engine runs, and a queue utilisation between 0 and 1 for a positive
    [queue_size], at most 0 for a negative one. *)
Theorem health_status_of_reachable (cfg : Settings) (evs : list Event) :
  let s := run (ParallelProcessor_init cfg) evs in
  match get_health_status s with
  | Raise e => e = ZeroDivisionError /\ cfg_queue_size cfg = 0%Z
  | Return h =>
      cfg_queue_size cfg <> 0%Z
      /\ (health_status h = "healthy" <-> is_running s = true)
      /\ health_running h = is_running s
      /\ health_initialized h = is_initialized s
      /\ ((0 < cfg_queue_size cfg)%Z ->
          (0 <= queue_utilization h)%Q /\ (queue_utilization h <= 1)%Q)
      /\ ((cfg_queue_size cfg < 0)%Z -> (queue_utilization h <= 0)%Q)
  end.
Proof.
  intros s. unfold get_health_status.
  assert (queue_size s = cfg_queue_size cfg) as Eq by (unfold s; by rewrite run_queue_size).
  rewrite Eq.
  destruct (Z.eqb_spec (cfg_queue_size cfg) 0) as [E0|Hne]; [done|].
  simpl. split; [done|]. split; [|split; [done|split; [done|]]].
  { destruct (is_running s); split; done. }
  split.
  - intros Hpos. rewrite true_div_pos by done.
    pose proof (run_within_maxsize cfg evs) as Hle. fold s in Hle.
    unfold within_maxsize in Hle. rewrite Eq in Hle. specialize (Hle Hpos).
    unfold Qle. simpl. rewrite Z2Pos.id by done. lia.
  - intros Hneg. unfold true_div, Qdiv, Qinv, inject_Z, Qmult, Qle. simpl.
    destruct (cfg_queue_size cfg) as [|p|p]; simpl; try lia.
Qed.

(** ** Worker loops and their statistics *)

Lemma sum_list_with_fmap {A B} (f : B -> nat) (g : A -> B) (l : list A) :
  sum_list_with f (g <$> l) = sum_list_with (fun x => f (g x)) l.
Proof. induction l as [|a l IH]; csimpl; [done|]. by rewrite IH. Qed.

Lemma sum_list_with_drop_le {A} (f : A -> nat) (l : list A) n :
  sum_list_with f (drop n l) <= sum_list_with f l.
Proof.
  rewrite <- (take_drop n l) at 2. rewrite sum_list_with_app. lia.
Qed.

Lemma sum_list_with_zero {A} (f : A -> nat) (l : list A) :
  (forall x, f x = 0) -> sum_list_with f l = 0.
Proof. intros H. induction l as [|a l IH]; simpl; [done|]. by rewrite H, IH. Qed.

Lemma sum_list_with_ext {A} (f g : A -> nat) (l : list A) :
  (forall x, f x = g x) -> sum_list_with f l = sum_list_with g l.
Proof. intros H. induction l as [|a l IH]; simpl; [done|]. by rewrite H, IH. Qed.

Lemma sum_list_with_Forall_le {A} (f g : A -> nat) (l : list A) :
  Forall (fun x => f x <= g x) l -> sum_list_with f l <= sum_list_with g l.
Proof. induction 1; simpl; lia. Qed.

Lemma fresh_workers_sum (f : WorkerStats * WorkerPc -> nat) (l : list nat) :
  (forall i, f (mkStats i 0 0 None, WGet) = 0) ->
  sum_list_with f ((fun i => (mkStats i 0 0 None, WGet)) <$> l) = 0.
Proof. intros H. induction l as [|i l IH]; csimpl; [done|]. by rewrite H, IH. Qed.

(** The workers of a state after one step: only [initialize] and the
    resumption of a worker write them. *)
Lemma step_workers s e :
  match e with
  | Initialize =>
      workers (step s e)
      = workers s ++ ((fun i => (mkStats i 0 0 None, WGet)) <$> seq 0 (max_workers s))
  | ResumeWorker w =>
      match workers s !! w with
      | Some (st, pc) =>
          workers (step s e)
          = <[w := (resume_worker st pc s).1]> (workers s)
      | None => workers (step s e) = workers s
      end
  | _ => workers (step s e) = workers s
  end.
Proof.
  destruct e; simpl; try done.
  - pose proof (execute_agents_parallel_shape batch sid cb timed_out s) as H.
    simpl in H. destruct (execute_agents_parallel batch sid cb timed_out s) as [st s'].
    destruct H as [[_ [= _ ->]]|(_ & o & q & [[_ E]|[_ E]])]; simpl in *; by subst.
  - pose proof (resume_call_shape c timed_out s) as H.
    destruct (calls s !! c) as [[k sid pending total|k sid total|how res|e]|];
      try (by rewrite H);
      destruct H as (st & o & q & [[_ ->]|[_ ->]]); done.
  - unfold step_worker. destruct (workers s !! w) as [[st pc]|]; [|done].
    destruct (resume_worker_shape st pc s) as (n & q & c & o & E).
    destruct (resume_worker st pc s) as [[st' pc'] s']. simpl in *. by subst.
  - by destruct (cancel_session_shape sid s) as (c & ->).
  - unfold cleanup_session. by case_match.
  - by destruct (cleanup_shape s) as (c & m & q & ->).
  - by destruct (put_signals_shape (shutdown_puts s) s) as (m & q & ->).
Qed.

(** *** How many loops there are *)

Lemma step_is_initialized s e :
  is_initialized (step s e) = is_initialized s || is_initialize e.
Proof.
  destruct e; simpl; rewrite ?orb_false_r; try done.
  - by rewrite orb_true_r.
  - pose proof (execute_agents_parallel_shape batch sid cb timed_out s) as H.
    simpl in H. destruct (execute_agents_parallel batch sid cb timed_out s) as [st s'].
    destruct H as [[_ [= _ ->]]|(_ & o & q & [[_ E]|[_ E]])]; simpl in *; by subst.
  - pose proof (resume_call_shape c timed_out s) as H.
    destruct (calls s !! c) as [[k sid pending total|k sid total|how res|e]|];
      try (by rewrite H);
      destruct H as (st & o & q & [[_ ->]|[_ ->]]); done.
  - unfold step_worker. destruct (workers s !! w) as [[st pc]|]; [|done].
    destruct (resume_worker_shape st pc s) as (n & q & c & o & E).
    destruct (resume_worker st pc s) as [[st' pc'] s']. simpl in *. by subst.
  - by destruct (cancel_session_shape sid s) as (c & ->).
  - unfold cleanup_session. by case_match.
  - by destruct (cleanup_shape s) as (c & m & q & ->).
  - by destruct (put_signals_shape (shutdown_puts s) s) as (m & q & ->).
Qed.

Lemma step_workers_length s e :
  length (workers (step s e))
  = length (workers s) + (if is_initialize e then max_workers s else 0).
Proof.
  pose proof (step_workers s e) as H. destruct e; simpl in *; rewrite ?H; try lia.
  - rewrite length_app, length_fmap, length_seq. lia.
  - destruct (workers s !! w) as [[st pc]|]; rewrite H; [|lia].
    rewrite length_insert. lia.
Qed.

Lemma run_workers_length evs s :
  length (workers (run s evs))
  = length (workers s) + initialisations evs * max_workers s.
Proof.
  revert s. induction evs as [|e evs IH]; intros s; simpl; [lia|].
  rewrite IH, step_workers_length.
  change (step s e) with (run s [e]). rewrite run_max_workers.
  destruct (is_initialize e); lia.
Qed.

Lemma run_is_initialized evs s :
  is_initialized (run s evs)
  = is_initialized s || negb (initialisations evs =? 0).
Proof.
  revert s. induction evs as [|e evs IH]; intros s; simpl.
  - by rewrite orb_false_r.
  - rewrite IH, step_is_initialized.
    destruct (is_initialized s), (is_initialize e); simpl; done.
Qed.

Lemma worker_stats_all s :
  length (workers s) <= max_workers s -> worker_stats s = (workers s).*1.
Proof.
  intros H. unfold worker_stats.
  by replace (length (workers s) - max_workers s) with 0 by lia.
Qed.

(** X3. Every [initialize] starts [max_workers] further worker loops and
    none is ever removed, so after [n] calls there are [n * max_workers]
    loops; the engine counts as initialised from the first call on; and [get_agent_status] reports
    [max_workers] workers however often [initialize] ran (none before the
    first call), since the statistics dictionary keeps one entry per worker
    name. *)
Theorem workers_per_initialize (cfg : Settings) (evs : list Event) :
  let s := run (ParallelProcessor_init cfg) evs in
  length (workers s) = initialisations evs * cfg_max_workers cfg
  /\ is_initialized s = negb (initialisations evs =? 0)
  /\ total_workers (get_agent_status s)
     = (if is_initialized s then cfg_max_workers cfg else 0).
Proof.
  intros s.
  assert (length (workers s) = initialisations evs * cfg_max_workers cfg) as Hlen.
  { unfold s. rewrite run_workers_length. simpl. lia. }
  assert (is_initialized s = negb (initialisations evs =? 0)) as Hinit.
  { unfold s. by rewrite run_is_initialized. }
  assert (max_workers s = cfg_max_workers cfg) as Hmax.
  { unfold s. by rewrite run_max_workers. }
  split; [done|]. split; [done|].
  simpl. unfold worker_stats. rewrite length_fmap, length_drop, Hlen, Hmax, Hinit.
  destruct (initialisations evs) as [|n]; simpl; nia.
Qed.

(** *** The current task of a worker *)

Lemma resume_worker_busy st pc s :
  busy_in_section (st, pc) -> busy_in_section (resume_worker st pc s).1.
Proof.
  unfold busy_in_section. simpl. intros H.
  unfold resume_worker, acquire, enter_section, after_execute, leave_section,
    except_block.
  repeat case_match; simplify_eq/=; try done;
    try (split; [by intros []|done]);
    try (split; [done|by eauto]).
  all: destruct H as [H1 H2]; split; try done; intros _; by apply H2.
Qed.

Lemma step_busy s e :
  Forall busy_in_section (workers s) -> Forall busy_in_section (workers (step s e)).
Proof.
  intros Hs. pose proof (step_workers s e) as H.
  destruct e; simpl in H |- *; rewrite ?H; try done.
  - apply Forall_app. split; [done|].
    apply Forall_fmap, Forall_forall. intros i _. unfold busy_in_section. simpl.
    split; [by intros []|done].
  - destruct (workers s !! w) as [[st pc]|] eqn:Hw; rewrite H; [|done].
    apply Forall_insert; [done|].
    apply resume_worker_busy. by eapply (Forall_lookup_1 _ _ _ _ Hs).
Qed.

Lemma run_busy cfg evs :
  Forall busy_in_section (workers (run (ParallelProcessor_init cfg) evs)).
Proof.
  apply (run_invariant (fun s => Forall busy_in_section (workers s)));
    [apply step_busy|]. simpl. constructor.
Qed.

(** X4. In every reachable state, the statistics object of a worker names
    a current task exactly while the worker is suspended inside the
    semaphore section (in the agent or in the progress callback); so the
    [active_workers] figure of [get_agent_status] never exceeds the number
    of workers inside the section, nor [max_workers]. *)
Theorem active_workers_hold_permits (cfg : Settings) (evs : list Event) :
  let s := run (ParallelProcessor_init cfg) evs in
  Forall busy_in_section (workers s)
  /\ active_workers (get_agent_status s) <= in_section s
  /\ active_workers (get_agent_status s) <= cfg_max_workers cfg.
Proof.
  intros s. pose proof (run_busy cfg evs) as Hbusy. fold s in Hbusy.
  assert (active_workers (get_agent_status s) <= in_section s) as Hle.
  { simpl. unfold worker_stats, in_section. rewrite sum_list_with_fmap.
    etrans; [apply sum_list_with_drop_le|].
    apply sum_list_with_Forall_le. eapply Forall_impl; [exact Hbusy|].
    intros [st pc] [H1 H2]. simpl in *.
    destruct (current_task st) as [name|]; simpl; [|lia].
    destruct (negb (String.eqb name "")); [|lia].
    rewrite H1; [lia|by eauto]. }
  split; [done|]. split; [done|].
  assert (permits_balanced s) as H.
  { apply run_permits_balanced. unfold permits_balanced, in_section. simpl. lia. }
  unfold permits_balanced in H. unfold s in H at 3. rewrite run_max_workers in H.
  simpl in H. lia.
Qed.

(** *** Waiting for a permit *)

Lemma in_section_lt_workers s w st pc :
  workers s !! w = Some (st, pc) -> holds_permit pc = 0 ->
  in_section s < length (workers s).
Proof.
  unfold in_section. generalize (workers s). intros l. revert w.
  induction l as [|[st0 pc0] l IH]; intros [|w] Hw Hpc; simplify_eq/=.
  - rewrite Hpc. simpl.
    assert (sum_list_with (fun w : WorkerStats * WorkerPc => holds_permit w.2) l
            <= length l); [|lia].
    clear. induction l as [|[st1 pc1] l IH]; simpl; [lia|].
    destruct pc1; simpl; lia.
  - specialize (IH _ Hw Hpc). destruct pc0; simpl; lia.
Qed.


Lemma resume_worker_not_acquiring st pc s w :
  permits_balanced s -> length (workers s) <= max_workers s ->
  workers s !! w = Some (st, pc) -> not_acquiring (st, pc) ->
  not_acquiring (resume_worker st pc s).1.
Proof.
  intros Hbal Hlen Hw Hpc.
  assert (holds_permit pc = 0 -> 0 < semaphore s) as Hfree.
  { intros H0. pose proof (in_section_lt_workers s w st pc Hw H0) as Hlt.
    unfold permits_balanced in Hbal. lia. }
  unfold not_acquiring, resume_worker, acquire, enter_section, after_execute,
    leave_section, except_block in *.
  simpl in Hpc.
  repeat case_match; simplify_eq/=; try done.
  all: specialize (Hfree eq_refl); lia.
Qed.

Lemma step_not_acquiring s e :
  permits_balanced s -> length (workers s) <= max_workers s ->
  Forall not_acquiring (workers s) -> Forall not_acquiring (workers (step s e)).
Proof.
  intros Hbal Hlen Hs. pose proof (step_workers s e) as H.
  destruct e; simpl in H |- *; rewrite ?H; try done.
  - apply Forall_app. split; [done|].
    apply Forall_fmap, Forall_forall. by intros i _.
  - destruct (workers s !! w) as [[st pc]|] eqn:Hw; rewrite H; [|done].
    apply Forall_insert; [done|].
    eapply resume_worker_not_acquiring; try done.
    by eapply (Forall_lookup_1 _ _ _ _ Hs).
Qed.

Lemma run_not_acquiring evs s :
  permits_balanced s ->
  length (workers s) + initialisations evs * max_workers s <= max_workers s ->
  Forall not_acquiring (workers s) -> Forall not_acquiring (workers (run s evs)).
Proof.
  revert s. induction evs as [|e evs IH]; intros s Hbal Hlen Hs; simpl; [done|].
  simpl in Hlen.
  assert (max_workers (step s e) = max_workers s) as Hmax.
  { change (step s e) with (run s [e]). apply run_max_workers. }
  apply IH.
  - by apply step_permits_balanced.
  - rewrite step_workers_length, Hmax. destruct (is_initialize e); lia.
  - apply step_not_acquiring; [done| |done]. lia.
Qed.

(** X5. As long as [initialize] has run at most once, no worker ever
    waits for the semaphore: there are no more worker loops than permits,
    so a worker that has taken a task always finds a permit free.  The
    semaphore only starts to limit anything after a second [initialize]. *)
Theorem semaphore_never_waited_for (cfg : Settings) (evs : list Event) :
  initialisations evs <= 1 ->
  forall w st sid t,
    workers (run (ParallelProcessor_init cfg) evs) !! w <> Some (st, WAcquire sid t).
Proof.
  intros Hinit w st sid t Hw.
  assert (Forall not_acquiring (workers (run (ParallelProcessor_init cfg) evs))) as H.
  { apply run_not_acquiring.
    - unfold permits_balanced, in_section. simpl. lia.
    - simpl. nia.
    - constructor. }
  by apply (Forall_lookup_1 _ _ _ _ H) in Hw.
Qed.

Lemma semaphore_never_waited_for_witness :
  let evs := [Initialize;
              NewTask (demo_task "t-low" "UserCreationAgent" LOW);
              NewTask (demo_task "t-critical" "UserCreationAgent" CRITICAL);
              Call [0; 1] "session-1" None false;
              ResumeWorker 0] in
  initialisations evs <= 1
  /\ workers (run (ParallelProcessor_init (mkSettings 1 1000 demo_registry)) evs) !! 0
     <> Some (mkStats 0 0 0 None, WAcquire "session-1" 1).
Proof.
  intros evs.
  assert (initialisations evs <= 1) as H by (vm_compute; lia).
  split; [exact H|].
  exact (semaphore_never_waited_for (mkSettings 1 1000 demo_registry) evs H
           0 (mkStats 0 0 0 None) "session-1" 1).
Defined.

(** After a second [initialize] the hypothesis fails and a worker does wait:
    two loops share the one permit. *)
Example second_initialize_makes_a_worker_wait :
  let evs := [Initialize; Initialize;
              NewTask (demo_task "t-low" "UserCreationAgent" LOW);
              NewTask (demo_task "t-critical" "UserCreationAgent" CRITICAL);
              Call [0; 1] "session-1" None false;
              ResumeWorker 0; ResumeWorker 1] in
  (workers (run (ParallelProcessor_init (mkSettings 1 1000 demo_registry)) evs)).*2 !! 1
  = Some (WAcquire "session-1" 0).
Proof. vm_compute. reflexivity. Qed.

(** *** Counters and session records *)

Lemma cleanup_spec s :
  active_sessions (cleanup s) = active_sessions s
  /\ workers (cleanup s) = workers s
  /\ calls (cleanup s) = calls s
  /\ objects (cleanup s) = objects s
  /\ length (contexts (cleanup s)) = length (contexts s).
Proof.
  unfold cleanup. set (s1 := with_flags _ _ _).
  pose proof (cancel_all_spec (map_to_list (active_sessions s1)) s1)
    as (_ & E2 & E3 & E4 & E5 & E6).
  set (s2 := foldr _ _ _) in *.
  destruct (put_signals_spec (shutdown_puts s2 + length (workers s2)) s2)
    as (m & _ & (F1 & F2 & F3 & F4) & F5).
  rewrite F1, F2, F3, F4, F5, E2, E3, E4, E5, E6. done.
Qed.

Lemma step_contexts_length s e : length (contexts s) <= length (contexts (step s e)).
Proof.
  destruct e; simpl; try done.
  - pose proof (execute_agents_parallel_shape batch sid cb timed_out s) as H.
    simpl in H. destruct (execute_agents_parallel batch sid cb timed_out s) as [st s'].
    destruct H as [[_ [= _ ->]]|(_ & o & q & [[_ E]|[_ E]])]; simpl in *; subst;
      simpl; rewrite ?length_app; lia.
  - pose proof (resume_call_shape c timed_out s) as H.
    destruct (calls s !! c) as [[k sid pending total|k sid total|how res|e]|];
      try (by rewrite H);
      destruct H as (st & o & q & [[_ ->]|[_ ->]]); done.
  - unfold step_worker. destruct (workers s !! w) as [[st pc]|]; [|done].
    destruct (resume_worker_frame st pc s) as (_ & E & _).
    destruct (resume_worker st pc s) as [[st' pc'] s']. simpl in *. lia.
  - destruct (cancel_session_spec sid s) as (_ & _ & _ & _ & _ & E). lia.
  - unfold cleanup_session. by case_match.
  - destruct (cleanup_spec s) as (_ & _ & _ & _ & E). lia.
  - by destruct (put_signals_shape (shutdown_puts s) s) as (m & q & ->).
Qed.

Lemma pc_ref_valid_mono n m pc : n <= m -> pc_ref_valid n pc -> pc_ref_valid m pc.
Proof. destruct pc; simpl; try done. lia. Qed.

Lemma resume_worker_ref st pc s :
  refs_valid s -> pc_ref_valid (length (contexts s)) pc ->
  pc_ref_valid (length (contexts s)) (resume_worker st pc s).1.2.
Proof.
  intros [Hs _] Hpc.
  unfold resume_worker, acquire, enter_section, after_execute, leave_section,
    except_block.
  repeat case_match; simplify_eq/=; try done.
  all: by eapply Hs.
Qed.

Lemma step_refs_valid s e : refs_valid s -> refs_valid (step s e).
Proof.
  intros Hs. pose proof (step_contexts_length s e) as Hlen.
  pose proof (step_workers s e) as Hw.
  assert (Forall (fun w => pc_ref_valid (length (contexts (step s e))) w.2) (workers s))
    as Hold.
  { eapply Forall_impl; [apply (valid_workers _ Hs)|].
    intros [st pc]. simpl. by apply pc_ref_valid_mono. }
  assert (forall sid k, active_sessions s !! sid = Some k ->
            k < length (contexts (step s e))) as Hsess.
  { intros sid k H. pose proof (valid_sessions _ Hs _ _ H). lia. }
  clear Hlen. destruct e; try (constructor; [|by rewrite Hw]).
  - done.
  - constructor; [done|]. simpl. apply Forall_app. split; [done|].
    apply Forall_fmap, Forall_forall. by intros i _.
  - revert Hsess Hold. simpl.
    pose proof (execute_agents_parallel_shape batch sid cb timed_out s) as H.
    simpl in H. destruct (execute_agents_parallel batch sid cb timed_out s) as [st s'].
    destruct H as [[_ [= _ ->]]|(_ & o & q & [[_ E]|[_ E]])]; simpl in *; subst;
      simpl; try done.
    all: intros Hsess Hold sid' k'; rewrite length_app; simpl;
      destruct (decide (sid' = sid)) as [->|Hne];
      [rewrite lookup_insert_eq; intros [= <-]; lia
      |rewrite lookup_insert_ne by done; intros H; apply Hsess in H;
       rewrite length_app in H; simpl in H; lia].
  - revert Hsess. simpl.
    pose proof (resume_call_shape c timed_out s) as H.
    destruct (calls s !! c) as [[k sid pending total|k sid total|how res|e]|];
      try (by rewrite H);
      destruct H as (st & o & q & [[_ ->]|[_ ->]]); done.
  - revert Hsess Hold Hw. simpl. unfold step_worker.
    destruct (workers s !! w) as [[st pc]|] eqn:Ew; [|by constructor].
    pose proof (resume_worker_ref st pc s Hs) as Hpc.
    destruct (resume_worker_frame st pc s) as (Ea & El & Ews & _).
    destruct (resume_worker st pc s) as [[st' pc'] s']. simpl in *.
    intros Hsess Hold Hw. constructor.
    + simpl. by rewrite Ea.
    + simpl. apply Forall_insert.
      * by rewrite Ews.
      * simpl. rewrite El. apply Hpc.
        by apply (Forall_lookup_1 _ _ _ _ (valid_workers _ Hs)) in Ew.
  - revert Hsess. simpl. by destruct (cancel_session_spec sid s) as (_ & -> & _).
  - revert Hsess. simpl. unfold cleanup_session. case_match; [|done]. simpl.
    intros Hsess sid' k' Hd. apply lookup_delete_Some in Hd as [_ Hd]. by apply Hsess in Hd.
  - revert Hsess. simpl. by destruct (cleanup_shape s) as (c & m & q & ->).
  - revert Hsess. simpl.
    by destruct (put_signals_shape (shutdown_puts s) s) as (m & q & ->).
Qed.

Lemma run_refs_valid cfg evs : refs_valid (run (ParallelProcessor_init cfg) evs).
Proof.
  apply run_invariant; [apply step_refs_valid|].
  constructor; simpl; [|constructor]. intros sid k H. by rewrite lookup_empty in H.
Qed.

Lemma sum_list_with_alter {A} (f : A -> nat) (g : A -> A) (l : list A) i x :
  l !! i = Some x ->
  sum_list_with f (alter g i l) + f x = sum_list_with f l + f (g x).
Proof.
  revert i. induction l as [|a l IH]; intros [|i] H; simplify_eq/=; try lia.
  specialize (IH _ H). lia.
Qed.

Lemma sum_list_with_alter_same {A} (f : A -> nat) (g : A -> A) (l : list A) i :
  (forall x, f (g x) = f x) -> sum_list_with f (alter g i l) = sum_list_with f l.
Proof.
  intros H. revert i. induction l as [|a l IH]; intros [|i]; simpl; try done.
  - by rewrite H.
  - f_equal. apply IH.
Qed.

Lemma completed_append_completed t c (l : list SessionContext) :
  c < length l ->
  sum_list_with (fun x => length (completed_tasks x)) (alter (append_completed t) c l)
  = S (sum_list_with (fun x => length (completed_tasks x)) l).
Proof.
  intros H. apply lookup_lt_is_Some in H as [x Hx].
  pose proof (sum_list_with_alter (fun x => length (completed_tasks x))
                (append_completed t) l c x Hx) as E.
  simpl in E. rewrite length_app in E. simpl in E. lia.
Qed.

Lemma failed_append_failed t c (l : list SessionContext) :
  c < length l ->
  sum_list_with (fun x => length (failed_tasks x)) (alter (append_failed t) c l)
  = S (sum_list_with (fun x => length (failed_tasks x)) l).
Proof.
  intros H. apply lookup_lt_is_Some in H as [x Hx].
  pose proof (sum_list_with_alter (fun x => length (failed_tasks x))
                (append_failed t) l c x Hx) as E.
  simpl in E. rewrite length_app in E. simpl in E. lia.
Qed.

Lemma completed_append_failed t c (l : list SessionContext) :
  sum_list_with (fun x => length (completed_tasks x)) (alter (append_failed t) c l)
  = sum_list_with (fun x => length (completed_tasks x)) l.
Proof. by apply sum_list_with_alter_same. Qed.

Lemma failed_append_completed t c (l : list SessionContext) :
  sum_list_with (fun x => length (failed_tasks x)) (alter (append_completed t) c l)
  = sum_list_with (fun x => length (failed_tasks x)) l.
Proof. by apply sum_list_with_alter_same. Qed.

Lemma resume_worker_counts st pc s :
  refs_valid s -> pc_ref_valid (length (contexts s)) pc ->
  tasks_completed (resume_worker st pc s).1.1 + completed_records s
  = tasks_completed st + completed_records (resume_worker st pc s).2
  /\ failed_records (resume_worker st pc s).2 + tasks_failed st
     <= failed_records s + tasks_failed (resume_worker st pc s).1.1.
Proof.
  intros [Hs _] Hpc.
  unfold completed_records, failed_records, resume_worker, acquire, enter_section,
    after_execute, leave_section, except_block.
  repeat case_match; simplify_eq/=;
    rewrite ?completed_append_failed, ?failed_append_completed;
    rewrite ?completed_append_completed, ?failed_append_failed
      by (done || (by eapply Hs));
    lia.
Qed.

Lemma cancel_session_sums sid s :
  completed_records (cancel_session sid s) = completed_records s
  /\ failed_records (cancel_session sid s) = failed_records s.
Proof.
  unfold cancel_session, completed_records, failed_records.
  case_match; simpl; [|done].
  split; by apply sum_list_with_alter_same.
Qed.

Lemma cancel_all_sums (l : list (string * CtxRef)) s :
  completed_records (foldr (fun kv acc => cancel_session kv.1 acc) s l)
  = completed_records s
  /\ failed_records (foldr (fun kv acc => cancel_session kv.1 acc) s l)
     = failed_records s.
Proof.
  induction l as [|kv l [IH1 IH2]]; simpl; [done|].
  destruct (cancel_session_sums kv.1 (foldr (fun kv acc => cancel_session kv.1 acc) s l))
    as [-> ->].
  done.
Qed.

Lemma step_records s e :
  (forall w, e <> ResumeWorker w) ->
  completed_records (step s e) = completed_records s
  /\ failed_records (step s e) = failed_records s.
Proof.
  intros He. destruct e; simpl; try done.
  - pose proof (execute_agents_parallel_shape batch sid cb timed_out s) as H.
    simpl in H. destruct (execute_agents_parallel batch sid cb timed_out s) as [st s'].
    destruct H as [[_ [= _ ->]]|(_ & o & q & [[_ E]|[_ E]])]; simpl in *; subst;
      try done.
    all: unfold completed_records, failed_records; simpl;
      rewrite !sum_list_with_app; simpl; lia.
  - pose proof (resume_call_shape c timed_out s) as H.
    destruct (calls s !! c) as [[k sid pending total|k sid total|how res|e]|];
      try (by rewrite H);
      destruct H as (st & o & q & [[_ ->]|[_ ->]]); done.
  - by destruct (He w).
  - apply cancel_session_sums.
  - unfold cleanup_session. by case_match.
  - unfold cleanup. set (s1 := with_flags _ _ _).
    destruct (cancel_all_sums (map_to_list (active_sessions s1)) s1) as [E1 E2].
    set (s2 := foldr _ _ _) in *.
    destruct (put_signals_shape (shutdown_puts s2 + length (workers s2)) s2)
      as (m & q & ->).
    done.
  - by destruct (put_signals_shape (shutdown_puts s) s) as (m & q & ->).
Qed.

Lemma step_accounted s e : refs_valid s -> accounted s -> accounted (step s e).
Proof.
  intros Hv [H1 H2]. unfold accounted, counted_completed, counted_failed in *.
  pose proof (step_workers s e) as Hw.
  assert ((exists w, e = ResumeWorker w) \/ forall w, e <> ResumeWorker w)
    as [[w ->]|Hne] by (destruct e; eauto).
  - simpl in Hw |- *. unfold step_worker in *.
    destruct (workers s !! w) as [[st pc]|] eqn:Ew; [|done].
    pose proof (resume_worker_counts st pc s Hv) as Hc.
    destruct (resume_worker_frame st pc s) as (_ & _ & Ews & _).
    destruct (resume_worker st pc s) as [[st' pc'] s']. simpl in *.
    destruct Hc as [Hc1 Hc2].
    { by apply (Forall_lookup_1 _ _ _ _ (valid_workers _ Hv)) in Ew. }
    rewrite Ews.
    pose proof (sum_list_with_insert (fun w : WorkerStats * WorkerPc => tasks_completed w.1)
                  (workers s) w (st, pc) (st', pc') Ew) as S1.
    pose proof (sum_list_with_insert (fun w : WorkerStats * WorkerPc => tasks_failed w.1)
                  (workers s) w (st, pc) (st', pc') Ew) as S2.
    simpl in S1, S2. unfold completed_records, failed_records in *. simpl. lia.
  - destruct (step_records s e Hne) as [-> ->].
    destruct e; simpl in Hw |- *; rewrite ?Hw; try done.
    + rewrite !sum_list_with_app, !fresh_workers_sum by done. lia.
    + by destruct (Hne w).
Qed.

Lemma run_accounted cfg evs :
  refs_valid (run (ParallelProcessor_init cfg) evs)
  /\ accounted (run (ParallelProcessor_init cfg) evs).
Proof.
  apply (run_invariant (fun s => refs_valid s /\ accounted s)).
  - intros s e [Hv Ha]. split; [by apply step_refs_valid|by apply step_accounted].
  - split.
    + constructor; simpl; [|constructor]. intros sid k H. by rewrite lookup_empty in H.
    + by unfold accounted.
Qed.

(** X6. In every reachable state the counters of the worker loops agree
    with the session records: the [tasks_completed] counters add up to the
    number of entries of all completed lists made so far, and the
    [tasks_failed] counters to at least the number of entries of all failed
    lists (a task that fails because its session is gone is counted but
    recorded nowhere).  While [initialize] has run at most once these are
    the totals [get_agent_status] reports. *)
Theorem statistics_match_session_records (cfg : Settings) (evs : list Event) :
  initialisations evs <= 1 ->
  let s := run (ParallelProcessor_init cfg) evs in
  total_tasks_completed (get_agent_status s) = completed_records s
  /\ failed_records s <= total_tasks_failed (get_agent_status s).
Proof.
  intros Hinit s.
  destruct (run_accounted cfg evs) as [_ [H1 H2]]. fold s in H1, H2.
  assert (worker_stats s = (workers s).*1) as E.
  { apply worker_stats_all. unfold s.
    rewrite run_workers_length, run_max_workers. simpl. nia. }
  simpl. rewrite E, !sum_list_with_fmap. done.
Qed.

Lemma statistics_match_session_records_witness :
  let cfg := mkSettings 1 1000 demo_registry in
  let evs := [Initialize;
              NewTask (demo_task "t-low" "NoSuchAgent" LOW);
              NewTask (demo_task "t-critical" "UserCreationAgent" CRITICAL);
              Call [0; 1] "session-1" None false;
              ResumeWorker 0; ResumeWorker 0; ResumeWorker 0] in
  initialisations evs <= 1
  /\ total_tasks_completed (get_agent_status (run (ParallelProcessor_init cfg) evs))
     = completed_records (run (ParallelProcessor_init cfg) evs)
  /\ completed_records (run (ParallelProcessor_init cfg) evs) = 1
  /\ failed_records (run (ParallelProcessor_init cfg) evs) = 1.
Proof.
  intros cfg evs.
  assert (initialisations evs <= 1) as H by (vm_compute; lia).
  split; [exact H|]. split; [|split; reflexivity].
  exact (proj1 (statistics_match_session_records cfg evs H)).
Defined.

(** ** Sessions *)

(** *** No session is left behind *)

Lemma elem_of_delete_ne {A} (l : list A) i x y :
  x ∈ l -> l !! i = Some y -> x <> y -> x ∈ delete i l.
Proof.
  revert i. induction l as [|a l IH]; intros [|i] Hx Hi Hne; simplify_eq/=.
  - apply elem_of_cons in Hx as [->|Hx]; done.
  - apply elem_of_cons in Hx as [->|Hx]; [by left|].
    right. by eapply IH.
Qed.

Lemma step_retained s e : retained s -> retained (step s e).
Proof.
  intros Hs. destruct e; simpl; try done.
  - pose proof (execute_agents_parallel_shape batch sid cb timed_out s) as H.
    simpl in H. destruct (execute_agents_parallel batch sid cb timed_out s) as [st s'].
    destruct H as [[_ [= -> ->]]|(_ & o & q & [[Hst E]|[Hst E]])]; simpl in *; subst.
    + intros sid0 H0. destruct (Hs sid0 H0) as [?|(c & st0 & Hc & Hserve)]; [by left|].
      right. exists c, st0. split; [|done]. simpl. by apply lookup_app_l_Some.
    + intros sid0 H0. simpl in *.
      destruct (decide (sid0 = sid)) as [->|Hne].
      * right. exists (length (calls s)), st. split; [|done].
        by apply list_lookup_middle.
      * rewrite lookup_insert_ne in H0 by done.
        destruct (Hs sid0 H0) as [?|(c & st0 & Hc & Hserve)]; [by left|].
        right. exists c, st0. split; [|done]. by apply lookup_app_l_Some.
    + intros sid0 H0. simpl in *.
      destruct (decide (sid0 = sid)) as [->|Hne].
      * left. apply elem_of_app. right. by apply list_elem_of_singleton.
      * rewrite lookup_insert_ne in H0 by done.
        destruct (Hs sid0 H0) as [?|(c & st0 & Hc & Hserve)].
        -- left. apply elem_of_app. by left.
        -- right. exists c, st0. split; [|done]. by apply lookup_app_l_Some.
  - pose proof (resume_call_shape c timed_out s) as H.
    destruct (calls s !! c) as [[k sid pending total|k sid total|how res|e]|] eqn:Ec;
      try (by rewrite H);
      destruct H as (st & o & q & [[Hst ->]|[Hst ->]]);
      intros sid0 H0; simpl in *;
      (destruct (Hs sid0 H0) as [?|(c0 & st0 & Hc & Hserve)];
       [left; rewrite ?elem_of_app; by eauto|]);
      (destruct (decide (c0 = c)) as [->|Hne];
       [rewrite Ec in Hc; simplify_eq/=
       |right; exists c0, st0; split; [by rewrite list_lookup_insert_ne|done]]).
    + right. exists c, st. split; [|done].
      apply list_lookup_insert_eq. by eapply lookup_lt_Some.
    + left. apply elem_of_app. right. by apply list_elem_of_singleton.
    + right. exists c, st. split; [|done].
      apply list_lookup_insert_eq. by eapply lookup_lt_Some.
    + left. apply elem_of_app. right. by apply list_elem_of_singleton.
  - unfold step_worker. destruct (workers s !! w) as [[st pc]|]; [|done].
    destruct (resume_worker_shape st pc s) as (n & q & c & o & E).
    destruct (resume_worker st pc s) as [[st' pc'] s']. simpl in *. by subst.
  - by destruct (cancel_session_shape sid s) as (c & ->).
  - unfold cleanup_session. destruct (cleanup_timers s !! i) as [sid|] eqn:Ei; [|done].
    intros sid0 H0. simpl in *.
    destruct (decide (sid0 = sid)) as [->|Hne].
    + rewrite lookup_delete_eq in H0. by destruct H0.
    + rewrite lookup_delete_ne in H0 by done.
      destruct (Hs sid0 H0) as [Ht|?]; [|by right].
      left. by eapply elem_of_delete_ne.
  - by destruct (cleanup_shape s) as (c & m & q & ->).
  - by destruct (put_signals_shape (shutdown_puts s) s) as (m & q & ->).
Qed.

(** X7. No entry of [active_sessions] is leaked: in every reachable state,
    each registered session id either belongs to a call of
    [execute_agents_parallel] that is still under way or has a delayed
    clean-up pending (scheduled by the [finally] block of the call); and a
    clean-up that fires removes the entry of its session id. *)
Theorem sessions_are_retained_or_served (cfg : Settings) (evs : list Event) :
  let s := run (ParallelProcessor_init cfg) evs in
  retained s
  /\ forall i sid, cleanup_timers s !! i = Some sid ->
       active_sessions (step s (CleanupTimer i)) !! sid = None.
Proof.
  intros s. split.
  - apply run_invariant; [apply step_retained|].
    intros sid [k Hk]. simpl in Hk. by rewrite lookup_empty in Hk.
  - intros i sid Hi. simpl. unfold cleanup_session. rewrite Hi. simpl.
    apply lookup_delete_eq.
Qed.

(** *** Session contexts only grow *)

Lemma grows_to_refl c : grows_to c c.
Proof. by repeat split. Qed.

Lemma grows_to_trans c1 c2 c3 : grows_to c1 c2 -> grows_to c2 c3 -> grows_to c1 c3.
Proof.
  unfold grows_to. intros (?&?&?&?&?&?) (?&?&?&?&?&?).
  repeat split; try congruence; try (by etrans); auto.
Qed.

Lemma grows_to_append_completed t c : grows_to c (append_completed t c).
Proof. repeat split; try done. simpl. by apply prefix_app_r. Qed.

Lemma grows_to_append_failed t c : grows_to c (append_failed t c).
Proof. repeat split; try done. simpl. by apply prefix_app_r. Qed.

Lemma grows_to_set_cancelled c : grows_to c (set_cancelled c).
Proof. by repeat split. Qed.

Lemma alter_grows (g : SessionContext -> SessionContext) (l : list SessionContext) i k c :
  (forall x, grows_to x (g x)) ->
  l !! k = Some c -> exists c', alter g i l !! k = Some c' /\ grows_to c c'.
Proof.
  intros Hg Hk. destruct (decide (i = k)) as [->|Hne].
  - exists (g c). split; [|done]. by rewrite list_lookup_alter_eq, Hk.
  - exists c. split; [|apply grows_to_refl]. by rewrite list_lookup_alter_ne.
Qed.

Lemma resume_worker_contexts st pc s :
  contexts (resume_worker st pc s).2 = contexts s
  \/ exists t c,
       contexts (resume_worker st pc s).2 = alter (append_completed t) c (contexts s)
       \/ contexts (resume_worker st pc s).2 = alter (append_failed t) c (contexts s).
Proof.
  unfold resume_worker, acquire, enter_section, after_execute, leave_section,
    except_block.
  repeat case_match; simplify_eq/=; eauto.
Qed.

Lemma cancel_session_grows sid s k c :
  contexts s !! k = Some c ->
  exists c', contexts (cancel_session sid s) !! k = Some c' /\ grows_to c c'.
Proof.
  intros Hk. unfold cancel_session. case_match; simpl.
  - apply alter_grows; [apply grows_to_set_cancelled|done].
  - exists c. split; [done|apply grows_to_refl].
Qed.

Lemma cancel_all_grows (l : list (string * CtxRef)) s k c :
  contexts s !! k = Some c ->
  exists c', contexts (foldr (fun kv acc => cancel_session kv.1 acc) s l) !! k = Some c'
             /\ grows_to c c'.
Proof.
  intros Hk. induction l as [|kv l (c1 & H1 & G1)]; simpl.
  - exists c. split; [done|apply grows_to_refl].
  - destruct (cancel_session_grows kv.1 _ k c1 H1) as (c2 & H2 & G2).
    exists c2. split; [done|]. by eapply grows_to_trans.
Qed.

Lemma step_grows s e k c :
  contexts s !! k = Some c ->
  exists c', contexts (step s e) !! k = Some c' /\ grows_to c c'.
Proof.
  intros Hk.
  assert (exists c', contexts s !! k = Some c' /\ grows_to c c') as Hsame.
  { exists c. split; [done|apply grows_to_refl]. }
  destruct e; simpl; try done.
  - pose proof (execute_agents_parallel_shape batch sid cb timed_out s) as H.
    simpl in H. destruct (execute_agents_parallel batch sid cb timed_out s) as [st s'].
    destruct H as [[_ [= _ ->]]|(_ & o & q & [[_ E]|[_ E]])]; simpl in *; subst;
      try done.
    all: simpl; exists c; split; [by apply lookup_app_l_Some|apply grows_to_refl].
  - pose proof (resume_call_shape c0 timed_out s) as H.
    destruct (calls s !! c0) as [[k0 sid pending total|k0 sid total|how res|e]|];
      try (by rewrite H);
      destruct H as (st & o & q & [[_ ->]|[_ ->]]); done.
  - unfold step_worker. destruct (workers s !! w) as [[st pc]|]; [|done].
    pose proof (resume_worker_contexts st pc s) as H.
    destruct (resume_worker st pc s) as [[st' pc'] s']. simpl in *.
    destruct H as [->|(t & c0 & [->| ->])]; [done| |].
    + apply alter_grows; [apply grows_to_append_completed|done].
    + apply alter_grows; [apply grows_to_append_failed|done].
  - by apply cancel_session_grows.
  - unfold cleanup_session. by case_match.
  - unfold cleanup. set (s1 := with_flags _ _ _).
    destruct (cancel_all_grows (map_to_list (active_sessions s1)) s1 k c Hk)
      as (c' & H1 & G1).
    set (s2 := foldr _ _ _) in *.
    destruct (put_signals_shape (shutdown_puts s2 + length (workers s2)) s2)
      as (m & q & ->).
    by exists c'.
  - by destruct (put_signals_shape (shutdown_puts s) s) as (m & q & ->).
Qed.

Lemma run_grows evs s k c :
  contexts s !! k = Some c ->
  exists c', contexts (run s evs) !! k = Some c' /\ grows_to c c'.
Proof.
  revert s c. induction evs as [|e evs IH]; intros s c Hk; simpl.
  - exists c. split; [done|apply grows_to_refl].
  - destruct (step_grows s e k c Hk) as (c1 & H1 & G1).
    destruct (IH _ _ H1) as (c2 & H2 & G2).
    exists c2. split; [done|]. by eapply grows_to_trans.
Qed.

(** X8. A session context only grows.  Whatever happens to the engine
    after a context was created, the context stays in place, its session
    id, task list and callback are never written, entries are only ever
    appended to its completed and failed lists (none is removed or
    reordered), and its cancellation flag, once raised, stays raised. *)
Theorem session_context_only_grows (s : Engine) (evs : list Event)
    (k : CtxRef) (c : SessionContext) :
  contexts s !! k = Some c ->
  exists c', contexts (run s evs) !! k = Some c' /\ grows_to c c'.
Proof.
  revert s c. induction evs as [|e evs IH]; intros s c Hk; simpl.
  - exists c. split; [done|apply grows_to_refl].
  - destruct (step_grows s e k c Hk) as (c1 & H1 & G1).
    destruct (IH _ _ H1) as (c2 & H2 & G2).
    exists c2. split; [done|]. by eapply grows_to_trans.
Qed.

Lemma session_context_only_grows_witness :
  let s := demo_submitted demo_registry None in
  let evs := [ResumeWorker 0; ResumeWorker 0; CancelSession "session-1"; ResumeWorker 0] in
  contexts s !! 0 = Some (mkCtx "session-1" [0; 1; 2] [] [] false None)
  /\ exists c', contexts (run s evs) !! 0 = Some c'
                /\ grows_to (mkCtx "session-1" [0; 1; 2] [] [] false None) c'.
Proof.
  intros s evs.
  assert (contexts s !! 0 = Some (mkCtx "session-1" [0; 1; 2] [] [] false None)) as H
    by reflexivity.
  split; [exact H|].
  exact (session_context_only_grows s evs 0 _ H).
Defined.

(** *** What a cancellation touches *)

Lemma cancel_session_idem sid s :
  cancel_session sid (cancel_session sid s) = cancel_session sid s.
Proof.
  unfold cancel_session. destruct (active_sessions s !! sid) as [k|] eqn:E; simpl.
  - rewrite E. unfold update_ctx, with_contexts. simpl. f_equal.
    apply list_eq. intros i. destruct (decide (i = k)) as [->|Hne].
    + rewrite !list_lookup_alter_eq. by destruct (contexts s !! k).
    + by rewrite !list_lookup_alter_ne.
  - by rewrite E.
Qed.

(** X9. [cancel_session] on a reachable engine.  For an id that is not
    registered it returns [False] and changes nothing.  For a registered id
    it returns [True], raises the flag of the context registered under that
    id and touches no other context; in both cases no task object, queue
    entry, worker or call is touched (a task already handed to an agent is
    not interrupted), and a second cancellation changes nothing further. *)
Theorem cancel_session_flags_one_context (cfg : Settings) (evs : list Event)
    (sid : string) :
  let s := run (ParallelProcessor_init cfg) evs in
  let s' := step s (CancelSession sid) in
  match active_sessions s !! sid with
  | None => cancel_session_result sid s = false /\ s' = s
  | Some k =>
      cancel_session_result sid s = true
      /\ ctx_of s' k = set_cancelled (ctx_of s k)
      /\ forall k', k' <> k -> ctx_of s' k' = ctx_of s k'
  end
  /\ objects s' = objects s /\ task_queue s' = task_queue s
  /\ workers s' = workers s /\ calls s' = calls s
  /\ active_sessions s' = active_sessions s
  /\ step s' (CancelSession sid) = s'.
Proof.
  intros s s'. subst s'. simpl.
  destruct (cancel_session_spec sid s) as (E1 & E2 & E3 & E4 & E5 & _).
  split; [|by rewrite cancel_session_idem].
  unfold cancel_session_result, cancel_session.
  destruct (active_sessions s !! sid) as [k|] eqn:E.
  - split; [by rewrite bool_decide_eq_true|]. split.
    + apply ctx_of_update_ctx_eq, lookup_lt_is_Some.
      by eapply (valid_sessions _ (run_refs_valid cfg evs)).
    + intros k' Hne. by apply ctx_of_update_ctx_ne.
  - split; [|done]. rewrite bool_decide_eq_false. by intros [? ?].
Qed.

(** *** Task objects *)

Lemma same_request_refl x : same_request x x.
Proof. by repeat split. Qed.

Lemma same_request_trans x y z : same_request x y -> same_request y z -> same_request x z.
Proof.
  unfold same_request. intros (?&?&?&?&?) (?&?&?&?&?). repeat split; congruence.
Qed.

Lemma alter_same_request (f : SubAgentTaskModel -> SubAgentTaskModel)
    (l : list SubAgentTaskModel) i t x :
  (forall y, same_request y (f y)) ->
  l !! t = Some x -> exists x', alter f i l !! t = Some x' /\ same_request x x'.
Proof.
  intros Hf Ht. destruct (decide (i = t)) as [->|Hne].
  - exists (f x). split; [|done]. by rewrite list_lookup_alter_eq, Ht.
  - exists x. split; [|apply same_request_refl]. by rewrite list_lookup_alter_ne.
Qed.

Lemma put_all_same_request sid pending s t x :
  objects s !! t = Some x ->
  exists x', objects (put_all sid pending s).1 !! t = Some x' /\ same_request x x'.
Proof.
  revert s x. induction pending as [|t0 rest IH]; intros s x Ht; simpl.
  - exists x. split; [done|apply same_request_refl].
  - destruct (alter_same_request (set_status PENDING) (objects s) t0 t x) as (x1 & H1 & R1);
      [by intros y|done|].
    case_match; simpl; [by exists x1|].
    destruct (IH (enqueue (Some (sid, t0)) (update_task (set_status PENDING) t0 s)) x1 H1)
      as (x2 & H2 & R2).
    exists x2. split; [done|]. by eapply same_request_trans.
Qed.

Lemma resume_put_same_request sid pending s t x :
  objects s !! t = Some x ->
  exists x', objects (resume_put sid pending s).1 !! t = Some x' /\ same_request x x'.
Proof.
  intros Ht. destruct pending as [|t0 rest]; simpl.
  - exists x. split; [done|apply same_request_refl].
  - case_match; simpl.
    + exists x. split; [done|apply same_request_refl].
    + by apply (put_all_same_request sid rest (enqueue (Some (sid, t0)) s)).
Qed.

Lemma after_put_objects_eq k sid total timed_out r :
  objects (after_put k sid total timed_out r).2 = objects r.1.
Proof.
  destruct (after_put_shape k sid total timed_out r) as [[_ ->]|[_ ->]]; done.
Qed.

Lemma resume_worker_objects st pc s :
  objects (resume_worker st pc s).2 = objects s
  \/ exists f t0,
       objects (resume_worker st pc s).2 = alter f t0 (objects s)
       /\ forall y, same_request y (f y).
Proof.
  unfold resume_worker, acquire, enter_section, after_execute, leave_section,
    except_block.
  repeat case_match; simplify_eq/=; try (by left);
    right; eexists _, _; (split; [reflexivity|by intros y]).
Qed.

Lemma step_same_request s e t x :
  objects s !! t = Some x ->
  exists x', objects (step s e) !! t = Some x' /\ same_request x x'.
Proof.
  intros Ht.
  assert (exists x', objects s !! t = Some x' /\ same_request x x') as Hsame.
  { exists x. split; [done|apply same_request_refl]. }
  destruct e; simpl; try done.
  - exists x. split; [by apply lookup_app_l_Some|apply same_request_refl].
  - unfold execute_agents_parallel. destruct (is_initialized s); [|done].
    set (s2 := with_active_sessions _ _).
    set (sorted_tasks := sorted_desc _ batch).
    pose proof (after_put_objects_eq (length (contexts s)) sid (length batch) timed_out
                  (put_all sid sorted_tasks s2)) as E.
    destruct (after_put _ _ _ _ _) as [st s']. simpl in *. rewrite E.
    by apply put_all_same_request.
  - unfold resume_call.
    destruct (calls s !! c) as [[k sid pending total|k sid total|how res|e]|]; try done.
    + pose proof (after_put_objects_eq k sid total timed_out (resume_put sid pending s))
        as E.
      destruct (after_put _ _ _ _ _) as [st s']. simpl in *. rewrite E.
      by apply resume_put_same_request.
    + pose proof (after_put_objects_eq k sid total timed_out (s, [])) as E. simpl in E.
      destruct (wait_loop _ _ _ _ _) as [st s']. simpl in *. by rewrite E.
  - unfold step_worker. destruct (workers s !! w) as [[st pc]|]; [|done].
    pose proof (resume_worker_objects st pc s) as H.
    destruct (resume_worker st pc s) as [[st' pc'] s']. simpl in *.
    destruct H as [->|(f & t0 & -> & Hf)]; [done|].
    by apply alter_same_request.
  - by rewrite cancel_session_objects.
  - unfold cleanup_session. by case_match.
  - by rewrite cleanup_objects.
  - by rewrite put_signals_objects.
Qed.

(** X10. The engine never writes the request part of a task object.
    Whatever is submitted, executed, cancelled or shut down, a task object
    stays in place and keeps its [task_id], [agent_name], [task_type],
    [priority] and [input_data]. *)
Theorem task_request_is_never_written (s : Engine) (evs : list Event)
    (t : TaskRef) (x : SubAgentTaskModel) :
  objects s !! t = Some x ->
  exists x', objects (run s evs) !! t = Some x' /\ same_request x x'.
Proof.
  revert s x. induction evs as [|e evs IH]; intros s x Ht; simpl.
  - exists x. split; [done|apply same_request_refl].
  - destruct (step_same_request s e t x Ht) as (x1 & H1 & R1).
    destruct (IH _ _ H1) as (x2 & H2 & R2).
    exists x2. split; [done|]. by eapply same_request_trans.
Qed.

Lemma task_request_is_never_written_witness :
  let s := demo_submitted demo_registry None in
  let evs := [ResumeWorker 0; ResumeWorker 0; CancelSession "session-1"; ResumeWorker 0] in
  objects s !! 1 = Some (demo_task "t-critical" "UserCreationAgent" CRITICAL)
  /\ exists x', objects (run s evs) !! 1 = Some x'
                /\ same_request (demo_task "t-critical" "UserCreationAgent" CRITICAL) x'.
Proof.
  intros s evs.
  assert (objects s !! 1 = Some (demo_task "t-critical" "UserCreationAgent" CRITICAL))
    as H by reflexivity.
  split; [exact H|].
  exact (task_request_is_never_written s evs 1 _ H).
Defined.

(** *** A task whose session is gone *)

(** X11. A worker that takes from the queue a task whose session id is
    not (or no longer) registered marks the task FAILED with the
    session-not-found message, counts one failure and returns its permit.
    The task is recorded in no session context.  The except block ends in
    a logging call that raises [TypeError], and so does the handler of the
    worker loop: the worker is gone, and what is left in the queue is not
    taken by it. *)
Theorem unknown_session_fails_task (s : Engine) (w : nat) (st : WorkerStats)
    (sid : string) (t : TaskRef) (q : list (option (string * TaskRef))) :
  workers s !! w = Some (st, WGet) ->
  task_queue s = Some (sid, t) :: q ->
  0 < semaphore s ->
  is_Some (objects s !! t) ->
  active_sessions s !! sid = None ->
  let s' := step s (ResumeWorker w) in
  status (task_of s' t) = FAILED
  /\ error_message (task_of s' t) = Some (session_not_found sid)
  /\ contexts s' = contexts s
  /\ workers s' !! w
     = Some (set_current_task None (incr_tasks_failed st), WRaised TypeError)
  /\ semaphore s' = semaphore s
  /\ task_queue s' = q
  /\ calls s' = calls s
  /\ task_queue (step s' (ResumeWorker w)) = q.
Proof.
  intros Hw Hq Hsem Ht Hsid s'.
  assert (s' = with_workers
                 (<[w := (set_current_task None (incr_tasks_failed st),
                          WRaised TypeError)]> (workers s))
                 (with_semaphore (semaphore s)
                    (update_task
                       (fun x => set_error_message (Some (session_not_found sid))
                                   (set_status FAILED x)) t
                       (with_task_queue q s)))) as ->.
  { subst s'. unfold step, step_worker. rewrite Hw. unfold resume_worker. rewrite Hq.
    unfold acquire. cbn [semaphore with_task_queue].
    destruct (semaphore s) as [|n] eqn:Hn; [lia|].
    unfold enter_section.
    cbn [active_sessions with_semaphore with_task_queue].
    rewrite Hsid. unfold except_block.
    cbn [active_sessions update_task with_objects with_semaphore with_task_queue].
    rewrite Hsid. reflexivity. }
  destruct Ht as [x Hx].
  assert (w < length (workers s)) as Hlt by (by eapply lookup_lt_Some).
  unfold task_of. simpl. rewrite !list_lookup_alter_eq, Hx. simpl.
  split; [done|]. split; [done|]. split; [done|].
  split; [by apply list_lookup_insert_eq|].
  split; [done|]. split; [done|]. split; [done|].
  unfold step_worker. simpl. rewrite list_lookup_insert_eq by done. done.
Qed.

Lemma unknown_session_fails_task_witness :
  let s := run (demo_engine placeholder_registry)
             [Call [0] "session-1" None false; CancelSession "session-1";
              ResumeCall 0 false; CleanupTimer 0] in
  workers s !! 0 = Some (mkStats 0 0 0 None, WGet)
  /\ task_queue s = [Some ("session-1", 0)]
  /\ 0 < semaphore s
  /\ is_Some (objects s !! 0)
  /\ active_sessions s !! "session-1" = None
  /\ status (task_of (step s (ResumeWorker 0)) 0) = FAILED
  /\ error_message (task_of (step s (ResumeWorker 0)) 0)
     = Some "セッション session-1 が見つかりません"
  /\ contexts (step s (ResumeWorker 0)) = contexts s
  /\ workers (step s (ResumeWorker 0)) !! 0 = Some (mkStats 0 0 1 None, WRaised TypeError).
Proof.
  intros s.
  assert (workers s !! 0 = Some (mkStats 0 0 0 None, WGet)) as H1 by reflexivity.
  assert (task_queue s = [Some ("session-1", 0)]) as H2 by reflexivity.
  assert (0 < semaphore s) as H3 by (vm_compute; lia).
  assert (is_Some (objects s !! 0)) as H4 by (vm_compute; eauto).
  assert (active_sessions s !! "session-1" = None) as H5 by (vm_compute; reflexivity).
  pose proof (unknown_session_fails_task s 0 _ "session-1" 0 [] H1 H2 H3 H4 H5)
    as (R1 & R2 & R3 & R4 & _).
  split; [exact H1|]. split; [exact H2|]. split; [exact H3|]. split; [exact H4|].
  split; [exact H5|]. split; [exact R1|]. split; [exact R2|]. split; [exact R3|exact R4].
Defined.

(** ** Shutting down *)

Lemma put_signals_count n s :
  exists m,
    task_queue (put_signals n s) = task_queue s ++ replicate m None
    /\ shutdown_puts (put_signals n s) + m = n.
Proof.
  revert s. induction n as [|n IH]; intros s; simpl.
  - exists 0. simpl. by rewrite app_nil_r.
  - case_match.
    + exists 0. simpl. rewrite app_nil_r. split; [done|lia].
    + destruct (IH (enqueue None s)) as (m & E1 & E2).
      exists (S m). split; [|lia].
      rewrite E1. simpl. by rewrite <- app_assoc.
Qed.

Lemma cancel_all_flags (l : list (string * CtxRef)) s sid k :
  (sid, k) ∈ l -> active_sessions s !! sid = Some k -> k < length (contexts s) ->
  is_cancelled (ctx_of (foldr (fun kv acc => cancel_session kv.1 acc) s l) k) = true.
Proof.
  intros Hin Hk Hlen. induction l as [|kv l IH]; simpl.
  - by apply elem_of_nil in Hin.
  - destruct (cancel_all_spec l s) as (_ & Ea & _ & _ & _ & El). simpl in Ea, El.
    apply elem_of_cons in Hin as [<-|Hin].
    + apply (proj2 (cancel_session_cancelled sid _ k)); simpl;
        [by rewrite Ea|by rewrite El].
    + by apply (proj1 (cancel_session_cancelled kv.1 _ k)), IH.
Qed.

(** X12. [cleanup] on a reachable engine lowers [is_running] (the engine
    still counts as initialised), raises the cancellation flag of every
    registered session, and sends termination signals: as many [None]
    entries as the queue has room for, at most one per worker loop, the
    rest waiting in [put].  It touches no task object and no worker: tasks
    in the queue stay PENDING and agents that run are not interrupted. *)
Theorem shutdown_cancels_every_session (cfg : Settings) (evs : list Event) :
  let s := run (ParallelProcessor_init cfg) evs in
  let s' := step s Cleanup in
  is_running s' = false
  /\ is_initialized s' = is_initialized s
  /\ active_sessions s' = active_sessions s
  /\ (forall sid k, active_sessions s !! sid = Some k ->
        is_cancelled (ctx_of s' k) = true)
  /\ objects s' = objects s
  /\ workers s' = workers s
  /\ exists m,
       task_queue s' = task_queue s ++ replicate m None
       /\ shutdown_puts s' + m = shutdown_puts s + length (workers s).
Proof.
  intros s s'. subst s'. simpl.
  destruct (cleanup_spec s) as (Ea & Ew & _ & Eo & _).
  split; [by destruct (cleanup_shape s) as (c & m & q & ->)|].
  split; [by destruct (cleanup_shape s) as (c & m & q & ->)|].
  split; [done|]. split; [|split; [done|split; [done|]]].
  - intros sid k Hk. unfold cleanup. set (s1 := with_flags _ _ _).
    assert (is_cancelled
              (ctx_of (foldr (fun kv acc => cancel_session kv.1 acc) s1
                         (map_to_list (active_sessions s1))) k) = true) as H.
    { apply (cancel_all_flags _ s1 sid k).
      - by apply elem_of_map_to_list.
      - done.
      - by eapply (valid_sessions _ (run_refs_valid cfg evs)). }
    set (s2 := foldr _ _ _) in *.
    destruct (put_signals_spec (shutdown_puts s2 + length (workers s2)) s2)
      as (m & _ & (Ec & _) & _).
    unfold ctx_of in *. by rewrite Ec.
  - unfold cleanup. set (s1 := with_flags _ _ _).
    destruct (cancel_all_spec (map_to_list (active_sessions s1)) s1)
      as (Eq & _ & Ews & _).
    assert (shutdown_puts (foldr (fun kv acc => cancel_session kv.1 acc) s1
                             (map_to_list (active_sessions s1)))
            = shutdown_puts s) as Ep.
    { by destruct (cancel_all_shape (map_to_list (active_sessions s1)) s1) as (c & ->). }
    set (s2 := foldr _ _ _) in *.
    destruct (put_signals_count (shutdown_puts s2 + length (workers s2)) s2)
      as (m & E1 & E2).
    exists m. rewrite E1. simpl in Eq, Ews. rewrite Eq. split; [done|].
    by rewrite E2, Ep, Ews.
Qed.

Lemma step_is_running s e :
  is_running (step s e)
  = match e with
    | Initialize => true
    | Cleanup => false
    | _ => is_running s
    end.
Proof.
  destruct e; simpl; try done.
  - pose proof (execute_agents_parallel_shape batch sid cb timed_out s) as H.
    simpl in H. destruct (execute_agents_parallel batch sid cb timed_out s) as [st s'].
    destruct H as [[_ [= _ ->]]|(_ & o & q & [[_ E]|[_ E]])]; simpl in *; by subst.
  - pose proof (resume_call_shape c timed_out s) as H.
    destruct (calls s !! c) as [[k sid pending total|k sid total|how res|e]|];
      try (by rewrite H);
      destruct H as (st & o & q & [[_ ->]|[_ ->]]); done.
  - unfold step_worker. destruct (workers s !! w) as [[st pc]|]; [|done].
    destruct (resume_worker_shape st pc s) as (n & q & c & o & E).
    destruct (resume_worker st pc s) as [[st' pc'] s']. simpl in *. by subst.
  - by destruct (cancel_session_shape sid s) as (c & ->).
  - unfold cleanup_session. by case_match.
  - by destruct (cleanup_shape s) as (c & m & q & ->).
  - by destruct (put_signals_shape (shutdown_puts s) s) as (m & q & ->).
Qed.

Lemma run_not_running evs s :
  no_initialize evs -> is_running s = false -> is_running (run s evs) = false.
Proof.
  unfold no_initialize. revert s.
  induction evs as [|e evs IH]; intros s Hevs Hs; simpl; [done|].
  simpl in Hevs. apply andb_prop in Hevs as [He Hevs].
  apply IH; [done|]. rewrite step_is_running. by destruct e.
Qed.

Lemma resume_worker_after_shutdown st pc s :
  is_running s = false ->
  (resume_worker st pc s).1.2 <> WGet
  /\ (holds_permit (resume_worker st pc s).1.2 = 0 ->
      (resume_worker st pc s).1.2 = WExited
      \/ (exists e, (resume_worker st pc s).1.2 = WRaised e)
      \/ exists sid t, (resume_worker st pc s).1.2 = WAcquire sid t).
Proof.
  intros Hrun.
  unfold resume_worker, acquire, enter_section, after_execute, leave_section,
    except_block.
  repeat case_match; simplify_eq/=; try congruence; split; try done; eauto.
Qed.

(** X13. Once [cleanup] has run (and [initialize] is not called again), no
    worker goes back to waiting on the queue: a worker that is resumed
    either is still busy with the one task it had or took, or has left its
    loop (by [break], by the test of [is_running] or by an exception).
    Each worker thus handles at most one more queue entry, and what else
    is in the queue stays there. *)
Theorem workers_leave_after_shutdown (s : Engine) (evs : list Event) (w : nat) :
  no_initialize evs ->
  let s' := run (step s Cleanup) evs in
  is_running s' = false
  /\ forall st pc, workers (step s' (ResumeWorker w)) !! w = Some (st, pc) ->
       pc <> WGet
       /\ (holds_permit pc = 0 ->
           pc = WExited \/ (exists e, pc = WRaised e) \/ exists sid t, pc = WAcquire sid t).
Proof.
  intros Hevs s'.
  assert (is_running s' = false) as Hrun.
  { apply run_not_running; [done|]. by rewrite step_is_running. }
  split; [done|]. intros st pc. simpl. unfold step_worker.
  destruct (workers s' !! w) as [[st0 pc0]|] eqn:Ew; [|by rewrite Ew].
  pose proof (resume_worker_after_shutdown st0 pc0 s' Hrun) as H.
  destruct (resume_worker_frame st0 pc0 s') as (_ & _ & Ews & _).
  destruct (resume_worker st0 pc0 s') as [[st1 pc1] s1]. simpl in *.
  rewrite list_lookup_insert_eq by (rewrite Ews; by eapply lookup_lt_Some).
  by intros [= <- <-].
Qed.

Lemma workers_leave_after_shutdown_witness :
  let s := demo_submitted demo_registry None in
  let evs := [ResumeWorker 0; CancelSession "session-1"] in
  no_initialize evs
  /\ (workers (step (run (step s Cleanup) evs) (ResumeWorker 0))).*2 !! 0 = Some WExited
  /\ forall st pc,
       workers (step (run (step s Cleanup) evs) (ResumeWorker 0)) !! 0 = Some (st, pc) ->
       pc <> WGet.
Proof.
  intros s evs.
  assert (no_initialize evs) as H by reflexivity.
  split; [exact H|]. split; [vm_compute; reflexivity|].
  intros st pc Hw.
  exact (proj1 (proj2 (workers_leave_after_shutdown s evs 0 H) st pc Hw)).
Defined.

(** *** A shutdown that cannot finish *)

Lemma queue_full_same s s' :
  queue_size s' = queue_size s -> task_queue s' = task_queue s ->
  queue_full s' = queue_full s.
Proof. unfold queue_full. by intros -> ->. Qed.

Lemma put_all_full sid pending s :
  queue_full s = true -> task_queue (put_all sid pending s).1 = task_queue s.
Proof.
  intros Hfull. destruct pending as [|t rest]; simpl; [done|].
  assert (queue_full (update_task (set_status PENDING) t s) = true) as -> by done.
  done.
Qed.

Lemma resume_put_full sid pending s :
  queue_full s = true -> task_queue (resume_put sid pending s).1 = task_queue s.
Proof.
  intros Hfull. destruct pending as [|t rest]; simpl; [done|]. by rewrite Hfull.
Qed.

Lemma put_signals_full n s :
  queue_full s = true -> 0 < n -> put_signals n s = with_shutdown_puts n s.
Proof. intros Hfull Hn. destruct n; [lia|]. simpl. by rewrite Hfull. Qed.

Lemma stuck_same s s' :
  shutdown_puts s' = shutdown_puts s -> queue_size s' = queue_size s ->
  task_queue s' = task_queue s -> workers s' = workers s ->
  shutdown_stuck s -> shutdown_stuck s'.
Proof.
  intros Ep Es Eq Ew [H1 H2 H3]. constructor.
  - by rewrite Ep.
  - by rewrite (queue_full_same s s').
  - unfold all_exited. by rewrite Ew.
Qed.

Lemma step_stuck s e :
  is_initialize e = false -> shutdown_stuck s -> shutdown_stuck (step s e).
Proof.
  intros He Hs. pose proof (step_queue_size s e) as Esize.
  pose proof (step_workers s e) as Ews.
  destruct Hs as [H1 H2 H3]. destruct e; try done.
  - apply (stuck_same s); try done.
    + simpl. pose proof (execute_agents_parallel_shape batch sid cb timed_out s) as H.
      simpl in H. destruct (execute_agents_parallel batch sid cb timed_out s) as [st s'].
      destruct H as [[_ [= _ ->]]|(_ & o & q & [[_ E]|[_ E]])]; simpl in *; by subst.
    + simpl. unfold execute_agents_parallel. destruct (is_initialized s); [|done].
      set (s2 := with_active_sessions _ _).
      set (sorted_tasks := sorted_desc _ batch).
      destruct (after_put_spec (length (contexts s)) sid (length batch) timed_out
                  (put_all sid sorted_tasks s2)) as [_ E].
      destruct (after_put _ _ _ _ _) as [st s']. simpl in *. rewrite E.
      by rewrite put_all_full.
  - apply (stuck_same s); try done.
    + simpl. pose proof (resume_call_shape c timed_out s) as H.
      destruct (calls s !! c) as [[k sid pending total|k sid total|how res|e]|];
        try (by rewrite H);
        destruct H as (st & o & q & [[_ ->]|[_ ->]]); done.
    + simpl. unfold resume_call.
      destruct (calls s !! c) as [[k sid pending total|k sid total|how res|e]|]; try done.
      * destruct (after_put_spec k sid total timed_out (resume_put sid pending s))
          as [_ E].
        destruct (after_put _ _ _ _ _) as [st s']. simpl in *. rewrite E.
        by apply resume_put_full.
      * destruct (after_put_spec k sid total timed_out (s, [])) as [_ E]. simpl in E.
        by destruct (wait_loop _ _ _ _ _) as [st s'].
  - simpl in *. unfold step_worker in *.
    destruct (workers s !! w) as [[st pc]|] eqn:Ew; [|by constructor].
    assert (pc = WExited) as -> by (by apply (Forall_lookup_1 _ _ _ _ H3) in Ew).
    simpl. constructor; try done.
    unfold all_exited. simpl. by apply Forall_insert.
  - apply (stuck_same s); try done; simpl.
    + by destruct (cancel_session_shape sid s) as (c & ->).
    + apply cancel_session_spec.
  - simpl. unfold cleanup_session. case_match; by constructor.
  - simpl. unfold cleanup. set (s1 := with_flags _ _ _).
    destruct (cancel_all_spec (map_to_list (active_sessions s1)) s1)
      as (Eq & _ & Ew & _).
    assert (shutdown_puts (foldr (fun kv acc => cancel_session kv.1 acc) s1
                             (map_to_list (active_sessions s1)))
            = shutdown_puts s
            /\ queue_size (foldr (fun kv acc => cancel_session kv.1 acc) s1
                             (map_to_list (active_sessions s1)))
               = queue_size s) as [Ep Es].
    { by destruct (cancel_all_shape (map_to_list (active_sessions s1)) s1) as (c & ->). }
    set (s2 := foldr _ _ _) in *.
    assert (shutdown_stuck s2) as [G1 G2 G3].
    { by apply (stuck_same s). }
    rewrite put_signals_full by (done || lia).
    constructor; simpl; [lia|done|done].
  - simpl. rewrite put_signals_full by done. by constructor.
Qed.

(** X14. A shutdown can hang for good.  Once [cleanup] is suspended in
    [put] on a full queue while every worker loop has ended, no further
    event except a new [initialize] changes that: nothing takes from the
    queue any more, so the [put] is never served and [cleanup] never gets
    to wait for the workers or to stop the thread pool. *)
Theorem shutdown_stays_stuck (s : Engine) (evs : list Event) :
  shutdown_stuck s -> no_initialize evs -> shutdown_stuck (run s evs).
Proof.
  unfold no_initialize. revert s.
  induction evs as [|e evs IH]; intros s Hs Hevs; simpl; [done|].
  simpl in Hevs. apply andb_prop in Hevs as [He Hevs].
  apply IH; [|done]. apply step_stuck; [|done]. by apply negb_true_iff.
Qed.

Lemma shutdown_stays_stuck_witness :
  let s := run (ParallelProcessor_init (mkSettings 1 1 placeholder_registry))
             [Initialize;
              NewTask (demo_task "t-low" "UserCreationAgent" LOW);
              NewTask (demo_task "t-normal" "UserCreationAgent" NORMAL);
              Call [0; 1] "session-1" None false;
              Cleanup; ResumeWorker 0; ResumeCall 0 false] in
  let evs := [ResumeCleanup; ResumeWorker 0; CleanupTimer 0; ResumeCleanup] in
  shutdown_stuck s /\ no_initialize evs /\ shutdown_stuck (run s evs).
Proof.
  intros s evs.
  assert (shutdown_stuck s) as H1.
  { constructor.
    - vm_compute. lia.
    - vm_compute. reflexivity.
    - unfold all_exited. vm_compute. repeat constructor. }
  assert (no_initialize evs) as H2 by reflexivity.
  split; [exact H1|]. split; [exact H2|].
  exact (shutdown_stays_stuck s evs H1 H2).
Defined.

(** *** Shutting down an idle engine *)

Lemma winding_down_worker st pc s :
  winding_down s -> pc = WGet \/ pc = WExited ->
  (resume_worker st pc s).1.2 = WExited
  /\ winding_down (with_workers (workers s) (resume_worker st pc s).2)
  /\ workers (resume_worker st pc s).2 = workers s.
Proof.
  intros [H1 H2 H3] [-> | ->]; simpl.
  - destruct (task_queue s) as [|[[sid t]|] q] eqn:Eq; simpl.
    + rewrite H1. split; [done|]. split; [|done]. constructor; simpl; try done.
      by rewrite Eq.
    + apply Forall_cons in H2 as [? _]. done.
    + split; [done|]. split; [|done]. apply Forall_cons in H2 as [_ H2].
      by constructor.
  - split; [done|]. split; [|done]. by constructor.
Qed.

Lemma winding_down_step w s :
  winding_down s ->
  winding_down (step s (ResumeWorker w))
  /\ length (workers (step s (ResumeWorker w))) = length (workers s)
  /\ (forall v st, workers s !! v = Some (st, WExited) ->
        exists st', workers (step s (ResumeWorker w)) !! v = Some (st', WExited))
  /\ (forall st pc, workers (step s (ResumeWorker w)) !! w = Some (st, pc) ->
        pc = WExited).
Proof.
  intros Hs. simpl. unfold step_worker.
  destruct (workers s !! w) as [[st0 pc0]|] eqn:Ew.
  - assert (pc0 = WGet \/ pc0 = WExited) as Hpc.
    { by apply (Forall_lookup_1 _ _ _ _ (winding_workers _ Hs)) in Ew. }
    destruct (winding_down_worker st0 pc0 s Hs Hpc) as (E1 & [G1 G2 G3] & E3).
    destruct (resume_worker st0 pc0 s) as [[st1 pc1] s1]. simpl in *. subst pc1.
    split; [|split; [|split]].
    + constructor; simpl; try done. rewrite E3. apply Forall_insert; [done|]. by right.
    + by rewrite length_insert, E3.
    + intros v st Hv. rewrite E3. destruct (decide (v = w)) as [->|Hne].
      * exists st1. apply list_lookup_insert_eq. by eapply lookup_lt_Some.
      * exists st. by rewrite list_lookup_insert_ne.
    + intros st pc. rewrite E3.
      rewrite list_lookup_insert_eq by (by eapply lookup_lt_Some). by intros [= _ <-].
  - split; [done|]. split; [done|]. split; [by eauto|].
    intros st pc H. by rewrite Ew in H.
Qed.

Lemma winding_down_stays_out ws s w :
  winding_down s ->
  (forall st pc, workers s !! w = Some (st, pc) -> pc = WExited) ->
  length (workers (run s (ResumeWorker <$> ws))) = length (workers s)
  /\ forall st pc, workers (run s (ResumeWorker <$> ws)) !! w = Some (st, pc) ->
       pc = WExited.
Proof.
  revert s. induction ws as [|w1 ws IH]; intros s Hs Hex; [by split|].
  change (run s (ResumeWorker <$> w1 :: ws))
    with (run (step s (ResumeWorker w1)) (ResumeWorker <$> ws)).
  destruct (winding_down_step w1 s Hs) as (F1 & F2 & F3 & F4).
  rewrite <- F2. apply IH; [done|].
  intros st pc Hl.
  destruct (decide (w = w1)) as [->|Hne]; [by eapply F4|].
  simpl in Hl. unfold step_worker in Hl.
  destruct (workers s !! w1) as [[st1 pc1]|] eqn:E1; [|by eapply Hex].
  destruct (resume_worker_frame st1 pc1 s) as (_ & _ & Ews & _).
  destruct (resume_worker st1 pc1 s) as [[st2 pc2] s2]. simpl in *.
  rewrite Ews, list_lookup_insert_ne in Hl by done. by eapply Hex.
Qed.

Lemma winding_down_ends ws s w :
  winding_down s -> w ∈ ws ->
  length (workers (run s (ResumeWorker <$> ws))) = length (workers s)
  /\ forall st pc, workers (run s (ResumeWorker <$> ws)) !! w = Some (st, pc) ->
       pc = WExited.
Proof.
  revert s. induction ws as [|w0 ws IH]; intros s Hs Hw; [by apply elem_of_nil in Hw|].
  change (run s (ResumeWorker <$> w0 :: ws))
    with (run (step s (ResumeWorker w0)) (ResumeWorker <$> ws)).
  destruct (winding_down_step w0 s Hs) as (G1 & G2 & G3 & G4).
  rewrite <- G2.
  apply elem_of_cons in Hw as [->|Hw].
  - by apply winding_down_stays_out.
  - by apply IH.
Qed.

(** X15. Shutting down an idle engine ends every worker loop that is
    resumed afterwards.  When [cleanup] runs while the queue is empty and
    all workers are parked in [get], each worker leaves its loop at its
    next resumption, on a termination signal or, the queue being empty, on
    the next test of [is_running]; and it stays out. *)
Theorem idle_shutdown_ends_workers (s : Engine) (ws : list nat) (w : nat) :
  idle s -> w ∈ ws ->
  let s' := run (step s Cleanup) (ResumeWorker <$> ws) in
  length (workers s') = length (workers s)
  /\ forall st pc, workers s' !! w = Some (st, pc) -> pc = WExited.
Proof.
  intros Hidle Hw s'. subst s'.
  assert (winding_down (step s Cleanup)) as H0.
  { destruct Hidle as [Hq Hws _]. simpl.
    destruct (cleanup_spec s) as (_ & Ew & _).
    constructor.
    - by destruct (cleanup_shape s) as (c & m & q & ->).
    - unfold cleanup. set (s1 := with_flags _ _ _).
      destruct (cancel_all_spec (map_to_list (active_sessions s1)) s1) as (Eq & _).
      set (s2 := foldr _ _ _) in *.
      destruct (put_signals_count (shutdown_puts s2 + length (workers s2)) s2)
        as (m & -> & _).
      rewrite Eq. simpl. rewrite Hq. simpl. by apply Forall_replicate.
    - by rewrite Ew. }
  assert (length (workers (step s Cleanup)) = length (workers s)) as <-.
  { simpl. by destruct (cleanup_spec s) as (_ & -> & _). }
  by apply winding_down_ends.
Qed.

Lemma idle_shutdown_ends_workers_witness :
  let s := demo_engine placeholder_registry in
  idle s /\ 0 ∈ [0; 0]
  /\ (workers (run (step s Cleanup) (ResumeWorker <$> [0; 0]))).*2 = [WExited]
  /\ forall st pc,
       workers (run (step s Cleanup) (ResumeWorker <$> [0; 0])) !! 0 = Some (st, pc) ->
       pc = WExited.
Proof.
  intros s.
  assert (idle s) as H1.
  { constructor.
    - reflexivity.
    - vm_compute. repeat constructor.
    - intros c. unfold pending_at. by destruct c. }
  assert (0 ∈ [0; 0]) as H2 by (by left).
  split; [exact H1|]. split; [exact H2|]. split; [vm_compute; reflexivity|].
  exact (proj2 (idle_shutdown_ends_workers s [0; 0] 0 H1 H2)).
Defined.

(** ** Calls of [execute_agents_parallel] *)

(** X16. [execute_agents_parallel] raises the not-initialised
    [RuntimeError] exactly on an engine on which [initialize] has never
    run, and then registers no session, marks no task, and schedules no
    clean-up.  Once [initialize] has run the call is accepted, also after
    [cleanup] (which leaves [is_initialized] set): the session is
    registered under a fresh context although no worker may be left to
    serve it. *)
Theorem call_needs_initialize (cfg : Settings) (evs : list Event)
    (batch : list TaskRef) (sid : string) (cb : option Callback) (timed_out : bool) :
  let s := run (ParallelProcessor_init cfg) evs in
  let r := execute_agents_parallel batch sid cb timed_out s in
  match initialisations evs with
  | O => r = (CRaised (RuntimeError not_initialized), s)
  | S _ =>
      r.1 <> CRaised (RuntimeError not_initialized)
      /\ active_sessions r.2 !! sid = Some (length (contexts s))
      /\ ctx_of r.2 (length (contexts s)) = mkCtx sid batch [] [] false cb
  end.
Proof.
  intros s r.
  assert (is_initialized s = negb (initialisations evs =? 0)) as Hinit.
  { unfold s. by rewrite run_is_initialized. }
  destruct (initialisations evs) as [|n]; simpl in Hinit.
  - subst r. unfold execute_agents_parallel. by rewrite Hinit.
  - destruct (execute_agents_parallel_spec batch sid cb timed_out s Hinit)
      as (moved & _ & _ & E3 & E4 & _).
    fold r in E3, E4. split; [|split].
    + subst r. unfold execute_agents_parallel. rewrite Hinit.
      match goal with |- context [after_put ?k ?i ?n ?b ?x] =>
        destruct (after_put_shape k i n b x) as [[H _]|[H _]];
        destruct (after_put k i n b x) as [st s1] eqn:E end; simpl in *.
      * by destruct st.
      * intros ->. clear H.
        match type of E with after_put ?k ?i ?n ?b ?x = _ =>
          destruct x as [s2 [|t rest]]; simpl in E; [|done] end.
        unfold wait_loop, after_wait in E. by repeat case_match.
    + rewrite E4. apply lookup_insert_eq.
    + unfold ctx_of. rewrite E3. by rewrite list_lookup_middle.
Qed.

(** *** The completion rate of a session *)

Lemma completion_rate_unit (c : SessionContext) :
  length (completed_tasks c) <= length (tasks c) ->
  (0 <= completion_rate c)%Q /\ (completion_rate c <= 1)%Q.
Proof.
  intros Hle. unfold completion_rate.
  destruct (tasks c) as [|t l] eqn:E; [done|].
  assert (0 < Z.of_nat (length (t :: l)))%Z as Hpos by (simpl; lia).
  rewrite true_div_pos by done.
  unfold Qle. cbn [Qnum Qden]. rewrite Z2Pos.id by done. split; lia.
Qed.

(** X17. The completion rate of a session stays between 0 and 1.  For a
    batch submitted to an initialised engine under a session id that no
    other call uses, with a progress callback that does not raise, the
    completed list of the session context never gets longer than its task
    list, which is the batch as submitted; [completion_rate] is then a
    fraction of the batch, and 0 for an empty batch. *)
Theorem completion_rate_is_a_fraction (cfg : Settings) (pre post : list Event)
    (batch : list TaskRef) (sid : string) (cb : option Callback) (timed_out : bool) :
  0 < initialisations pre ->
  no_call_for sid pre ->
  no_call_for sid post ->
  never_raises cb ->
  let s0 := run (ParallelProcessor_init cfg) pre in
  let c := ctx_of (run (step s0 (Call batch sid cb timed_out)) post)
             (length (contexts s0)) in
  tasks c = batch
  /\ length (completed_tasks c) <= length batch
  /\ (0 <= completion_rate c)%Q /\ (completion_rate c <= 1)%Q.
Proof.
  intros Hinit Hpre Hpost Hcb s0 c.
  set (k := length (contexts s0)) in *.
  set (s := run (step s0 (Call batch sid cb timed_out)) post) in *.
  assert (is_initialized s0 = true) as Hi.
  { unfold s0. rewrite run_is_initialized. simpl.
    destruct (initialisations pre); [lia|done]. }
  assert (unused sid s0) as Hun by (apply run_unused; [done|apply init_unused]).
  assert (tracked sid k (length (calls s0)) (length batch) s) as Ht.
  { apply run_tracked; [done|]. by apply call_tracked_init. }
  assert (contexts (step s0 (Call batch sid cb timed_out)) !! k
          = Some (mkCtx sid batch [] [] false cb)) as Hk.
  { simpl.
    destruct (execute_agents_parallel_spec batch sid cb timed_out s0 Hi)
      as (moved & _ & _ & E3 & _).
    destruct (execute_agents_parallel batch sid cb timed_out s0) as [st s']. simpl in *.
    rewrite E3. by apply list_lookup_middle. }
  destruct (run_grows post _ k _ Hk) as (c' & Hc' & (_ & Htasks & _)).
  assert (c = c') as ->.
  { subst c s. unfold ctx_of. by rewrite Hc'. }
  simpl in Htasks.
  assert (length (completed_tasks c') <= length batch) as Hle.
  { pose proof (tracked_budget _ _ _ _ _ Ht) as Hb. unfold recorded in Hb.
    subst s. unfold ctx_of in Hb. rewrite Hc' in Hb. simpl in Hb. lia. }
  split; [done|]. split; [done|].
  apply completion_rate_unit. by rewrite Htasks.
Qed.

Lemma completion_rate_is_a_fraction_witness :
  let cfg := mkSettings 1 1000 demo_registry in
  let pre := [Initialize;
              NewTask (demo_task "t-low" "UserCreationAgent" LOW);
              NewTask (demo_task "t-critical" "UserCreationAgent" CRITICAL)] in
  let post := [ResumeWorker 0; ResumeWorker 0] in
  0 < initialisations pre
  /\ no_call_for "session-1" pre
  /\ no_call_for "session-1" post
  /\ never_raises None
  /\ Qeq (completion_rate
            (ctx_of (run (step (run (ParallelProcessor_init cfg) pre)
                            (Call [0; 1] "session-1" None false)) post)
               (length (contexts (run (ParallelProcessor_init cfg) pre)))))
         (1 # 2)
  /\ Qle (completion_rate
            (ctx_of (run (step (run (ParallelProcessor_init cfg) pre)
                            (Call [0; 1] "session-1" None false)) post)
               (length (contexts (run (ParallelProcessor_init cfg) pre)))))
         1.
Proof.
  intros cfg pre post.
  assert (0 < initialisations pre) as H1 by (vm_compute; lia).
  assert (no_call_for "session-1" pre) as H2 by reflexivity.
  assert (no_call_for "session-1" post) as H3 by reflexivity.
  assert (never_raises None) as H4 by (intros f n H; discriminate H).
  split; [exact H1|]. split; [exact H2|]. split; [exact H3|]. split; [exact H4|].
  split; [vm_compute; reflexivity|].
  exact (proj2 (proj2 (proj2
    (completion_rate_is_a_fraction cfg pre post [0; 1] "session-1" None false
       H1 H2 H3 H4)))).
Defined.

(** ** From the queue to the result *)

Lemma dispatch_to_agent (s : Engine) (w : nat) (st : WorkerStats)
    (sid : string) (t : TaskRef) (q : list (option (string * TaskRef)))
    (c : CtxRef) (agent : AgentClass) (n : nat) :
  workers s !! w = Some (st, WGet) ->
  task_queue s = Some (sid, t) :: q ->
  semaphore s = S n ->
  active_sessions s !! sid = Some c ->
  is_cancelled (ctx_of s c) = false ->
  get_agent s (agent_name (task_of s t)) = Some agent ->
  step s (ResumeWorker w)
  = with_workers
      (<[w := (set_current_task (Some (agent_name (task_of s t))) st,
               WExecute sid t c agent (input_data (task_of s t)))]> (workers s))
      (with_semaphore n (with_task_queue q s)).
Proof.
  intros Hw Hq Hsem Hsid Hcan Hreg.
  unfold step, step_worker. rewrite Hw. unfold resume_worker. rewrite Hq.
  unfold acquire. cbn [semaphore with_task_queue]. rewrite Hsem.
  unfold enter_section.
  cbn [active_sessions with_semaphore with_task_queue].
  rewrite Hsid.
  change (task_of (with_semaphore n (with_task_queue q s)) t) with (task_of s t).
  change (ctx_of (with_semaphore n (with_task_queue q s)) c) with (ctx_of s c).
  change (get_agent (with_semaphore n (with_task_queue q s))) with (get_agent s).
  by rewrite Hcan, Hreg.
Qed.

(** X18. A task taken from the queue for a registered agent comes back
    with the agent's result.  When a worker with a free permit takes a task
    of an active, uncancelled session whose agent name is registered, then
    after the agent has run the task carries the status, output data and
    error message of the [AgentResult], it has been appended to the
    completed list of the session if that status is COMPLETED and to the
    failed list otherwise (never to both at this point), and no other task
    object has changed. *)
Theorem dispatched_task_carries_agent_result (s : Engine) (w : nat) (st : WorkerStats)
    (sid : string) (t : TaskRef) (q : list (option (string * TaskRef)))
    (c : CtxRef) (agent : AgentClass) :
  workers s !! w = Some (st, WGet) ->
  task_queue s = Some (sid, t) :: q ->
  0 < semaphore s ->
  is_Some (objects s !! t) ->
  active_sessions s !! sid = Some c ->
  is_Some (contexts s !! c) ->
  is_cancelled (ctx_of s c) = false ->
  get_agent s (agent_name (task_of s t)) = Some agent ->
  let r := BaseAgent_execute agent (input_data (task_of s t)) in
  let s' := run s [ResumeWorker w; ResumeWorker w] in
  status (task_of s' t) = StatusEnum_of (r_status r)
  /\ output_data (task_of s' t) = r_output_data r
  /\ error_message (task_of s' t) = r_error_message r
  /\ completed_tasks (ctx_of s' c)
     = completed_tasks (ctx_of s c) ++ (if decide (r_status r = A_COMPLETED) then [t] else [])
  /\ failed_tasks (ctx_of s' c)
     = failed_tasks (ctx_of s c) ++ (if decide (r_status r = A_COMPLETED) then [] else [t])
  /\ (forall t', t' <> t -> task_of s' t' = task_of s t').
Proof.
  intros Hw Hq Hsem Ht Hsid Hc Hcan Hreg r s'. subst s'.
  destruct (semaphore s) as [|n] eqn:Hn; [lia|].
  unfold run. cbn [foldl].
  rewrite (dispatch_to_agent s w st sid t q c agent n Hw Hq Hn Hsid Hcan Hreg).
  set (st0 := set_current_task _ st).
  set (s1 := with_semaphore n (with_task_queue q s)).
  unfold step, step_worker. cbn [workers with_workers].
  rewrite list_lookup_insert_eq by (by eapply lookup_lt_Some).
  unfold resume_worker. fold r. unfold after_execute.
  destruct Ht as [x Hx]. destruct Hc as [y Hy].
  destruct (decide (r_status r = A_COMPLETED)) as [Hr|Hr];
    destruct (progress_callback (ctx_of _ c)); unfold leave_section;
    unfold task_of, ctx_of, update_ctx, update_task in *; simpl;
    rewrite ?list_lookup_alter_eq, ?Hx, ?Hy; simpl; rewrite ?app_nil_r;
    repeat split; try done;
    intros t' Hne; by rewrite list_lookup_alter_ne.
Qed.

Lemma dispatched_task_carries_agent_result_witness :
  let s := demo_submitted demo_registry None in
  workers s !! 0 = Some (mkStats 0 0 0 None, WGet)
  /\ task_queue s = Some ("session-1", 1) :: [Some ("session-1", 2); Some ("session-1", 0)]
  /\ 0 < semaphore s
  /\ is_Some (objects s !! 1)
  /\ active_sessions s !! "session-1" = Some 0
  /\ is_Some (contexts s !! 0)
  /\ is_cancelled (ctx_of s 0) = false
  /\ get_agent s (agent_name (task_of s 1)) = Some echo_agent
  /\ status (task_of (run s [ResumeWorker 0; ResumeWorker 0]) 1) = COMPLETED
  /\ completed_tasks (ctx_of (run s [ResumeWorker 0; ResumeWorker 0]) 0) = [1].
Proof.
  intros s.
  assert (workers s !! 0 = Some (mkStats 0 0 0 None, WGet)) as H1 by reflexivity.
  assert (task_queue s
          = Some ("session-1", 1) :: [Some ("session-1", 2); Some ("session-1", 0)])
    as H2 by reflexivity.
  assert (0 < semaphore s) as H3 by (vm_compute; lia).
  assert (is_Some (objects s !! 1)) as H4 by (vm_compute; eauto).
  assert (active_sessions s !! "session-1" = Some 0) as H5 by (vm_compute; reflexivity).
  assert (is_Some (contexts s !! 0)) as H6 by (vm_compute; eauto).
  assert (is_cancelled (ctx_of s 0) = false) as H7 by reflexivity.
  assert (get_agent s (agent_name (task_of s 1)) = Some echo_agent) as H8
    by (vm_compute; reflexivity).
  pose proof (dispatched_task_carries_agent_result s 0 _ _ 1 _ 0 echo_agent
                H1 H2 H3 H4 H5 H6 H7 H8) as (R1 & _ & _ & R4 & _).
  split; [exact H1|]. split; [exact H2|]. split; [exact H3|]. split; [exact H4|].
  split; [exact H5|]. split; [exact H6|]. split; [exact H7|]. split; [exact H8|].
  split; [exact R1|exact R4].
Defined.

(** *** Output checks of the agent base classes *)




(** ** One worker serving a batch *)

Lemma finish_agent (s : Engine) (w : nat) (st : WorkerStats)
    (sid : string) (t : TaskRef) (c : CtxRef) (agent : AgentClass) (input : Data) :
  workers s !! w = Some (st, WExecute sid t c agent input) ->
  progress_callback (ctx_of s c) = None ->
  let r := BaseAgent_execute agent input in
  step s (ResumeWorker w)
  = with_workers
      (<[w := (set_current_task None
                 (if decide (r_status r = A_COMPLETED)
                  then incr_tasks_completed st else incr_tasks_failed st),
               if is_running s then WGet else WExited)]> (workers s))
      (with_semaphore (S (semaphore s))
         (update_ctx
            (if decide (r_status r = A_COMPLETED)
             then append_completed t else append_failed t) c
            (update_task
               (fun x => set_error_message (r_error_message r)
                           (set_output_data (r_output_data r)
                              (set_status (StatusEnum_of (r_status r)) x))) t s))).
Proof.
  intros Hw Hcb r.
  unfold step, step_worker. rewrite Hw. unfold resume_worker. fold r.
  unfold after_execute.
  assert (forall g : SessionContext -> SessionContext,
            (forall y, progress_callback (g y) = progress_callback y) ->
            forall s1, contexts s1 = contexts s ->
            progress_callback (ctx_of (update_ctx g c s1) c) = None) as Hkeep.
  { intros g Hg s1 E. unfold ctx_of, update_ctx. simpl. rewrite E.
    rewrite list_lookup_alter_eq. unfold ctx_of in Hcb.
    destruct (contexts s !! c) as [y|]; simpl in *; [by rewrite Hg|done]. }
  destruct (decide (r_status r = A_COMPLETED)) as [Hr|Hr].
  - rewrite Hkeep by done. done.
  - rewrite Hkeep by done. done.
Qed.

Lemma same_request_result (r : AgentResult) (x : SubAgentTaskModel) :
  same_request x
    (set_error_message (r_error_message r)
       (set_output_data (r_output_data r) (set_status (StatusEnum_of (r_status r)) x))).
Proof. by repeat split. Qed.

(** The state of a serving engine after the worker is through with one
    task: the task object altered by [f], the session context by [g]. *)
Lemma serving_next s0 w sid k s st' t n
    (f : SubAgentTaskModel -> SubAgentTaskModel)
    (g : SessionContext -> SessionContext) s1 :
  serving s0 w sid k s ->
  (forall x, same_request x (f x)) ->
  (forall y, is_cancelled (g y) = is_cancelled y
             /\ progress_callback (g y) = progress_callback y) ->
  registry s1 = registry s -> active_sessions s1 = active_sessions s ->
  is_running s1 = is_running s -> objects s1 = objects s ->
  contexts s1 = contexts s ->
  serving s0 w sid k
    (with_workers (<[w := (st', if is_running s then WGet else WExited)]> (workers s))
       (with_semaphore (S n) (update_ctx g k (update_task f t s1)))).
Proof.
  intros [(st & Hw) Hp Hrun Hsid (c & Hc & Hcan & Hcb) Hreg Hlen Hreq] Hf Hg
    E3 E4 E5 E6 E7.
  constructor; simpl.
  - exists st'. rewrite Hrun. apply list_lookup_insert_eq. by eapply lookup_lt_Some.
  - lia.
  - by rewrite E5.
  - by rewrite E4.
  - exists (g c). rewrite E7, list_lookup_alter_eq, Hc. simpl.
    destruct (Hg c) as [-> ->]. done.
  - by rewrite E3.
  - by rewrite length_alter, E6.
  - intros t'. eapply same_request_trans; [apply Hreq|].
    unfold task_of. simpl. rewrite E6.
    destruct (decide (t = t')) as [->|Hne].
    + rewrite list_lookup_alter_eq. destruct (objects s !! t'); simpl; [done|].
      apply same_request_refl.
    + rewrite list_lookup_alter_ne by done. apply same_request_refl.
Qed.

Lemma serving_agent s0 w sid k s t :
  serving s0 w sid k s ->
  get_agent s (agent_name (task_of s t)) = get_agent s0 (agent_name (task_of s0 t))
  /\ input_data (task_of s t) = input_data (task_of s0 t).
Proof.
  intros Hs. destruct (serving_requests _ _ _ _ _ Hs t) as (_ & Hn & _ & _ & Hi).
  unfold get_agent. by rewrite (serving_registry _ _ _ _ _ Hs), Hn, Hi.
Qed.

Lemma serve_one s0 w sid k s t q :
  serving s0 w sid k s ->
  task_queue s = Some (sid, t) :: q ->
  t < length (objects s0) ->
  is_Some (get_agent s0 (agent_name (task_of s0 t))) ->
  let s' := run s [ResumeWorker w; ResumeWorker w] in
  serving s0 w sid k s'
  /\ task_queue s' = q
  /\ calls s' = calls s
  /\ completed_tasks (ctx_of s' k)
     = completed_tasks (ctx_of s k) ++ (if succeeds s0 t then [t] else [])
  /\ failed_tasks (ctx_of s' k)
     = failed_tasks (ctx_of s k) ++ (if succeeds s0 t then [] else [t])
  /\ served s0 s' t
  /\ (forall t', t' <> t -> task_of s' t' = task_of s t').
Proof.
  intros Hs Hq Ht [agent Hreg0] s'. subst s'.
  destruct (serving_agent s0 w sid k s t Hs) as [Hag Hin].
  assert (agent_name (task_of s t) = agent_name (task_of s0 t)) as Hname.
  { by destruct (serving_requests _ _ _ _ _ Hs t) as (_ & -> & _). }
  pose proof Hs as [(st & Hw) Hp Hrun Hsid (c & Hc & Hcan & Hcb) Hreg Hlen Hreq].
  destruct (semaphore s) as [|n] eqn:Hn; [lia|].
  assert (is_cancelled (ctx_of s k) = false) as Hcan'.
  { unfold ctx_of. by rewrite Hc. }
  assert (is_Some (objects s !! t)) as [x Hx].
  { apply lookup_lt_is_Some. by rewrite Hlen. }
  unfold served, succeeds, expected_error. rewrite Hreg0.
  - (* into the agent, then out of it *)
    unfold run. cbn [foldl].
    rewrite (dispatch_to_agent s w st sid t q k agent n Hw Hq Hn Hsid Hcan'
               ltac:(by rewrite Hag)).
    set (st0 := set_current_task _ st).
    set (s1 := with_workers _ _).
    assert (workers s1 !! w
            = Some (st0, WExecute sid t k agent (input_data (task_of s t)))) as Hw1.
    { unfold s1. simpl. apply list_lookup_insert_eq. by eapply lookup_lt_Some. }
    assert (progress_callback (ctx_of s1 k) = None) as Hcb1.
    { unfold ctx_of, s1. simpl. by rewrite Hc. }
    rewrite (finish_agent s1 w st0 sid t k agent _ Hw1 Hcb1).
    rewrite Hin.
    set (r := BaseAgent_execute agent (input_data (task_of s0 t))).
    set (g := if decide (r_status r = A_COMPLETED)
              then append_completed t else append_failed t).
    set (f := fun x => set_error_message (r_error_message r)
                         (set_output_data (r_output_data r)
                            (set_status (StatusEnum_of (r_status r)) x))).
    assert (forall y, is_cancelled (g y) = is_cancelled y
                      /\ progress_callback (g y) = progress_callback y) as Hg.
    { intros y. unfold g. by destruct (decide _). }
    split; [|split; [done|split; [done|]]].
    { assert (<[w := (set_current_task None
                        (if decide (r_status r = A_COMPLETED)
                         then incr_tasks_completed st0 else incr_tasks_failed st0),
                      if is_running s1 then WGet else WExited)]> (workers s1)
              = <[w := (set_current_task None
                          (if decide (r_status r = A_COMPLETED)
                           then incr_tasks_completed st0 else incr_tasks_failed st0),
                        if is_running s then WGet else WExited)]> (workers s)) as ->.
      { unfold s1. simpl. by rewrite list_insert_insert_eq. }
      change (S (semaphore s1)) with (S n).
      apply (serving_next s0 w sid k s _ t n f g s1 Hs); done. }
    unfold ctx_of, task_of, update_ctx, update_task, s1. simpl.
    rewrite !list_lookup_alter_eq, Hc, Hx. simpl.
    unfold g. destruct (decide (r_status r = A_COMPLETED)) as [Hr|Hr]; simpl.
    + rewrite bool_decide_eq_true_2 by done. rewrite Hr. simpl.
      rewrite app_nil_r. repeat split; try done.
      intros t' Hne. by rewrite list_lookup_alter_ne.
    + rewrite bool_decide_eq_false_2 by done. rewrite app_nil_r.
      repeat split; try done.
      * pose proof (BaseAgent_execute_status agent (input_data (task_of s0 t))) as Hst.
        fold r in Hst. destruct Hst as [Hst|Hst]; [done|]. by rewrite Hst.
      * intros t' Hne. by rewrite list_lookup_alter_ne.
Qed.

Lemma serve_all s0 w sid k ts s :
  serving s0 w sid k s ->
  task_queue s = (fun t => Some (sid, t)) <$> ts ->
  (forall t, t ∈ ts -> t < length (objects s0)) ->
  registered s0 ts ->
  let s' := run s (serve_events w ts) in
  serving s0 w sid k s'
  /\ task_queue s' = []
  /\ calls s' = calls s
  /\ completed_tasks (ctx_of s' k)
     = completed_tasks (ctx_of s k) ++ filter (fun t => succeeds s0 t = true) ts
  /\ failed_tasks (ctx_of s' k)
     = failed_tasks (ctx_of s k) ++ filter (fun t => succeeds s0 t = false) ts
  /\ (forall t, t ∈ ts -> served s0 s' t)
  /\ (forall t, t ∉ ts -> task_of s' t = task_of s t).
Proof.
  revert s. induction ts as [|t ts IH]; intros s Hs Hq Hts Hreg.
  - simpl. rewrite !app_nil_r.
    split; [done|]. split; [done|]. split; [done|]. split; [done|].
    split; [done|]. split; [|done].
    intros t Ht. by apply elem_of_nil in Ht.
  - change (serve_events w (t :: ts))
      with ([ResumeWorker w; ResumeWorker w] ++ serve_events w ts).
    cbv zeta. rewrite run_app.
    rewrite fmap_cons in Hq.
    destruct (serve_one s0 w sid k s t _ Hs Hq)
      as (H1 & H2 & H3 & H4 & H5 & H6 & H7).
    { apply Hts. by left. }
    { apply Hreg. by left. }
    set (s1 := run s [ResumeWorker w; ResumeWorker w]) in *.
    destruct (IH s1 H1 H2) as (G1 & G2 & G3 & G4 & G5 & G6 & G7).
    { intros t' Ht'. apply Hts. by right. }
    { intros t' Ht'. apply Hreg. by right. }
    set (s2 := run s1 (serve_events w ts)) in *.
    split; [done|]. split; [done|]. split; [congruence|].
    rewrite G4, G5, H4, H5, !filter_cons, <- !app_assoc.
    split; [|split; [|split]].
    + destruct (succeeds s0 t) eqn:E.
      * by rewrite decide_True by done.
      * by rewrite decide_False by done.
    + destruct (succeeds s0 t) eqn:E.
      * by rewrite decide_False by done.
      * by rewrite decide_True by done.
    + intros t' Ht'. destruct (decide (t' ∈ ts)) as [Hin|Hnin]; [by apply G6|].
      apply elem_of_cons in Ht' as [->|?]; [|done].
      unfold served in *. by rewrite (G7 t Hnin).
    + intros t' Ht'. apply not_elem_of_cons in Ht' as [Hne Hnin].
      rewrite (G7 t' Hnin). by apply H7.
Qed.

Lemma filter_partition_length (b : TaskRef -> bool) (l : list TaskRef) :
  length (filter (fun t => b t = true) l) + length (filter (fun t => b t = false) l)
  = length l.
Proof.
  induction l as [|t l IH]; [done|]. rewrite !filter_cons.
  destruct (b t) eqn:E.
  - rewrite decide_True, decide_False by done. simpl. lia.
  - rewrite decide_False, decide_True by done. simpl. lia.
Qed.

Lemma call_starts_serving s w st batch sid :
  is_initialized s = true -> is_running s = true ->
  workers s !! w = Some (st, WGet) -> 0 < semaphore s ->
  task_queue s = [] -> has_room s (length batch) -> batch <> [] ->
  let k := length (contexts s) in
  let s1 := step s (Call batch sid None false) in
  serving s w sid k s1
  /\ task_queue s1
     = (fun t => Some (sid, t))
         <$> sorted_desc (fun t => priority_value (priority (task_of s t))) batch
  /\ calls s1 = calls s ++ [CSleep k sid (length batch)]
  /\ ctx_of s1 k = mkCtx sid batch [] [] false None.
Proof.
  intros Hinit Hrun Hw Hsem Hq Hroom Hne k s1.
  pose proof (step_is_running s (Call batch sid None false)) as Erun.
  assert (same_request_all :
    forall t, same_request (task_of s t) (task_of s1 t)
              /\ length (objects s1) = length (objects s)).
  { intros t. subst s1.
    assert (length (objects (step s (Call batch sid None false)))
            = length (objects s)) as El.
    { simpl. unfold execute_agents_parallel. rewrite Hinit.
      set (s2 := with_active_sessions _ _).
      set (sorted_tasks := sorted_desc _ batch).
      pose proof (after_put_objects_eq (length (contexts s)) sid (length batch) false
                    (put_all sid sorted_tasks s2)) as E.
      destruct (after_put _ _ _ _ _) as [st1 s']. simpl in *.
      by rewrite E, put_all_objects_length. }
    split; [|done]. unfold task_of.
    destruct (objects s !! t) as [x|] eqn:Hx.
    - destruct (step_same_request s (Call batch sid None false) t x Hx)
        as (x' & -> & R). done.
    - rewrite (proj2 (lookup_ge_None _ _)); [apply same_request_refl|].
      rewrite El. by apply lookup_ge_None. }
  subst s1. simpl in *.
  destruct (execute_agents_parallel_spec batch sid None false s Hinit)
    as (moved & E1 & E2 & E3 & E4 & E5 & E6 & _).
  destruct (execute_agents_parallel_permits batch sid None false s) as (P1 & _ & _).
  assert ((execute_agents_parallel batch sid None false s).1
          = CSleep k sid (length batch)
          /\ registry (execute_agents_parallel batch sid None false s).2 = registry s)
    as [Est Ereg].
  { unfold execute_agents_parallel. rewrite Hinit.
    set (s2 := with_active_sessions _ _).
    set (sorted_tasks := sorted_desc _ batch).
    assert ((put_all sid sorted_tasks s2).2 = []) as Hp.
    { apply put_all_room. unfold has_room in *. simpl.
      unfold sorted_tasks.
      by rewrite (Permutation_length (sorted_desc_perm _ batch)). }
    destruct (put_all_spec sid sorted_tasks s2) as (mv & _ & _ & (Ec & _)).
    destruct (put_all_shape sid sorted_tasks s2) as (o & q & Esh).
    destruct (put_all sid sorted_tasks s2) as [s3 pending]. simpl in *. subst pending.
    simpl. unfold wait_loop.
    assert (ctx_of s3 k = mkCtx sid batch [] [] false None) as Ek.
    { unfold ctx_of. rewrite Ec. simpl. by rewrite list_lookup_middle. }
    fold k. rewrite Ek. unfold wait_check. simpl.
    destruct batch as [|t0 batch']; [done|]. simpl. split; [done|].
    by rewrite Esh. }
  destruct (execute_agents_parallel batch sid None false s) as [st1 s']. simpl in *.
  subst st1.
  assert (pending_of (CSleep k sid (length batch)) = []) as Hp by done.
  rewrite Hp, app_nil_r in E1. subst moved. rewrite Hq in E2. simpl in E2.
  split; [|split; [done|split; [by rewrite E6|]]].
  - constructor; simpl.
    + exists st. by rewrite E5.
    + by rewrite P1.
    + by rewrite Erun.
    + rewrite E4. apply lookup_insert_eq.
    + exists (mkCtx sid batch [] [] false None). rewrite E3.
      split; [by apply list_lookup_middle|done].
    + done.
    + apply (same_request_all 0).
    + intros t. apply (same_request_all t).
  - unfold ctx_of. simpl. rewrite E3. by rewrite list_lookup_middle.
Qed.

Lemma single_worker_run s w st batch sid :
  is_initialized s = true -> is_running s = true ->
  workers s !! w = Some (st, WGet) -> 0 < semaphore s ->
  task_queue s = [] -> has_room s (length batch) -> batch <> [] ->
  (forall t, t ∈ batch -> t < length (objects s)) ->
  registered s batch ->
  let sorted := sorted_desc (fun t => priority_value (priority (task_of s t))) batch in
  let s' := run s (Call batch sid None false
                     :: serve_events w sorted ++ [ResumeCall (length (calls s)) false]) in
  calls s' !! length (calls s) = Some (CReturned ByCompletion (served_result s sorted))
  /\ forall t, t ∈ batch -> served s s' t.
Proof.
  intros Hinit Hrun Hw Hsem Hq Hroom Hne Hvalid Hreg sorted s'. subst s'.
  change (run s (Call batch sid None false
                   :: serve_events w sorted ++ [ResumeCall (length (calls s)) false]))
    with (run (step s (Call batch sid None false))
            (serve_events w sorted ++ [ResumeCall (length (calls s)) false])).
  destruct (call_starts_serving s w st batch sid Hinit Hrun Hw Hsem Hq Hroom Hne)
    as (H1 & H2 & H3 & H4).
  set (k := length (contexts s)) in *.
  set (s1 := step s (Call batch sid None false)) in *.
  rewrite run_app.
  destruct (serve_all s w sid k sorted s1 H1 H2) as (G1 & G2 & G3 & G4 & G5 & G6 & _).
  { intros t Ht. apply Hvalid. unfold sorted in Ht.
    by rewrite (sorted_desc_perm _ batch) in Ht. }
  { intros t Ht. apply Hreg. unfold sorted in Ht.
    by rewrite (sorted_desc_perm _ batch) in Ht. }
  set (s2 := run s1 (serve_events w sorted)) in *.
  rewrite H4 in G4, G5. simpl in G4, G5.
  assert (calls s2 !! length (calls s) = Some (CSleep k sid (length batch))) as Hc.
  { rewrite G3, H3. by apply list_lookup_middle. }
  assert (wait_loop k sid (length batch) false s2
          = (CReturned ByCompletion (served_result s sorted),
             with_cleanup_timers (cleanup_timers s2 ++ [sid]) s2)) as Hwait.
  { unfold wait_loop, wait_check. rewrite G4, G5, filter_partition_length.
    unfold sorted at 1. rewrite (Permutation_length (sorted_desc_perm _ batch)).
    rewrite Nat.leb_refl. unfold after_wait, wait_summary.
    destruct batch as [|t0 batch']; [done|]. cbn [length leave_wait_loop].
    rewrite G4, G5. done. }
  simpl. unfold resume_call. rewrite Hc, Hwait. simpl.
  split.
  - apply list_lookup_insert_eq. by eapply lookup_lt_Some.
  - intros t Ht. unfold served. simpl. apply G6. unfold sorted.
    by rewrite (sorted_desc_perm _ batch).
Qed.

(** X20. One worker takes a batch to completion.  On an initialised,
    running engine with an empty queue that has room for the batch, a
    non-empty batch whose tasks all name registered agents, submitted
    without a progress callback and served by one worker (each task in
    turn, in descending priority), makes the call return through the
    completion test with every task of the batch: first the tasks whose
    agent answers COMPLETED, then the others, each group in the order of
    dispatch; and every task of the batch is left COMPLETED or FAILED
    accordingly, with the error message of its agent. *)
Theorem single_worker_serves_batch (s : Engine) (w : nat) (st : WorkerStats)
    (batch : list TaskRef) (sid : string) :
  is_initialized s = true -> is_running s = true ->
  workers s !! w = Some (st, WGet) -> 0 < semaphore s ->
  task_queue s = [] -> has_room s (length batch) -> batch <> [] ->
  (forall t, t ∈ batch -> t < length (objects s)) ->
  registered s batch ->
  let sorted := sorted_desc (fun t => priority_value (priority (task_of s t))) batch in
  let s' := run s (Call batch sid None false
                     :: serve_events w sorted ++ [ResumeCall (length (calls s)) false]) in
  calls s' !! length (calls s) = Some (CReturned ByCompletion (served_result s sorted))
  /\ length (served_result s sorted) = length batch
  /\ forall t, t ∈ batch -> served s s' t.
Proof.
  intros Hinit Hrun Hw Hsem Hq Hroom Hne Hvalid Hreg sorted s'.
  destruct (single_worker_run s w st batch sid Hinit Hrun Hw Hsem Hq Hroom Hne Hvalid
              Hreg) as [H1 H2].
  split; [exact H1|]. split; [|exact H2].
  unfold served_result. rewrite length_app, filter_partition_length.
  unfold sorted. by rewrite (Permutation_length (sorted_desc_perm _ batch)).
Qed.

Lemma single_worker_serves_batch_witness :
  let s := run (ParallelProcessor_init (mkSettings 1 1000 two_agents))
             [Initialize;
              NewTask (demo_task "t-low" "UserCreationAgent" LOW);
              NewTask (demo_task "t-critical" "StrictAgent" CRITICAL);
              NewTask (demo_task "t-normal" "UserCreationAgent" NORMAL)] in
  let s' := run s (Call [0; 1; 2] "session-1" None false
                     :: serve_events 0
                          (sorted_desc (fun t => priority_value (priority (task_of s t)))
                             [0; 1; 2])
                        ++ [ResumeCall (length (calls s)) false]) in
  is_initialized s = true /\ is_running s = true
  /\ workers s !! 0 = Some (mkStats 0 0 0 None, WGet) /\ 0 < semaphore s
  /\ task_queue s = [] /\ has_room s (length [0; 1; 2]) /\ [0; 1; 2] <> []
  /\ (forall t, t ∈ [0; 1; 2] -> t < length (objects s))
  /\ registered s [0; 1; 2]
  /\ served_result s
       (sorted_desc (fun t => priority_value (priority (task_of s t))) [0; 1; 2])
     = [2; 0; 1]
  /\ calls s' !! length (calls s)
     = Some (CReturned ByCompletion
               (served_result s
                  (sorted_desc (fun t => priority_value (priority (task_of s t)))
                     [0; 1; 2]))).
Proof.
  intros s s'.
  assert (is_initialized s = true) as H1 by reflexivity.
  assert (is_running s = true) as H2 by reflexivity.
  assert (workers s !! 0 = Some (mkStats 0 0 0 None, WGet)) as H3 by reflexivity.
  assert (0 < semaphore s) as H4 by (vm_compute; lia).
  assert (task_queue s = []) as H5 by reflexivity.
  assert (has_room s (length [0; 1; 2])) as H6 by (right; vm_compute; discriminate).
  assert ([0; 1; 2] <> ([] : list nat)) as H7 by discriminate.
  assert (forall t, t ∈ [0; 1; 2] -> t < length (objects s)) as H8.
  { intros t Ht. change (length (objects s)) with 3.
    repeat (apply elem_of_cons in Ht as [->|Ht]; [lia|]). by apply elem_of_nil in Ht. }
  assert (registered s [0; 1; 2]) as H9.
  { intros t Ht.
    repeat (apply elem_of_cons in Ht as [->|Ht]; [vm_compute; eauto|]).
    by apply elem_of_nil in Ht. }
  split; [exact H1|]. split; [exact H2|]. split; [exact H3|]. split; [exact H4|].
  split; [exact H5|]. split; [exact H6|]. split; [exact H7|]. split; [exact H8|].
  split; [exact H9|].
  split; [vm_compute; reflexivity|].
  exact (proj1 (single_worker_serves_batch s 0 _ [0; 1; 2] "session-1"
                  H1 H2 H3 H4 H5 H6 H7 H8 H9)).
Defined.

(** *** Batches do not overtake *)

(** X22. A batch never overtakes what is already queued.  Whatever the
    priorities of its tasks, [execute_agents_parallel] appends them behind
    the entries the queue holds: the queue after the call is the queue
    before followed by the tasks of the batch that found room, in
    descending priority; the rest of the sorted batch waits in [put].
    Priorities order the tasks of one batch only: the next task a worker
    takes is the one that headed the queue before the call. *)
Theorem batch_never_overtakes_queue (s : Engine) (batch : list TaskRef)
    (sid : string) (cb : option Callback) (timed_out : bool) :
  is_initialized s = true ->
  let s' := step s (Call batch sid cb timed_out) in
  let sorted := sorted_desc (fun t => priority_value (priority (task_of s t))) batch in
  exists moved,
    task_queue s' = task_queue s ++ ((fun t => Some (sid, t)) <$> moved)
    /\ sorted = moved ++ pending_at s' (length (calls s))
    /\ (forall item q, task_queue s = item :: q ->
          forall w, dequeued s' (ResumeWorker w) = dequeued s (ResumeWorker w)).
Proof.
  intros Hinit s' sorted. subst s'. simpl.
  destruct (execute_agents_parallel_spec batch sid cb timed_out s Hinit)
    as (moved & E1 & E2 & _ & _ & E5 & E6 & _).
  destruct (execute_agents_parallel batch sid cb timed_out s) as [st s']. simpl in *.
  exists moved. split; [done|]. split.
  - unfold pending_at. simpl. rewrite E6, list_lookup_middle by done. done.
  - intros item q Hq w. rewrite E5, E2, Hq. done.
Qed.

Lemma batch_never_overtakes_queue_witness :
  let s := demo_submitted placeholder_registry None in
  let s' := step s (Call [1] "session-2" None false) in
  is_initialized s = true
  /\ task_queue s' = task_queue s ++ [Some ("session-2", 1)]
  /\ exists moved,
       task_queue s' = task_queue s ++ ((fun t => Some ("session-2", t)) <$> moved)
       /\ sorted_desc (fun t => priority_value (priority (task_of s t))) [1]
          = moved ++ pending_at s' (length (calls s)).
Proof.
  intros s s'.
  assert (is_initialized s = true) as H by reflexivity.
  split; [exact H|]. split; [vm_compute; reflexivity|].
  destruct (batch_never_overtakes_queue s [1] "session-2" None false H)
    as (moved & E1 & E2 & _).
  exists moved. split; [exact E1|exact E2].
Defined.

(** *** The module as it stands *)

Lemma step_registry s e : registry (step s e) = registry s.
Proof.
  destruct e; simpl; try done.
  - pose proof (execute_agents_parallel_shape batch sid cb timed_out s) as H.
    destruct (execute_agents_parallel batch sid cb timed_out s) as [st s'].
    simpl in *.
    destruct H as [[_ [= _ ->]]|[_ (o & q & [[_ ->]|[_ ->]])]]; done.
  - pose proof (resume_call_shape c timed_out s) as H.
    destruct (calls s !! c) as [[k sid pending total|k sid total|how res|e]|];
      try (by rewrite H);
      destruct H as (st & o & q & [[_ ->]|[_ ->]]); done.
  - unfold step_worker. destruct (workers s !! w) as [[st pc]|]; [|done].
    destruct (resume_worker_shape st pc s) as (n & q & c & o & E).
    destruct (resume_worker st pc s) as [[st' pc'] s']. simpl in *. by subst.
  - by destruct (cancel_session_shape sid s) as (c & ->).
  - unfold cleanup_session. by case_match.
  - by destruct (cleanup_shape s) as (c & m & q & ->).
  - by destruct (put_signals_shape (shutdown_puts s) s) as (m & q & ->).
Qed.

Lemma resume_worker_one_failure st pc s :
  registry s = placeholder_registry ->
  one_failure (st, pc) -> one_failure (resume_worker st pc s).1.
Proof.
  intros Hreg [Hc Hf]. simpl in Hc, Hf.
  assert (forall s' name, registry s' = registry s -> get_agent s' name = None) as Hnone.
  { intros s' name E. unfold get_agent. rewrite E, Hreg. apply lookup_empty. }
  assert (forall sid t s', registry s' = registry s -> tasks_failed st = 0 ->
            one_failure (enter_section sid t st s').1) as Henter.
  { intros sid t s' E Hf0. unfold enter_section. rewrite (Hnone s') by done.
    unfold except_block. simpl.
    destruct (active_sessions s' !! sid) as [c|];
      [destruct (is_cancelled (ctx_of s' c))|]; simpl.
    - unfold one_failure. destruct (is_running s'); simpl; by rewrite Hc, Hf0.
    - unfold one_failure. simpl. by rewrite Hc, Hf0.
    - unfold one_failure. simpl. by rewrite Hc, Hf0. }
  destruct pc as [|sid t|sid t c agent input|sid t outcome| |e]; simpl in *; try done.
  - destruct (task_queue s) as [|[[sid t]|] q]; simpl.
    + by destruct (is_running s).
    + unfold acquire. simpl. destruct (semaphore s); [done|]. by apply Henter.
    + done.
  - unfold acquire. destruct (semaphore s); [done|]. by apply Henter.
Qed.

Lemma step_starved s e : starved s -> starved (step s e).
Proof.
  intros [H1 H2 H3 H4]. constructor.
  - by rewrite step_registry.
  - pose proof (step_workers s e) as Hw.
    destruct e; simpl in Hw |- *; rewrite ?Hw; try done.
    + apply Forall_app. split; [done|].
      apply Forall_fmap, Forall_forall. intros i _. done.
    + unfold step_worker in *. destruct (workers s !! w) as [[st pc]|] eqn:Ew; [|done].
      rewrite Hw. apply Forall_insert; [done|].
      apply resume_worker_one_failure; [done|].
      rewrite Forall_lookup in H2. apply (H2 _ _ Ew).
  - by apply step_refs_valid.
  - by apply step_accounted.
Qed.

Lemma starved_init cfg :
  cfg_registry cfg = placeholder_registry -> starved (ParallelProcessor_init cfg).
Proof.
  intros Hreg. constructor; simpl; [done|constructor| |done].
  constructor; simpl; [|constructor]. intros sid k H. by rewrite lookup_empty in H.
Qed.

(** No task is ever completed, and no more tasks fail than there are
    worker loops. *)
Lemma starved_counts s :
  starved s ->
  counted_completed s = 0 /\ completed_records s = 0
  /\ failed_records s <= counted_failed s
  /\ counted_failed s <= length (workers s).
Proof.
  intros [_ H2 _ [H4 H5]].
  assert (counted_completed s = 0) as E0.
  { unfold counted_completed. clear -H2.
    induction H2 as [|w ws [Hw _] _ IH]; simpl; [done|]. by rewrite Hw, IH. }
  split; [done|]. split; [by rewrite <- H4|]. split; [done|].
  unfold counted_failed. clear -H2.
  induction H2 as [|[st pc] ws [_ Hf] _ IH]; simpl; [done|].
  destruct pc; simpl in Hf; try done; lia.
Qed.

Lemma starved_recorded s k :
  starved s -> recorded s k <= length (workers s).
Proof.
  intros Hs. destruct (starved_counts s Hs) as (_ & E1 & E2 & E3).
  unfold recorded, ctx_of.
  destruct (contexts s !! k) as [c|] eqn:Hc; simpl; [|lia].
  pose proof (sum_list_with_lookup_le (fun c => length (completed_tasks c)) _ _ _ Hc)
    as L1.
  pose proof (sum_list_with_lookup_le (fun c => length (failed_tasks c)) _ _ _ Hc)
    as L2.
  unfold completed_records, failed_records in *. simpl in *. lia.
Qed.

Lemma call_short_mono n s s' st :
  length (contexts s) <= length (contexts s') ->
  length (workers s) <= length (workers s') ->
  call_short n s st -> call_short n s' st.
Proof.
  intros Hc Hw. destruct st as [k sid p total|k sid total|[] res|e]; simpl; try done;
    intros [? ?]; split; lia.
Qed.

Lemma wait_loop_short k sid total timed_out s :
  starved s -> k < length (contexts s) ->
  call_short total s (wait_loop k sid total timed_out s).1.
Proof.
  intros Hs Hk.
  destruct (wait_loop_spec k sid total timed_out s) as (_ & _ & [E|[E|(how & Hc & E)]]);
    rewrite E; simpl; try done.
  destruct how; try done.
  apply wait_check_completion in Hc. rewrite length_app.
  pose proof (starved_recorded s k Hs) as Hr. unfold recorded in Hr. lia.
Qed.

Lemma after_put_short k sid total timed_out r :
  starved r.1 -> k < length (contexts r.1) ->
  call_short total r.1 (after_put k sid total timed_out r).1.
Proof.
  intros Hs Hk. destruct r as [s [|t rest]]; simpl in *; [|done].
  by apply wait_loop_short.
Qed.

Lemma starved_same s s' :
  registry s' = registry s -> same_sessions s s' -> starved s -> starved s'.
Proof.
  intros Er (Ec & Ea & Ew & _) [H1 H2 [H3 H3'] [H4 H5]]. constructor.
  - by rewrite Er.
  - by rewrite Ew.
  - constructor; by rewrite ?Ea, ?Ec, ?Ew.
  - unfold accounted, counted_completed, counted_failed, completed_records,
      failed_records in *. by rewrite Ew, Ec.
Qed.

Lemma step_call_short n c s e :
  starved s ->
  (exists st, calls s !! c = Some st /\ call_short n s st) ->
  exists st, calls (step s e) !! c = Some st /\ call_short n (step s e) st.
Proof.
  intros Hs (st & Hc & Hst).
  assert (c < length (calls s)) as Hlt by (by eapply lookup_lt_Some).
  pose proof (step_contexts_length s e) as Lc.
  assert (length (workers s) <= length (workers (step s e))) as Lw
    by (rewrite step_workers_length; lia).
  assert ((exists b, e = ResumeCall c b) \/ forall b, e <> ResumeCall c b) as [[b ->]|He].
  { destruct e; try (right; congruence).
    destruct (decide (c0 = c)) as [->|Hne]; [left; eauto|right; congruence]. }
  - simpl in *. unfold resume_call in *. rewrite Hc in *.
    destruct st as [k sid pending total|k sid total|how res|e].
    + destruct Hst as [-> Hk].
      destruct (resume_put_spec sid pending s) as (moved & _ & _ & E3).
      destruct (resume_put_shape sid pending s) as (o & q & E4).
      assert (starved (resume_put sid pending s).1) as Hs1.
      { eapply starved_same; [|exact E3|exact Hs]. by rewrite E4. }
      assert (k < length (contexts (resume_put sid pending s).1)) as Hk1.
      { destruct E3 as (-> & _). done. }
      pose proof (after_put_short k sid n b (resume_put sid pending s) Hs1 Hk1) as Hshort.
      destruct (after_put_spec k sid n b (resume_put sid pending s)) as [F1 _].
      destruct (after_put k sid n b (resume_put sid pending s)) as [st' s'].
      simpl in *. exists st'. split.
      * apply list_lookup_insert_eq.
        destruct F1 as (_ & _ & _ & G). destruct E3 as (_ & _ & _ & G').
        by rewrite G, G'.
      * eapply call_short_mono; [| |exact Hshort]; simpl.
        -- by destruct F1 as (-> & _).
        -- by destruct F1 as (_ & _ & -> & _).
    + destruct Hst as [-> Hk].
      pose proof (wait_loop_short k sid n b s Hs Hk) as Hshort.
      destruct (wait_loop_spec k sid n b s) as (F1 & _ & _).
      destruct (wait_loop k sid n b s) as [st' s']. simpl in *.
      exists st'. split.
      * apply list_lookup_insert_eq. by destruct F1 as (_ & _ & _ & ->).
      * eapply call_short_mono; [| |exact Hshort]; simpl.
        -- by destruct F1 as (-> & _).
        -- by destruct F1 as (_ & _ & -> & _).
    + exists (CReturned how res). done.
    + exists (CRaised e). done.
  - exists st. split; [|by eapply call_short_mono].
    assert ((exists c' b, e = ResumeCall c' b) \/ forall c' b, e <> ResumeCall c' b)
      as [(c' & b & ->)|He'] by (destruct e; eauto).
    + simpl. rewrite resume_call_other; [done|]. intros <-. by destruct (He b).
    + by rewrite step_calls.
Qed.

Lemma run_call_short n c evs s :
  starved s ->
  (exists st, calls s !! c = Some st /\ call_short n s st) ->
  starved (run s evs)
  /\ exists st, calls (run s evs) !! c = Some st /\ call_short n (run s evs) st.
Proof.
  revert s. induction evs as [|e evs IH]; intros s Hs Hc; simpl; [done|].
  apply IH; [by apply step_starved|by apply step_call_short].
Qed.

Lemma call_short_made batch sid cb timed_out s :
  starved s ->
  exists st, calls (step s (Call batch sid cb timed_out)) !! length (calls s) = Some st
             /\ call_short (length batch) (step s (Call batch sid cb timed_out)) st.
Proof.
  intros Hs. simpl. unfold execute_agents_parallel.
  destruct (is_initialized s) eqn:Hinit.
  - set (s2 := with_active_sessions _ _).
    set (sorted_tasks := sorted_desc _ batch).
    destruct (put_all_spec sid sorted_tasks s2) as (moved & _ & _ & E3).
    destruct (put_all_shape sid sorted_tasks s2) as (o & q & E4).
    assert (starved s2) as Hs2.
    { pose proof (step_starved s (Call batch sid cb true) Hs) as H.
      simpl in H. unfold execute_agents_parallel in H. rewrite Hinit in H.
      fold s2 sorted_tasks in H.
      destruct (put_all_spec sid sorted_tasks s2) as (mv & _ & _ & G3).
      destruct (put_all_shape sid sorted_tasks s2) as (o' & q' & G4).
      destruct (after_put_spec (length (contexts s)) sid (length batch) true
                  (put_all sid sorted_tasks s2)) as [G5 _].
      pose proof (after_put_shape (length (contexts s)) sid (length batch) true
                    (put_all sid sorted_tasks s2)) as G6.
      destruct (after_put (length (contexts s)) sid (length batch) true
                  (put_all sid sorted_tasks s2)) as [st1 s1]. simpl in *.
      pose proof (same_sessions_trans _ _ _ G3 G5) as (Ec & Ea & Ew & El).
      destruct H as [K1 K2 [K3 K3'] [K4 K5]]. simpl in *.
      constructor.
      - destruct G6 as [[_ ->]|[_ ->]]; simpl in K1; by rewrite G4 in K1.
      - by rewrite Ew in K2.
      - constructor; [by rewrite Ea, Ec in K3|by rewrite Ec, Ew in K3'].
      - unfold accounted, counted_completed, counted_failed, completed_records,
          failed_records in *. simpl in *. by rewrite Ew, Ec in K4, K5. }
    assert (starved (put_all sid sorted_tasks s2).1) as Hs3.
    { eapply starved_same; [|exact E3|exact Hs2]. by rewrite E4. }
    assert (length (contexts s) < length (contexts (put_all sid sorted_tasks s2).1))
      as Hk.
    { destruct E3 as (-> & _). simpl. rewrite length_app. simpl. lia. }
    pose proof (after_put_short (length (contexts s)) sid (length batch) timed_out
                  (put_all sid sorted_tasks s2) Hs3 Hk) as Hshort.
    destruct (after_put_spec (length (contexts s)) sid (length batch) timed_out
                (put_all sid sorted_tasks s2)) as [F1 _].
    destruct (after_put (length (contexts s)) sid (length batch) timed_out
                (put_all sid sorted_tasks s2)) as [st' s']. simpl in *.
    exists st'. split.
    + apply list_lookup_middle.
      destruct F1 as (_ & _ & _ & G). destruct E3 as (_ & _ & _ & G').
      by rewrite G, G'.
    + eapply call_short_mono; [| |exact Hshort]; simpl.
      * by destruct F1 as (-> & _).
      * by destruct F1 as (_ & _ & -> & _).
  - simpl. exists (CRaised (RuntimeError not_initialized)).
    split; [by apply list_lookup_middle|done].
Qed.

(** X21. With [get_agent] as the module defines it (the placeholder that
    finds no agent), every worker loop ends with the first task it gets as
    far as looking up: the task is marked FAILED, and the logging call of
    the except block takes the worker down.  So in every reachable state
    no agent is being run, no task has been completed, no more tasks have
    been recorded as failed than there are worker loops, and a batch with
    more tasks than there are worker loops has not come back through the
    completion test: its call waits, or ends by the time-out or a
    cancellation. *)
Theorem placeholder_get_agent_starves_batches (cfg : Settings)
    (pre post : list Event) (batch : list TaskRef) (sid : string)
    (cb : option Callback) (timed_out : bool) :
  cfg_registry cfg = placeholder_registry ->
  let s0 := run (ParallelProcessor_init cfg) pre in
  let s := run (step s0 (Call batch sid cb timed_out)) post in
  Forall one_failure (workers s)
  /\ in_section s = 0
  /\ completed_records s = 0
  /\ failed_records s <= length (workers s)
  /\ (length (workers s) < length batch ->
      forall result, calls s !! length (calls s0) <> Some (CReturned ByCompletion result)).
Proof.
  intros Hreg s0 s.
  assert (starved s0) as Hs0.
  { apply (run_invariant starved); [apply step_starved|by apply starved_init]. }
  destruct (run_call_short (length batch) (length (calls s0)) post
              (step s0 (Call batch sid cb timed_out)))
    as [Hs (st & Hc & Hst)];
    [by apply step_starved|by apply call_short_made|].
  fold s in Hs, Hc, Hst.
  destruct (starved_counts s Hs) as (_ & E1 & E2 & E3).
  split; [apply (starved_workers _ Hs)|]. split; [|split; [done|split; [lia|]]].
  - unfold in_section. pose proof (starved_workers _ Hs) as H. clear -H.
    induction H as [|[st pc] ws [_ Hf] _ IH]; simpl; [done|].
    rewrite IH. by destruct pc.
  - intros Hlt result Hres. rewrite Hres in Hc. injection Hc as <-.
    simpl in Hst. lia.
Qed.

Lemma placeholder_get_agent_starves_batches_witness :
  let cfg := mkSettings 1 1000 placeholder_registry in
  let pre := [Initialize;
              NewTask (demo_task "t-low" "UserCreationAgent" LOW);
              NewTask (demo_task "t-critical" "UserCreationAgent" CRITICAL);
              NewTask (demo_task "t-normal" "UserCreationAgent" NORMAL)] in
  let post := [ResumeWorker 0; ResumeWorker 0; ResumeWorker 0; ResumeCall 0 false] in
  let s := run (step (run (ParallelProcessor_init cfg) pre)
                  (Call [0; 1; 2] "session-1" None false)) post in
  cfg_registry cfg = placeholder_registry
  /\ status <$> objects s = [PENDING; FAILED; PENDING]
  /\ workers s = [(mkStats 0 0 1 None, WRaised TypeError)]
  /\ calls s = [CSleep 0 "session-1" 3]
  /\ forall result, calls s !! 0 <> Some (CReturned ByCompletion result).
Proof.
  intros cfg pre post s.
  assert (cfg_registry cfg = placeholder_registry) as H by reflexivity.
  split; [exact H|]. split; [vm_compute; reflexivity|].
  split; [vm_compute; reflexivity|]. split; [vm_compute; reflexivity|].
  destruct (placeholder_get_agent_starves_batches cfg pre post [0; 1; 2] "session-1"
              None false H) as (_ & _ & _ & _ & R).
  apply R. vm_compute. lia.
Defined.

(** * The DNS server check of [NetworkInterfaceModel] *)

Lemma append_nil_l (s : string) : "" +:+ s = s.
Proof. reflexivity. Qed.

Lemma append_cons (c : ascii) (s1 s2 : string) :
  String c s1 +:+ s2 = String c (s1 +:+ s2).
Proof. reflexivity. Qed.

Lemma append_nil_r (s : string) : s +:+ "" = s.
Proof.
  induction s as [|c s IH]; [done|]. by rewrite append_cons, IH.
Qed.

Lemma append_assoc (s1 s2 s3 : string) : (s1 +:+ s2) +:+ s3 = s1 +:+ (s2 +:+ s3).
Proof.
  induction s1 as [|c s1 IH]; [done|]. by rewrite !append_cons, IH.
Qed.

(** The matcher accepts exactly the splits of the input into a word of the
    expression and a rest the continuation accepts. *)
Lemma match_here_spec (r : Regex) (s : string) (k : string -> bool) :
  match_here r s k = true
  <-> exists s1 s2, s = s1 +:+ s2 /\ lang r s1 /\ k s2 = true.
Proof.
  revert s k. induction r as [c|lo hi|cs|r1 IH1 r2 IH2|r1 IH1 r2 IH2|r IH|];
    intros s k; simpl.
  - destruct s as [|x s']; split.
    + done.
    + intros (s1 & s2 & E & -> & _). done.
    + intros [Hx Hk]%andb_true_iff. apply Ascii.eqb_eq in Hx as ->.
      by exists (String c ""), s'.
    + intros (s1 & s2 & E & -> & Hk). rewrite append_cons, append_nil_l in E. injection E as -> ->.
      by rewrite Ascii.eqb_refl.
  - destruct s as [|x s']; split.
    + done.
    + intros (s1 & s2 & E & (y & -> & _) & _). done.
    + intros [Hx Hk]%andb_true_iff. exists (String x ""), s'. eauto.
    + intros (s1 & s2 & E & (y & -> & Hy) & Hk). rewrite append_cons, append_nil_l in E. injection E as -> ->.
      by rewrite Hy.
  - destruct s as [|x s']; split.
    + done.
    + intros (s1 & s2 & E & (y & -> & _) & _). done.
    + intros [Hx Hk]%andb_true_iff. exists (String x ""), s'. eauto.
    + intros (s1 & s2 & E & (y & -> & Hy) & Hk). rewrite append_cons, append_nil_l in E. injection E as -> ->.
      by rewrite Hy.
  - rewrite IH1. split.
    + intros (s1 & s2 & -> & H1 & (s3 & s4 & -> & H2 & Hk)%IH2).
      exists (s1 +:+ s3), s4. rewrite append_assoc. eauto 10.
    + intros (s' & s4 & -> & (s1 & s3 & -> & H1 & H2) & Hk).
      exists s1, (s3 +:+ s4). rewrite append_assoc. split; [done|]. split; [done|].
      apply IH2. eauto.
  - rewrite orb_true_iff, IH1, IH2. split.
    + intros [(s1 & s2 & -> & H & Hk)|(s1 & s2 & -> & H & Hk)]; eauto 10.
    + intros (s1 & s2 & -> & [H|H] & Hk); eauto 10.
  - rewrite orb_true_iff, IH. split.
    + intros [(s1 & s2 & -> & H & Hk)|Hk]; [eauto 10|].
      exists "", s. eauto.
    + intros (s1 & s2 & -> & [->|H] & Hk); [by right|]. left. eauto.
  - split.
    + intros Hk. by exists "", s.
    + by intros (s1 & s2 & -> & -> & Hk).
Qed.

Lemma at_end_spec (s : string) :
  at_end s = true <-> s = "" \/ s = String "010" "".
Proof.
  destruct s as [|c [|d s]]; simpl.
  - split; [by left|done].
  - rewrite Ascii.eqb_eq. split; [intros ->; by right|].
    by intros [|[= ->]].
  - split; [done|]. by intros [|].
Qed.

Lemma in_range_spec (lo hi x : ascii) :
  in_range lo hi x = true
  <-> nat_of_ascii lo <= nat_of_ascii x <= nat_of_ascii hi.
Proof. unfold in_range. rewrite andb_true_iff, !Nat.leb_le. done. Qed.

Lemma ascii_of_code (x c : ascii) : nat_of_ascii x = nat_of_ascii c -> x = c.
Proof.
  intros E. by rewrite <- (ascii_nat_embedding x), E, ascii_nat_embedding.
Qed.

Lemma zero_or_one_spec (x : ascii) :
  existsb (Ascii.eqb x) ["0"; "1"]%char = true
  <-> 48 <= nat_of_ascii x <= 49.
Proof.
  simpl. rewrite orb_false_r, orb_true_iff, !Ascii.eqb_eq. split.
  - intros [->| ->]; vm_compute; lia.
  - intros H.
    destruct (decide (nat_of_ascii x = 48)) as [E|E].
    + left. by apply ascii_of_code.
    + right. apply ascii_of_code. change (nat_of_ascii "1") with 49. lia.
Qed.

(** The words of the octet expression are the octets. *)
Lemma lang_octet (s : string) : lang octet s <-> is_octet s.
Proof.
  split.
  - intros [H|[H|H]].
    + destruct H as (s1 & s' & -> & -> & s2 & s3 & -> & -> & c & -> & Hc).
      apply in_range_spec in Hc. change (nat_of_ascii "0") with 48 in Hc.
      change (nat_of_ascii "5") with 53 in Hc.
      rewrite ?append_cons, ?append_nil_l. simpl.
      unfold is_digit, digit_value. change (nat_of_ascii "2") with 50.
      change (nat_of_ascii "5") with 53. lia.
    + destruct H as (s1 & s' & -> & -> & s2 & s3 & -> & (b & -> & Hb) & c & -> & Hc).
      apply in_range_spec in Hb, Hc. change (nat_of_ascii "0") with 48 in Hb, Hc.
      change (nat_of_ascii "4") with 52 in Hb. change (nat_of_ascii "9") with 57 in Hc.
      rewrite ?append_cons, ?append_nil_l. simpl.
      unfold is_digit, digit_value. change (nat_of_ascii "2") with 50. lia.
    + destruct H as (s1 & s' & -> & H1 & s2 & s3 & -> & (b & -> & Hb) & H3).
      apply in_range_spec in Hb. change (nat_of_ascii "0") with 48 in Hb.
      change (nat_of_ascii "9") with 57 in Hb.
      destruct H1 as [->|(a & -> & Ha)]; destruct H3 as [->|(c & -> & Hc)];
        rewrite ?append_cons, ?append_nil_l; simpl;
        try apply zero_or_one_spec in Ha;
        try (apply in_range_spec in Hc; change (nat_of_ascii "0") with 48 in Hc;
             change (nat_of_ascii "9") with 57 in Hc);
        unfold is_digit, digit_value; lia.
  - destruct s as [|a [|b [|c [|d s]]]]; simpl; try done.
    + intros Ha. right. right.
      exists "", (String a ""). split; [done|]. split; [by left|].
      exists (String a ""), "". split; [done|]. split; [|by left].
      exists a. split; [done|]. by apply in_range_spec.
    + intros [Ha Hb]. right. right.
      exists "", (String a (String b "")). split; [done|]. split; [by left|].
      exists (String a ""), (String b ""). split; [done|]. split.
      * exists a. split; [done|]. by apply in_range_spec.
      * right. exists b. split; [done|]. by apply in_range_spec.
    + intros (Ha & Hb & Hc & Hv). unfold is_digit, digit_value in *.
      destruct (decide (nat_of_ascii a <= 49)) as [Ea|Ea].
      { right. right.
        exists (String a ""), (String b (String c "")). split; [done|]. split.
        - right. exists a. split; [done|]. apply zero_or_one_spec. lia.
        - exists (String b ""), (String c ""). split; [done|]. split.
          + exists b. split; [done|]. by apply in_range_spec.
          + right. exists c. split; [done|]. by apply in_range_spec. }
      assert (a = "2"%char) as ->.
      { apply ascii_of_code. change (nat_of_ascii "2") with 50. lia. }
      change (nat_of_ascii "2") with 50 in Hv.
      destruct (decide (nat_of_ascii b <= 52)) as [Eb|Eb].
      { right. left.
        exists "2", (String b (String c "")). split; [done|]. split; [done|].
        exists (String b ""), (String c ""). split; [done|]. split.
        - exists b. split; [done|]. apply in_range_spec.
          change (nat_of_ascii "0") with 48. change (nat_of_ascii "4") with 52. lia.
        - exists c. split; [done|]. by apply in_range_spec. }
      assert (b = "5"%char) as ->.
      { apply ascii_of_code. change (nat_of_ascii "5") with 53. lia. }
      change (nat_of_ascii "5") with 53 in Hv.
      left. exists "2", (String "5" (String c "")). split; [done|]. split; [done|].
      exists "5", (String c ""). split; [done|]. split; [done|].
      exists c. split; [done|]. apply in_range_spec.
      change (nat_of_ascii "0") with 48. change (nat_of_ascii "5") with 53. lia.
Qed.

(** The words of the address pattern are the dotted quads. *)
Lemma lang_ip_pattern (s : string) : lang ip_pattern s <-> dotted_quad s.
Proof.
  unfold ip_pattern, dotted_quad. cbn [lang times]. split.
  - intros (s' & d & -> & (s1 & s1' & -> & (a & ? & -> & Ha & ->)
                          & s2 & s2' & -> & (b & ? & -> & Hb & ->)
                          & s3 & s3' & -> & (c & ? & -> & Hc & ->) & ->) & Hd).
    exists a, b, c, d. rewrite <- !lang_octet.
    split; [|done]. by rewrite !append_assoc.
  - intros (a & b & c & d & -> & Ha & Hb & Hc & Hd). rewrite <- lang_octet in *.
    exists (a +:+ "." +:+ b +:+ "." +:+ c +:+ "."), d. split.
    { by rewrite !append_assoc. }
    split; [|done].
    exists (a +:+ "."), (b +:+ "." +:+ c +:+ "."). split.
    { by rewrite !append_assoc. }
    split; [by exists a, "."|].
    exists (b +:+ "."), (c +:+ "."). split.
    { by rewrite !append_assoc. }
    split; [by exists b, "."|].
    exists (c +:+ "."), "". split; [by rewrite append_nil_r|].
    split; [by exists c, "."|done].
Qed.

(** What [re.match] with the address pattern accepts. *)
Lemma re_match_ip_pattern (s : string) :
  re_match ip_pattern s = true <-> dns_address s.
Proof.
  unfold re_match, dns_address. rewrite match_here_spec. split.
  - intros (s1 & s2 & -> & H%lang_ip_pattern & [->| ->]%at_end_spec).
    + left. by rewrite append_nil_r.
    + right. eauto.
  - intros [H|(s0 & -> & H)].
    + exists s, "". rewrite append_nil_r, lang_ip_pattern. done.
    + exists s0, (String "010" ""). rewrite lang_ip_pattern. done.
Qed.

(** X23. [validate_dns_servers] returns the list it is given exactly when
    every entry is a dotted quad (four groups of one to three ASCII digits
    that denote a number up to 255, leading zeros allowed, separated by
    dots), possibly followed by one line feed; otherwise it raises
    [ValueError] with the first entry that is not one, appended to the
    text of the message. *)
Theorem dns_servers_are_dotted_quads (v : list string) :
  match validate_dns_servers v with
  | Valid v' => v' = v /\ Forall dns_address v
  | ValueError msg =>
      exists pre dns post,
        v = pre ++ dns :: post
        /\ Forall dns_address pre /\ ~ dns_address dns
        /\ msg = "無効なDNSサーバーアドレス: " +:+ dns
  end.
Proof.
  unfold validate_dns_servers.
  assert (match first_invalid_dns v with
          | Some dns => exists pre post,
              v = pre ++ dns :: post /\ Forall dns_address pre /\ ~ dns_address dns
          | None => Forall dns_address v
          end) as H.
  { induction v as [|dns v IH]; simpl; [done|].
    destruct (re_match ip_pattern dns) eqn:E.
    - apply re_match_ip_pattern in E.
      destruct (first_invalid_dns v) as [bad|].
      + destruct IH as (pre & post & -> & Hpre & Hbad).
        exists (dns :: pre), post. split; [done|]. split; [by constructor|done].
      + by constructor.
    - exists [], v. split; [done|]. split; [done|].
      intros H%re_match_ip_pattern. congruence. }
  destruct (first_invalid_dns v) as [dns|]; [|done].
  destruct H as (pre & post & -> & Hpre & Hbad). by exists pre, dns, post.
Qed.

(** The line feed is let through, and so are leading zeros. *)
Example dns_entry_with_line_feed :
  validate_dns_servers [String "8" (String "." (String "8" (String "." (String "8"
    (String "." (String "8" (String "010" "")))))))]
  = Valid [String "8" (String "." (String "8" (String "." (String "8"
    (String "." (String "8" (String "010" "")))))))].
Proof. reflexivity. Qed.

Example dns_entries_checked_in_order :
  validate_dns_servers ["010.001.0.255"; "192.168.1.256"; "dns.example"]
  = ValueError "無効なDNSサーバーアドレス: 192.168.1.256".
Proof. reflexivity. Qed.
